(** * EdgeDB [setup.py]: build orchestration

    A shallow embedding of the build steps of [setup.py]
    ([_compile_postgres], [_compile_parsers], [_check_rust] and
    [build_ext.run]) and of the commands that call them
    ([build_postgres], [develop], [gen_build_cache_key], the options of
    [build_ext]) over a small model of the host: a file-system tree
    with inode numbers, the process environment, and oracles for the
    external tools the script calls ([git], [configure], [make],
    [rustc], [cargo], the [parsing] library, [setuptools-rust],
    [setuptools], [distutils]).

    Conventions of the model:
    - a path is the list of its components below the root; symbolic
      links and [..] components are outside the model, so a resolved
      path is the path itself;
    - a file holds text; newline translation of text mode, permissions
      and time stamps are not modelled; text is ASCII;
    - every effect appends an entry to a trace, together with the file
      system as it is right after the effect. *)

From Stdlib Require Import ZArith Lia Ascii String.
From stdpp Require Import base option list strings gmap pretty.

#[local] Set Warnings "-register-all".
#[local] Open Scope Z_scope.

(** ** Python strings *)

Module PyStr.

(** [s[0]], [None] standing for [IndexError]. *)
Definition first_char (s : string) : option ascii :=
  match s with
  | EmptyString => None
  | String c _ => Some c
  end.

(** [s[n:]] *)
Fixpoint slice_from (n : nat) (s : string) : string :=
  match n, s with
  | O, _ => s
  | S n', String _ s' => slice_from n' s'
  | S _, EmptyString => EmptyString
  end.

(** [s.partition(sep)] for a one-character separator. *)
Fixpoint partition (sep : ascii) (s : string) : string * string * string :=
  match s with
  | EmptyString => (EmptyString, EmptyString, EmptyString)
  | String c s' =>
      if decide (c = sep) then (EmptyString, String sep EmptyString, s')
      else let '(h, m, t) := partition sep s' in (String c h, m, t)
  end.

(** [s.rpartition(sep)] for a one-character separator. *)
Definition rpartition (sep : ascii) (s : string) : string * string * string :=
  let '(h, m, t) := partition sep (String.rev s) in
  match m with
  | EmptyString => (EmptyString, EmptyString, s)
  | _ => (String.rev t, m, String.rev h)
  end.

(** [sep.join(l)] *)
Fixpoint join (sep : string) (l : list string) : string :=
  match l with
  | [] => EmptyString
  | [x] => x
  | x :: l' => x ++ sep ++ join sep l'
  end.

(** [s.split(sep)] for a one-character separator: every field, empty
    ones included. *)
Fixpoint split (sep : ascii) (s : string) : list string :=
  match s with
  | EmptyString => [EmptyString]
  | String c s' =>
      if decide (c = sep) then EmptyString :: split sep s'
      else match split sep s' with
           | [] => [String c EmptyString]
           | f :: fs => String c f :: fs
           end
  end.

Definition is_space (c : ascii) : bool :=
  bool_decide (c = " "%char) || bool_decide (c = "009"%char)
  || bool_decide (c = "010"%char) || bool_decide (c = "011"%char)
  || bool_decide (c = "012"%char) || bool_decide (c = "013"%char).

(** [s.split()]: the maximal runs of non-blank characters. *)
Fixpoint words_aux (cur : option string) (s : string) : list string :=
  match s with
  | EmptyString => match cur with Some w => [String.rev w] | None => [] end
  | String c s' =>
      if is_space c then
        match cur with
        | Some w => String.rev w :: words_aux None s'
        | None => words_aux None s'
        end
      else words_aux (Some (String c (default EmptyString cur))) s'
  end.

Definition words (s : string) : list string := words_aux None s.

(** [str(n)] for an integer. *)
Definition of_Z (n : Z) : string := pretty n.

(** [s.lower()], for text in ASCII. *)
Definition lower_char (c : ascii) : ascii :=
  let n := nat_of_ascii c in
  if ((65 <=? n) && (n <=? 90))%nat then ascii_of_nat (n + 32) else c.

Fixpoint lower (s : string) : string :=
  match s with
  | EmptyString => EmptyString
  | String c s' => String (lower_char c) (lower s')
  end.

(** [s.startswith(p)] *)
Fixpoint startswith (p s : string) : bool :=
  match p, s with
  | EmptyString, _ => true
  | String a p', String b s' => bool_decide (a = b) && startswith p' s'
  | String _ _, EmptyString => false
  end.

(** [p in s] *)
Fixpoint contains (p s : string) : bool :=
  startswith p s ||
  match s with
  | EmptyString => false
  | String _ s' => contains p s'
  end.

(** The characters of a string. *)
Fixpoint chars (s : string) : list ascii :=
  match s with
  | EmptyString => []
  | String c s' => c :: chars s'
  end.

(** [s.endswith(p)] *)
Definition endswith (p s : string) : bool :=
  startswith (String.rev p) (String.rev s).

End PyStr.

(** ** Paths *)

(** An absolute, resolved path: its components below the root. *)
Abbreviation AbsPath := (list string).

(** [str(p)] for an absolute path. *)
Definition abs_str (p : AbsPath) : string :=
  "/" +:+ PyStr.join "/" p.

(** [pathlib.PurePosixPath]: anchored at the root or relative. *)
Record PurePath := mkPath { is_abs : bool; parts : list string }.

Module PurePath.

(** [pathlib.Path(s)]: empty and [.] components are dropped. *)
Definition of_string (s : string) : PurePath :=
  {| is_abs := bool_decide (PyStr.first_char s = Some "/"%char);
     parts := filter (λ c, c ≠ "" ∧ c ≠ ".") (PyStr.split "/" s) |}.

(** [str(p)] *)
Definition str (p : PurePath) : string :=
  if is_abs p then abs_str (parts p)
  else match parts p with
       | [] => "."
       | l => PyStr.join "/" l
       end.

(** [a / b] *)
Definition truediv (a b : PurePath) : PurePath :=
  if is_abs b then b
  else {| is_abs := is_abs a; parts := parts a ++ parts b |}.

(** [a / name] for a plain component. *)
Definition child (a : PurePath) (name : string) : PurePath :=
  truediv a (of_string name).

(** [p.parent] *)
Definition parent (p : PurePath) : PurePath :=
  {| is_abs := is_abs p; parts := removelast (parts p) |}.

(** The absolute path the operating system resolves [p] to, from the
    working directory [cwd]. *)
Definition locate (cwd : AbsPath) (p : PurePath) : AbsPath :=
  if is_abs p then parts p else cwd ++ parts p.

Definition of_abs (p : AbsPath) : PurePath :=
  {| is_abs := true; parts := p |}.

End PurePath.

(** ** The file system *)

Inductive node :=
| File (ino : nat) (data : string)
| Dir (entries : gmap string node).

Module FS.

(** Path resolution from a directory node. *)
Fixpoint lookup (n : node) (p : AbsPath) : option node :=
  match p with
  | [] => Some n
  | c :: p' =>
      match n with
      | Dir m =>
          match m !! c with
          | Some n' => lookup n' p'
          | None => None
          end
      | File _ _ => None
      end
  end.

Definition exists_ (n : node) (p : AbsPath) : bool :=
  match lookup n p with Some _ => true | None => false end.

Definition is_dir (n : node) (p : AbsPath) : bool :=
  match lookup n p with Some (Dir _) => true | _ => false end.

(** The inode and the content of the regular file at [p], if any. *)
Definition file_at (n : node) (p : AbsPath) : option (nat * string) :=
  match lookup n p with
  | Some (File i d) => Some (i, d)
  | _ => None
  end.

(** Bind the last component of [p] to [x] in its parent directory,
    which has to exist. *)
Fixpoint put (p : AbsPath) (x : node) (n : node) : option node :=
  match p with
  | [] => None
  | c :: p' =>
      match n with
      | File _ _ => None
      | Dir m =>
          match p' with
          | [] => Some (Dir (<[c := x]> m))
          | _ :: _ =>
              match m !! c with
              | Some n' =>
                  match put p' x n' with
                  | Some n'' => Some (Dir (<[c := n'']> m))
                  | None => None
                  end
              | None => None
              end
          end
      end
  end.

(** Remove the entry [p], with everything below it. *)
Fixpoint remove (p : AbsPath) (n : node) : option node :=
  match p with
  | [] => None
  | c :: p' =>
      match n with
      | File _ _ => None
      | Dir m =>
          match m !! c with
          | Some n' =>
              match p' with
              | [] => Some (Dir (delete c m))
              | _ :: _ =>
                  match remove p' n' with
                  | Some n'' => Some (Dir (<[c := n'']> m))
                  | None => None
                  end
              end
          | None => None
          end
      end
  end.

(** Create the directory [p] and its missing ancestors; [None] when a
    regular file is in the way. *)
Fixpoint makedirs (p : AbsPath) (n : node) : option node :=
  match p with
  | [] => match n with Dir _ => Some n | File _ _ => None end
  | c :: p' =>
      match n with
      | File _ _ => None
      | Dir m =>
          match makedirs p' (default (Dir ∅) (m !! c)) with
          | Some n' => Some (Dir (<[c := n']> m))
          | None => None
          end
      end
  end.

End FS.

(** ** The host, the trace and the exceptions *)

(** What the external tools can see and change. *)
Record Host := mkHost {
  root : node;
  next_ino : nat;
  environ : gmap string string
}.

Inductive OSErrorKind :=
| FileNotFoundError
| FileExistsError
| NotADirectoryError
| IsADirectoryError
| SameFileError.

(** The outcome of starting a process: the executable is missing, the
    process exits with a status and its captured standard output, or
    the working directory it was to start in cannot be entered. *)
Inductive ExecResult :=
| NotFound
| Exited (returncode : Z) (stdout : string)
| NoCwd (kind : OSErrorKind).

Inductive Exn :=
| CalledProcessError (returncode : Z) (cmd : list string)
| NotImplementedError (msg : string)
| SystemExit (code : Z)
| IndexError
| TypeError
| RuntimeError (msg : string)
| OSError (kind : OSErrorKind) (path : AbsPath)
| ExternalError (what : string).

(** The result of a call: a value, or an exception. *)
Inductive Result (A : Type) :=
| Ok (a : A)
| Raise (e : Exn).
Arguments Ok {A} a.
Arguments Raise {A} e.

Inductive Event :=
| EvRun (argv : list string) (cwd : option AbsPath) (res : ExecResult)
| EvPrint (msg : string)
| EvRmtree (p : AbsPath)
| EvMkdir (p : AbsPath)
| EvUnlink (p : AbsPath)
| EvOpenW (p : AbsPath)
| EvWrite (p : AbsPath) (data : string)
| EvCopyfile (src dst : AbsPath)
| EvSetenv (key value : string)
| EvParsingSpec (name : string) (pickleFile : AbsPath)
| EvBuildRust (debug : bool) (res : Result unit)
| EvSuperRun.

(** The state a build step runs in: the host and the trace so far, each
    entry with the file system right after it. *)
Record World := mkWorld {
  host : Host;
  trace : list (Event * node)
}.

Definition events (w : World) : list Event := (trace w).*1.
Definition snapshots (w : World) : list node := (trace w).*2.

Definition emit (ev : Event) (h : Host) (w : World) : World :=
  {| host := h; trace := trace w ++ [(ev, root h)] |}.

Definition with_root (r : node) (h : Host) : Host :=
  {| root := r; next_ino := next_ino h; environ := environ h |}.

(** ** A state and exception monad *)

Definition M (A : Type) : Type := World → Result A * World.

Definition ret {A} (a : A) : M A := λ w, (Ok a, w).

Definition raise {A} (e : Exn) : M A := λ w, (Raise e, w).

Definition bind {A B} (m : M A) (k : A → M B) : M B :=
  λ w, match m w with
       | (Ok a, w') => k a w'
       | (Raise e, w') => (Raise e, w')
       end.

Declare Scope py_scope.
Delimit Scope py_scope with py.
Notation "'let!' x ':=' m 'in' k" := (bind m (λ x, k))
  (at level 10, x pattern, m at level 100, k at level 200) : py_scope.
Notation "m '>>' k" := (bind m (λ _, k))
  (at level 100, k at level 200, right associativity) : py_scope.
#[local] Open Scope py_scope.

(** [for x in l: body x] *)
Fixpoint for_each {A} (l : list A) (body : A → M unit) : M unit :=
  match l with
  | [] => ret tt
  | x :: l' => body x >> for_each l' body
  end.

(** ** The primitives of the Python run time *)

Record CompletedProcess := mkCompleted {
  cp_returncode : Z;
  cp_stdout : string
}.

(** Why the directory [cwd] cannot be entered, if so. *)
Definition cwd_error (cwd : option AbsPath) (r : node) : option OSErrorKind :=
  match cwd with
  | None => None
  | Some d =>
      match FS.lookup r d with
      | Some (Dir _) => None
      | Some (File _ _) => Some NotADirectoryError
      | None => Some FileNotFoundError
      end
  end.

Section Primitives.

(** The external programs: what running [argv] in directory [cwd] does
    to the host, and how it ends. *)
Variable exec : list string → option AbsPath → Host → ExecResult * Host.

(** [subprocess.run(argv, cwd=cwd, check=check)] with the output
    captured as text.  The child enters [cwd] before it starts the
    program: when [cwd] is missing or is no directory the program is
    not started, and the error names [cwd]. *)
Definition subprocess_run (argv : list string) (cwd : option AbsPath)
    (check : bool) : M CompletedProcess :=
  λ w, match cwd_error cwd (root (host w)) with
       | Some kind =>
           (Raise (OSError kind (default [] cwd)),
            emit (EvRun argv cwd (NoCwd kind)) (host w) w)
       | None =>
           let '(r, h') := exec argv cwd (host w) in
           let w' := emit (EvRun argv cwd r) h' w in
           match r with
           | NotFound => (Raise (OSError FileNotFoundError []), w')
           | Exited rc out =>
               if check && negb (rc =? 0)
               then (Raise (CalledProcessError rc argv), w')
               else (Ok {| cp_returncode := rc; cp_stdout := out |}, w')
           | NoCwd kind => (Raise (OSError kind (default [] cwd)), w')
           end
       end.

End Primitives.

(** [print(msg)] *)
Definition print (msg : string) : M unit :=
  λ w, (Ok tt, emit (EvPrint msg) (host w) w).

(** [exit(code)] *)
Definition sys_exit {A} (code : Z) : M A := raise (SystemExit code).

(** [p.exists()] *)
Definition path_exists (p : AbsPath) : M bool :=
  λ w, (Ok (FS.exists_ (root (host w)) p), w).

(** [with open(p, 'r') as f: f.read()] *)
Definition read_text (p : AbsPath) : M string :=
  λ w, match FS.lookup (root (host w)) p with
       | Some (File _ d) => (Ok d, w)
       | Some (Dir _) => (Raise (OSError IsADirectoryError p), w)
       | None => (Raise (OSError FileNotFoundError p), w)
       end.

(** [open(p, 'w')]: the file is created empty, or truncated in place;
    the result is its inode. *)
Definition open_w (p : AbsPath) : M nat :=
  λ w, let h := host w in
       match FS.lookup (root h) p with
       | Some (Dir _) => (Raise (OSError IsADirectoryError p), w)
       | Some (File i _) =>
           match FS.put p (File i "") (root h) with
           | Some r' => (Ok i, emit (EvOpenW p) (with_root r' h) w)
           | None => (Raise (OSError FileNotFoundError p), w)
           end
       | None =>
           match FS.put p (File (next_ino h) "") (root h) with
           | Some r' =>
               (Ok (next_ino h),
                emit (EvOpenW p)
                  {| root := r'; next_ino := S (next_ino h);
                     environ := environ h |} w)
           | None => (Raise (OSError FileNotFoundError p), w)
           end
       end.

(** [f.write(data)] and the close of [f], the file opened at [p] with
    inode [i]: the data reaches the file. *)
Definition write_close (p : AbsPath) (i : nat) (data : string) : M unit :=
  λ w, let h := host w in
       match FS.put p (File i data) (root h) with
       | Some r' => (Ok tt, emit (EvWrite p data) (with_root r' h) w)
       | None => (Raise (OSError FileNotFoundError p), w)
       end.

(** [with open(p, 'w') as f: f.write(data)] *)
Definition write_text (p : AbsPath) (data : string) : M unit :=
  let! i := open_w p in write_close p i data.

(** [shutil.rmtree(p)] *)
Definition shutil_rmtree (p : AbsPath) : M unit :=
  λ w, let h := host w in
       match FS.lookup (root h) p with
       | Some (Dir _) =>
           match FS.remove p (root h) with
           | Some r' => (Ok tt, emit (EvRmtree p) (with_root r' h) w)
           | None => (Raise (OSError FileNotFoundError p), w)
           end
       | Some (File _ _) => (Raise (OSError NotADirectoryError p), w)
       | None => (Raise (OSError FileNotFoundError p), w)
       end.

(** [p.mkdir(parents=True, exist_ok=exist_ok)] *)
Definition mkdir_parents (p : AbsPath) (exist_ok : bool) : M unit :=
  λ w, let h := host w in
       match FS.lookup (root h) p with
       | Some (Dir _) =>
           if exist_ok then (Ok tt, w)
           else (Raise (OSError FileExistsError p), w)
       | Some (File _ _) => (Raise (OSError FileExistsError p), w)
       | None =>
           match FS.makedirs p (root h) with
           | Some r' => (Ok tt, emit (EvMkdir p) (with_root r' h) w)
           | None => (Raise (OSError NotADirectoryError p), w)
           end
       end.

(** [p.unlink()] *)
Definition path_unlink (p : AbsPath) : M unit :=
  λ w, let h := host w in
       match FS.lookup (root h) p with
       | Some (File _ _) =>
           match FS.remove p (root h) with
           | Some r' => (Ok tt, emit (EvUnlink p) (with_root r' h) w)
           | None => (Raise (OSError FileNotFoundError p), w)
           end
       | Some (Dir _) => (Raise (OSError IsADirectoryError p), w)
       | None => (Raise (OSError FileNotFoundError p), w)
       end.

(** [shutil.copyfile(src, dst)]: [dst] is opened for writing, so an
    existing file keeps its inode and a missing one gets a new inode. *)
Definition shutil_copyfile (src dst : AbsPath) : M unit :=
  λ w, let h := host w in
       match FS.lookup (root h) src with
       | Some (File i d) =>
           match FS.lookup (root h) dst with
           | Some (Dir _) => (Raise (OSError IsADirectoryError dst), w)
           | Some (File j _) =>
               if bool_decide (i = j) then (Raise (OSError SameFileError dst), w)
               else
                 match FS.put dst (File j d) (root h) with
                 | Some r' => (Ok tt, emit (EvCopyfile src dst) (with_root r' h) w)
                 | None => (Raise (OSError FileNotFoundError dst), w)
                 end
           | None =>
               match FS.put dst (File (next_ino h) d) (root h) with
               | Some r' =>
                   (Ok tt,
                    emit (EvCopyfile src dst)
                      {| root := r'; next_ino := S (next_ino h);
                         environ := environ h |} w)
               | None => (Raise (OSError FileNotFoundError dst), w)
               end
           end
       | Some (Dir _) => (Raise (OSError IsADirectoryError src), w)
       | None => (Raise (OSError FileNotFoundError src), w)
       end.

(** [shutil.copy2(src, dst)]: into [dst] when it is a directory. *)
Definition shutil_copy2 (src dst : AbsPath) : M unit :=
  λ w, if FS.is_dir (root (host w)) dst
       then shutil_copyfile src (dst ++ [default "" (last src)]) w
       else shutil_copyfile src dst w.

(** [os.environ[key] = value] *)
Definition setenv (key value : string) : M unit :=
  λ w, let h := host w in
       (Ok tt,
        emit (EvSetenv key value)
          {| root := root h; next_ino := next_ino h;
             environ := <[key := value]> (environ h) |} w).

(** [s[0]] *)
Definition str_index0 (s : string) : M ascii :=
  match PyStr.first_char s with
  | Some c => ret c
  | None => raise IndexError
  end.

(** ** [setup.py] *)

Section Setup.

Variable exec : list string → option AbsPath → Host → ExecResult * Host.

(** [ROOT_PATH = pathlib.Path(__file__).parent.resolve()] *)
Variable ROOT_PATH : AbsPath.

(** [platform.system()] *)
Variable system : string.

(** [os.cpu_count()], which is [None] when the count is unknown. *)
Variable cpu_count : option Z.

Definition git_submodule_status : list string :=
  ["git"; "submodule"; "status"; "postgres"].

(** Lines 178-192 of [_compile_postgres]: the state of the [postgres]
    submodule, as its status character followed by its revision. *)
Definition get_source_stamp : M string :=
  let! proc := subprocess_run exec git_submodule_status None true in
  let status := cp_stdout proc in
  let! c := str_index0 status in
  (if bool_decide (c = "-"%char)
   then print ("postgres submodule not initialized, "
               +:+ "run `git submodule init; git submodule update`")
        >> sys_exit 1
   else ret tt) >>
  let! proc := subprocess_run exec git_submodule_status None true in
  let '(revision, _, _) :=
    PyStr.partition " " (PyStr.slice_from 1 (cp_stdout proc)) in
  let! c0 := str_index0 (cp_stdout proc) in
  ret (String c0 revision).

(** Lines 198-202: the stamp of the last completed build, if any. *)
Definition get_build_stamp (postgres_build_stamp : AbsPath) : M (option string) :=
  let! e := path_exists postgres_build_stamp in
  if e : bool then
    let! s := read_text postgres_build_stamp in ret (Some s)
  else ret None.

(** Line 204: [source_stamp != build_stamp]. *)
Definition is_outdated (source_stamp : string) (build_stamp : option string) : bool :=
  negb (bool_decide (Some source_stamp = build_stamp)).

(** Lines 207-213. *)
Definition get_uuidlib : M string :=
  if bool_decide (system = "Darwin") then ret "e2fs"
  else if bool_decide (system = "Linux") then ret "e2fs"
  else raise (NotImplementedError ("unsupported system: " +:+ system)).

(** Lines 215-219. *)
Definition make_build_dir (fresh_build : bool) (postgres_build : AbsPath) : M unit :=
  let! e := path_exists postgres_build in
  (if fresh_build && e then shutil_rmtree postgres_build else ret tt) >>
  let build_dir := postgres_build ++ ["build"] in
  let! e := path_exists build_dir in
  if negb e then mkdir_parents build_dir false else ret tt.

(** [str(max(os.cpu_count() - 1, 1))] *)
Definition jobs : M string :=
  match cpu_count with
  | Some n => ret (PyStr.of_Z (Z.max (n - 1) 1))
  | None => raise TypeError
  end.

Definition _compile_postgres (build_base : AbsPath)
    (force_build fresh_build run_configure build_contrib : bool) : M unit :=
  let! source_stamp := get_source_stamp in
  let postgres_build := build_base ++ ["postgres"] in
  let postgres_src := ROOT_PATH ++ ["postgres"] in
  let postgres_build_stamp := postgres_build ++ ["stamp"] in
  let! build_stamp := get_build_stamp postgres_build_stamp in
  let is_outdated := is_outdated source_stamp build_stamp in
  if is_outdated || force_build then
    let! uuidlib := get_uuidlib in
    make_build_dir fresh_build postgres_build >>
    let build_dir := postgres_build ++ ["build"] in
    (if run_configure || fresh_build || is_outdated then
       subprocess_run exec
         [abs_str (postgres_src ++ ["configure"]);
          "--prefix=" +:+ abs_str (postgres_build ++ ["install"]);
          "--with-uuid=" +:+ uuidlib]
         (Some build_dir) true >> ret tt
     else ret tt) >>
    let! j := jobs in
    subprocess_run exec ["make"; "MAKELEVEL=0"; "-j"; j]
      (Some build_dir) true >>
    (if build_contrib || fresh_build || is_outdated then
       let! j := jobs in
       subprocess_run exec ["make"; "-C"; "contrib"; "MAKELEVEL=0"; "-j"; j]
         (Some build_dir) true >> ret tt
     else ret tt) >>
    subprocess_run exec ["make"; "MAKELEVEL=0"; "install"]
      (Some build_dir) true >>
    (if build_contrib || fresh_build || is_outdated then
       subprocess_run exec ["make"; "-C"; "contrib"; "MAKELEVEL=0"; "install"]
         (Some build_dir) true >> ret tt
     else ret tt) >>
    write_text postgres_build_stamp source_stamp
  else ret tt.

(** *** [_check_rust] *)

Definition RUST_VERSION : string := "1.42.0".

(** [distutils.version.LooseVersion(a) < LooseVersion(b)]: the verdict,
    or the exception of the comparison ([TypeError] when a number meets
    a text component). *)
Variable LooseVersion_lt : string → string → Result bool.

(** [try: m except FileNotFoundError: raise e] *)
Definition reraise_FileNotFoundError {A} (m : M A) (e : Exn) : M A :=
  λ w, match m w with
       | (Raise (OSError FileNotFoundError _), w') => (Raise e, w')
       | r => r
       end.

Definition _check_rust : M unit :=
  reraise_FileNotFoundError
    (let! proc := subprocess_run exec ["rustc"; "-V"] None true in
     match PyStr.words (cp_stdout proc) !! 1%nat with
     | None => raise IndexError
     | Some ver =>
         match LooseVersion_lt ver RUST_VERSION with
         | Ok true =>
             raise (RuntimeError
                      ("please upgrade Rust to " +:+ RUST_VERSION
                       +:+ " to compile edgedb from source"))
         | Ok false => ret tt
         | Raise e => raise e
         end
     end)
    (RuntimeError
       ("please install rustc >= " +:+ RUST_VERSION
        +:+ " to compile edgedb from source (see https://rustup.rs/)")).

(** *** [build_ext.run] *)

(** The fields of the [build_ext] command that [run] reads, and the
    names of [self.distribution.rust_extensions]. *)
Record build_ext_cmd := mkBuildExt {
  rust_extensions : list string;
  inplace : bool;
  debug : bool;
  build_temp : string
}.

(** [pathlib.Path(build_ext.get_ext_fullpath(name))] with
    [build_ext.inplace] set to the flag, as the path the operating
    system resolves it to. *)
Variable get_ext_fullpath : bool → string → AbsPath.

(** [build_rust.run()] of setuptools-rust, with [build_rust.debug]. *)
Variable build_rust_run : bool → Host → Result unit * Host.

(** [super().run()]: the [build_ext] of distutils. *)
Variable distutils_build_ext_run : Host → Result unit * Host.

Definition call_build_rust (dbg : bool) : M unit :=
  λ w, let '(r, h') := build_rust_run dbg (host w) in
       (r, emit (EvBuildRust dbg r) h' w).

Definition call_super_run : M unit :=
  λ w, let '(r, h') := distutils_build_ext_run (host w) in
       (r, emit EvSuperRun h' w).

(** [for x in l: acc = body x acc] *)
Fixpoint for_fold {A B} (l : list A) (acc : B) (body : A → B → M B) : M B :=
  match l with
  | [] => ret acc
  | x :: l' => let! acc' := body x acc in for_fold l' acc' body
  end.

(** [distutils.log.info] is taken as a [print]. *)
Definition run (self : build_ext_cmd) : M unit :=
  (if negb (bool_decide (rust_extensions self = [])) then
     print "running build_rust" >>
     _check_rust >>
     let! copy_list :=
       (if negb (inplace self) then
          for_fold (rust_extensions self) []
            (λ ext copy_list,
               let dylib_path := get_ext_fullpath false ext in
               let target_path := get_ext_fullpath true ext in
               let copy_list := copy_list ++ [(dylib_path, target_path)] in
               let! e := path_exists target_path in
               (if e : bool then path_unlink target_path else ret tt) >>
               mkdir_parents (removelast target_path) true >>
               ret copy_list)
        else ret []) in
     setenv "CARGO_TARGET_DIR"
       (PurePath.str
          (PurePath.child
             (PurePath.child (PurePath.of_string (build_temp self)) "rust")
             "extensions")) >>
     call_build_rust (debug self) >>
     for_each copy_list (λ '(src, dst), shutil_copyfile src dst)
   else ret tt) >>
  call_super_run.

(** *** [_compile_parsers] *)

(** An imported module: its [__name__] and [__file__]. *)
Record PyModule := mkModule {
  __name__ : string;
  __file__ : string
}.

(** The three grammar modules the function imports. *)
Variables edgeql_spec edgeql_spec2 schema_spec : PyModule.

(** The working directory of the process. *)
Variable cwd : AbsPath.

(** [parsing.Spec(spec, pickleFile=f, verbose=True)], with the file the
    operating system resolves [f] to. *)
Variable parsing_Spec : PyModule → AbsPath → Host → Result unit * Host.

Definition call_parsing_Spec (spec : PyModule) (pickleFile : PurePath) : M unit :=
  λ w, let '(r, h') := parsing_Spec spec (PurePath.locate cwd pickleFile) (host w) in
       (r, emit (EvParsingSpec (__name__ spec)
                  (PurePath.locate cwd pickleFile)) h' w).

Definition _compile_parsers (build_lib : PurePath) (inplace : bool) : M unit :=
  for_each [edgeql_spec; edgeql_spec2; schema_spec]
    (λ spec,
       let spec_path := PurePath.parent (PurePath.of_string (__file__ spec)) in
       let subpath :=
         PurePath.of_string
           (PyStr.slice_from
              (String.length (PurePath.str (PurePath.of_abs ROOT_PATH)) + 1)
              (PurePath.str spec_path)) in
       let pickle_name := (PyStr.rpartition "." (__name__ spec)).2 +:+ ".pickle" in
       let pickle_path := PurePath.child subpath pickle_name in
       let cache := PurePath.truediv build_lib pickle_path in
       mkdir_parents (PurePath.locate cwd (PurePath.parent cache)) true >>
       call_parsing_Spec spec cache >>
       if inplace then
         shutil_copy2 (PurePath.locate cwd cache)
           (PurePath.locate cwd
              (PurePath.truediv (PurePath.of_abs ROOT_PATH) pickle_path))
       else ret tt).

End Setup.

(** ** The pipeline runner of the specification *)

(** An external command: its arguments and its working directory. *)
Definition Cmd : Type := list string * option AbsPath.

Section Pipeline.

Variable exec : list string → option AbsPath → Host → ExecResult * Host.

(** Run the commands in order, each checked, stopping at the first one
    that fails. *)
Fixpoint run_pipeline (cmds : list Cmd) : M unit :=
  match cmds with
  | [] => ret tt
  | (argv, cwd) :: rest =>
      subprocess_run exec argv cwd true >> run_pipeline rest
  end.

End Pipeline.

(** The paths of the embedded-engine build below [build_base]. *)
Definition postgres_build (build_base : AbsPath) : AbsPath :=
  build_base ++ ["postgres"].
Definition stamp_path (build_base : AbsPath) : AbsPath :=
  (build_base ++ ["postgres"]) ++ ["stamp"].
Definition build_dir (build_base : AbsPath) : AbsPath :=
  (build_base ++ ["postgres"]) ++ ["build"].

(** The commands of a rebuild of the embedded engine. *)
Definition configure_cmd (ROOT_PATH build_base : AbsPath) : Cmd :=
  ([abs_str ((ROOT_PATH ++ ["postgres"]) ++ ["configure"]);
    "--prefix=" +:+ abs_str ((build_base ++ ["postgres"]) ++ ["install"]);
    "--with-uuid=" +:+ "e2fs"], Some (build_dir build_base)).
Definition make_cmd (build_base : AbsPath) (j : string) : Cmd :=
  (["make"; "MAKELEVEL=0"; "-j"; j], Some (build_dir build_base)).
Definition make_contrib_cmd (build_base : AbsPath) (j : string) : Cmd :=
  (["make"; "-C"; "contrib"; "MAKELEVEL=0"; "-j"; j],
   Some (build_dir build_base)).
Definition install_cmd (build_base : AbsPath) : Cmd :=
  (["make"; "MAKELEVEL=0"; "install"], Some (build_dir build_base)).
Definition install_contrib_cmd (build_base : AbsPath) : Cmd :=
  (["make"; "-C"; "contrib"; "MAKELEVEL=0"; "install"],
   Some (build_dir build_base)).

(** The configure step is due when asked for, on a fresh build and on
    an outdated target; so are the contrib steps. *)
Definition configure_steps (ROOT_PATH build_base : AbsPath)
    (outdated fresh_build run_configure : bool) : list Cmd :=
  if run_configure || fresh_build || outdated
  then [configure_cmd ROOT_PATH build_base] else [].

Definition make_steps (build_base : AbsPath) (j : string)
    (outdated fresh_build build_contrib : bool) : list Cmd :=
  [make_cmd build_base j] ++
  (if build_contrib || fresh_build || outdated
   then [make_contrib_cmd build_base j] else []) ++
  [install_cmd build_base] ++
  (if build_contrib || fresh_build || outdated
   then [install_contrib_cmd build_base] else []).

(** The commands of a rebuild in order, for [j] the worker count as
    text. *)
Definition toolchain_plan (ROOT_PATH build_base : AbsPath) (j : string)
    (outdated fresh_build run_configure build_contrib : bool) : list Cmd :=
  configure_steps ROOT_PATH build_base outdated fresh_build run_configure
  ++ make_steps build_base j outdated fresh_build build_contrib.

(** The toolchain phase of a rebuild, as a pipeline: the worker count
    is asked for after the configure step. *)
Definition toolchain_phase
    (exec : list string → option AbsPath → Host → ExecResult * Host)
    (ROOT_PATH : AbsPath) (cpu_count : option Z) (build_base : AbsPath)
    (outdated fresh_build run_configure build_contrib : bool) : M unit :=
  run_pipeline exec
    (configure_steps ROOT_PATH build_base outdated fresh_build run_configure) >>
  let! j := jobs cpu_count in
  run_pipeline exec
    (make_steps build_base j outdated fresh_build build_contrib).

(** The text that follows the flag [flag] in an argument list. *)
Fixpoint arg_after (flag : string) (argv : list string) : option string :=
  match argv with
  | [] => None
  | a :: rest => if bool_decide (a = flag) then head rest else arg_after flag rest
  end.

(** What was appended to the trace between two worlds. *)
Definition new_trace (w w' : World) : list (Event * node) :=
  drop (length (trace w)) (trace w').
Definition new_events (w w' : World) : list Event := (new_trace w w').*1.
Definition new_snapshots (w w' : World) : list node := (new_trace w w').*2.

(** Fail-fast: a command that exits with a non-zero status is the last
    one that ran, and the result is the error that names it. *)
Definition fail_fast {A} (ran : list (Cmd * ExecResult)) (r : Result A) : Prop :=
  ∀ i c rc out,
    ran !! i = Some (c, Exited rc out) → rc ≠ 0 →
    r = Raise (CalledProcessError rc c.1) ∧ length ran = S i.

Definition all_exited_0 (ran : list (Cmd * ExecResult)) : Prop :=
  Forall (λ x, ∃ out, x.2 = Exited 0 out) ran.

(** The commands a part of a trace ran, with how each ended. *)
Definition runs (evs : list Event) : list (Cmd * ExecResult) :=
  omap (λ ev, match ev with
              | EvRun argv cwd r => Some ((argv, cwd), r)
              | _ => None
              end) evs.


(** The external commands leave the path [t] as it is. *)
Definition exec_preserves
    (exec : list string → option AbsPath → Host → ExecResult * Host)
    (t : AbsPath) : Prop :=
  ∀ argv cwd h,
    FS.lookup (root (exec argv cwd h).2) t = FS.lookup (root h) t.

(** The external commands create nothing at the path [t]. *)
Definition exec_keeps_absent
    (exec : list string → option AbsPath → Host → ExecResult * Host)
    (t : AbsPath) : Prop :=
  ∀ argv cwd h,
    FS.lookup (root h) t = None → FS.lookup (root (exec argv cwd h).2) t = None.

(** How a checked pipeline can end: the commands it ran with their exit
    status, and the result. *)
Inductive pipeline_outcome :
    list Cmd → list (Cmd * ExecResult) → Result unit → Prop :=
| po_done :
    pipeline_outcome [] [] (Ok tt)
| po_next c out cmds ran r :
    pipeline_outcome cmds ran r →
    pipeline_outcome (c :: cmds) ((c, Exited 0 out) :: ran) r
| po_fail c rc out cmds :
    rc ≠ 0 →
    pipeline_outcome (c :: cmds) [(c, Exited rc out)]
      (Raise (CalledProcessError rc c.1))
| po_missing c cmds :
    pipeline_outcome (c :: cmds) [(c, NotFound)]
      (Raise (OSError FileNotFoundError []))
| po_nocwd c kind cmds :
    pipeline_outcome (c :: cmds) [(c, NoCwd kind)]
      (Raise (OSError kind (default [] c.2))).

Definition is_run (ev : Event) : Prop :=
  match ev with EvRun _ _ _ => True | _ => False end.

(** ** A small host, for the examples *)

(** External programs that leave the file system alone: [git] prints
    [git_out], the commands that [failing] picks exit with status 2,
    every other command succeeds. *)
Definition demo_exec (git_out : string) (failing : list string → bool) :
    list string → option AbsPath → Host → ExecResult * Host :=
  λ argv cwd h,
    if bool_decide (head argv = Some "git") then (Exited 0 git_out, h)
    else if failing argv then (Exited 2 "", h)
    else (Exited 0 "", h).

Definition demo_git_out : string := "+abc123 postgres (REL_12_STABLE)".

Definition no_failure (argv : list string) : bool := false.

(** [make install] breaks. *)
Definition install_fails (argv : list string) : bool :=
  bool_decide (argv = ["make"; "MAKELEVEL=0"; "install"]).

Definition demo_root : AbsPath := ["work"; "edgedb"].
Definition demo_build_base : AbsPath := ["work"; "edgedb"; "build"].

(** A checkout that was never built. *)
Definition demo_host_clean : Host :=
  {| root := Dir {[ "work" := Dir {[ "edgedb" := Dir ∅ ]} ]};
     next_ino := 10; environ := ∅ |}.

(** A checkout whose last completed build left the stamp [stamp]. *)
Definition demo_host_built (stamp : string) : Host :=
  {| root :=
       Dir {[ "work" :=
         Dir {[ "edgedb" :=
           Dir {[ "build" :=
             Dir {[ "postgres" :=
               Dir {[ "stamp" := File 7 stamp;
                      "build" := Dir ∅ ]} ]} ]} ]} ]};
     next_ino := 10; environ := ∅ |}.

Definition start (h : Host) : World := {| host := h; trace := [] |}.

(** What a reader of the stamp file finds in each state of a list. *)
Definition stamp_texts (stamp : AbsPath) (snaps : list node) : list (option string) :=
  (λ n, snd <$> FS.file_at n stamp) <$> snaps.

(** The stamp write is atomic for an observer when every state the run
    went through shows the stamp file either as it was, with content
    [old], or holding the new stamp [new]. *)
Definition stamp_never_partial (stamp : AbsPath) (old : option string)
    (new : string) (snaps : list node) : Prop :=
  ∀ o, o ∈ stamp_texts stamp snaps → o = old ∨ o = Some new.

(** After a rebuild stopped by a failing command, the next look at the
    stamp finds the target outdated. *)
Definition retried_after_failure (stamp : AbsPath) (source_stamp : string)
    (res : Result unit * World) : Prop :=
  ∀ rc argv,
    res.1 = Raise (CalledProcessError rc argv) →
    ∃ bs, get_build_stamp stamp res.2 = (Ok bs, res.2) ∧
          is_outdated source_stamp bs = true.

(** The events of the planning loop of [build_ext.run] and of the
    environment update that follows it. *)
Definition plan_event (ev : Event) : Prop :=
  (∃ p, ev = EvUnlink p) ∨ (∃ p, ev = EvMkdir p) ∨ (∃ k v, ev = EvSetenv k v).

(** The external step [f] leaves the regular file at [t], or the lack
    of one, as it is. *)
Definition spares (f : Host → Result unit * Host) (t : AbsPath) : Prop :=
  ∀ h, FS.file_at (root (f h).2) t = FS.file_at (root h) t.

(** The external step [f] never hands out an inode twice: the counter
    of the allocator does not go down. *)
Definition keeps_inodes (f : Host → Result unit * Host) : Prop :=
  ∀ h, (next_ino h ≤ next_ino (f h).2)%nat.

(** ** The grammar modules *)

(** [edb/edgeql/parser/grammar], below the root of the source tree. *)
Definition grammar_dir : list string := ["edb"; "edgeql"; "parser"; "grammar"].

(** The module [edb.edgeql.parser.grammar.<name>], found in the source
    tree below [ROOT_PATH]. *)
Definition grammar_module (ROOT_PATH : AbsPath) (m : PyModule) (name : string) : Prop :=
  __name__ m = "edb.edgeql.parser.grammar." +:+ name ∧
  PurePath.of_string (__file__ m)
    = PurePath.of_abs (ROOT_PATH ++ grammar_dir ++ [name +:+ ".py"]).

(** Where the parse tables of a grammar go: below the build tree, and
    in the source tree. *)
Definition cache_path (cwd : AbsPath) (build_lib : PurePath) (pickle_name : string) : AbsPath :=
  PurePath.locate cwd build_lib ++ grammar_dir ++ [pickle_name].
Definition source_path (ROOT_PATH : AbsPath) (pickle_name : string) : AbsPath :=
  ROOT_PATH ++ grammar_dir ++ [pickle_name].

(** The calls of [parsing.Spec] in a trace: module name and pickle
    file. *)
Definition spec_calls (evs : list Event) : list (string * AbsPath) :=
  omap (λ ev, match ev with
              | EvParsingSpec name f => Some (name, f)
              | _ => None
              end) evs.

(** What is expected of [parsing.Spec]: a call that returns has written
    its pickle file, and a call changes no other regular file and makes
    or removes no other directory. *)
Definition writes_only_pickle
    (parsing_Spec : PyModule → AbsPath → Host → Result unit * Host) : Prop :=
  ∀ m f h,
    ((parsing_Spec m f h).1 = Ok tt →
     is_Some (FS.file_at (root (parsing_Spec m f h).2) f)) ∧
    (∀ t, t ≠ f →
       FS.file_at (root (parsing_Spec m f h).2) t = FS.file_at (root h) t ∧
       FS.is_dir (root (parsing_Spec m f h).2) t = FS.is_dir (root h) t).

(** One round of [_compile_parsers], with its paths worked out: for the
    module [m] and the name [pickle_name] of its pickle file. *)
Definition parser_step (ROOT_PATH cwd : AbsPath)
    (parsing_Spec : PyModule → AbsPath → Host → Result unit * Host)
    (build_lib : PurePath) (inplace : bool)
    (m : PyModule) (pickle_name : string) : M unit :=
  (mkdir_parents (PurePath.locate cwd build_lib ++ grammar_dir) true >>
   call_parsing_Spec cwd parsing_Spec m
     (PurePath.truediv build_lib
        {| is_abs := false; parts := grammar_dir ++ [pickle_name] |}) >>
   if inplace then
     shutil_copy2 (cache_path cwd build_lib pickle_name)
       (source_path ROOT_PATH pickle_name)
   else ret tt)%py.

Fixpoint parser_steps (ROOT_PATH cwd : AbsPath)
    (parsing_Spec : PyModule → AbsPath → Host → Result unit * Host)
    (build_lib : PurePath) (inplace : bool)
    (l : list (PyModule * string)) : M unit :=
  match l with
  | [] => ret tt
  | (m, pickle_name) :: l' =>
      (parser_step ROOT_PATH cwd parsing_Spec build_lib inplace m pickle_name >>
       parser_steps ROOT_PATH cwd parsing_Spec build_lib inplace l')%py
  end.

(** The parse tables of [pickle_name] are in place: the cache file
    exists, and in inplace mode the file in the source tree has the same
    content. *)
Definition tables_in_place (ROOT_PATH cwd : AbsPath) (build_lib : PurePath)
    (inplace : bool) (n : node) (pickle_name : string) : Prop :=
  ∃ i d,
    FS.file_at n (cache_path cwd build_lib pickle_name) = Some (i, d) ∧
    (inplace = true →
     ∃ j, FS.file_at n (source_path ROOT_PATH pickle_name) = Some (j, d)).

Definition pickle_names : list string :=
  ["single.pickle"; "block.pickle"; "sdldocument.pickle"].

(** The steps of a trace that make or move parse tables: the calls of
    [parsing.Spec] and the copies of files, in the order they happened. *)
Definition table_steps (evs : list Event) : list Event :=
  omap (λ ev, match ev with
              | EvParsingSpec _ _ | EvCopyfile _ _ => Some ev
              | _ => None
              end) evs.

(** The steps expected of the round for the module [name]: its tables
    are compiled into the cache file, and in inplace mode the cache
    file is then copied to the source tree. *)
Definition round_steps (ROOT_PATH cwd : AbsPath) (build_lib : PurePath)
    (inplace : bool) (name pickle_name : string) : list Event :=
  EvParsingSpec name (cache_path cwd build_lib pickle_name) ::
  (if inplace
   then [EvCopyfile (cache_path cwd build_lib pickle_name)
           (source_path ROOT_PATH pickle_name)]
   else []).

(** ** More of the small host: the Rust extension and the grammars *)

Definition demo_rustc (argv : list string) (cwd : option AbsPath) (h : Host) :
    ExecResult * Host :=
  (Exited 0 "rustc 1.42.0 (b8cedc004 2020-03-09)", h).

(** A stand-in for the comparison of versions: the order of the
    dictionary. *)
Definition demo_version_lt (a b : string) : Result bool :=
  Ok (negb (String.leb b a)).

Definition demo_get_ext_fullpath (inplace : bool) (name : string) : AbsPath :=
  (if inplace then demo_root else demo_build_base ++ ["lib"])
  ++ ["edb"; name +:+ ".so"].

(** The Rust build leaves the artifact of [_edgeql_rust] in the build
    tree, as a new file. *)
Definition demo_build_rust (dbg : bool) (h : Host) : Result unit * Host :=
  match FS.put (demo_get_ext_fullpath false "_edgeql_rust")
          (File (next_ino h) "new artifact") (root h) with
  | Some r' =>
      (Ok tt, {| root := r'; next_ino := S (next_ino h); environ := environ h |})
  | None => (Raise (ExternalError "cargo"), h)
  end.

Definition demo_super_run (h : Host) : Result unit * Host := (Ok tt, h).

(** A source tree with a Rust extension built in place before, and an
    empty build tree. *)
Definition demo_host_ext : Host :=
  {| root :=
       Dir {[ "work" :=
         Dir {[ "edgedb" :=
           Dir {[ "edb" := Dir {[ "_edgeql_rust.so" := File 5 "old artifact" ]};
                  "build" := Dir {[ "lib" := Dir {[ "edb" := Dir ∅ ]} ]} ]} ]} ]};
     next_ino := 10; environ := ∅ |}.

Definition demo_build_ext : build_ext_cmd :=
  {| rust_extensions := ["_edgeql_rust"]; inplace := false; debug := false;
     build_temp := "build/temp" |}.

Definition demo_module (name : string) : PyModule :=
  {| __name__ := "edb.edgeql.parser.grammar." +:+ name;
     __file__ := "/work/edgedb/edb/edgeql/parser/grammar/" +:+ name +:+ ".py" |}.

(** A table compiler that writes the pickle file, unless a directory
    is in the way, and nothing else. *)
Definition demo_parsing_Spec (m : PyModule) (f : AbsPath) (h : Host) :
    Result unit * Host :=
  match FS.lookup (root h) f with
  | Some (Dir _) => (Raise (ExternalError "parsing"), h)
  | _ =>
      match FS.put f (File (next_ino h) ("tables of " +:+ __name__ m)) (root h) with
      | Some r' =>
          (Ok tt, {| root := r'; next_ino := S (next_ino h); environ := environ h |})
      | None => (Raise (ExternalError "parsing"), h)
      end
  end.

(** A source tree with the grammar package, nothing built. *)
Definition demo_host_src : Host :=
  {| root :=
       Dir {[ "work" :=
         Dir {[ "edgedb" :=
           Dir {[ "edb" :=
             Dir {[ "edgeql" :=
               Dir {[ "parser" := Dir {[ "grammar" := Dir ∅ ]} ]} ]} ]} ]} ]};
     next_ino := 10; environ := ∅ |}.

Definition demo_build_lib : PurePath :=
  {| is_abs := false; parts := ["build"; "lib"] |}.

(** ** The commands of [setup.py] *)

(** *** [build_postgres] *)

Module build_postgres.

Record options := mkOptions {
  configure : bool;
  build_contrib : bool;
  fresh_build : bool
}.

(** [initialize_options]: every option is off. *)
Definition initialize_options : options :=
  {| configure := false; build_contrib := false; fresh_build := false |}.

Section run.

Variable exec : list string → option AbsPath → Host → ExecResult * Host.
Variable ROOT_PATH : AbsPath.
Variable system : string.
Variable cpu_count : option Z.
Variable cwd : AbsPath.

(** [run], for [build_base] the text of [build.build_base] of the
    finalized [build] command. *)
Definition run (self : options) (build_base : string) : M unit :=
  _compile_postgres exec ROOT_PATH system cpu_count
    (PurePath.locate cwd (PurePath.of_string build_base))
    true (fresh_build self) (configure self) (build_contrib self).

End run.

End build_postgres.

(** *** [develop] *)

Module develop.

Definition EDGEDBCLI_REPO : string := "https://github.com/edgedb/edgedb-cli".

(** What [run] reads: [build_temp] and [build_base] of the finalized
    [build] command, and the console scripts among the entry points of
    the distribution. *)
Record cmd := mkCmd {
  build_temp : string;
  build_base : string;
  console_scripts : list string
}.

(** Lines 333-339: the scripts handed to the [develop] of setuptools. *)
Definition patched_scripts (scripts : list string) : list string :=
  foldl (λ patched s,
           let s := if negb (PyStr.contains "rustcli" s)
                    then s +:+ "_dev" else s in
           patched ++ [s])
    [] scripts
  ++ ["edb = edb.tools.edb:edbcommands"].

Section run.

Variable exec : list string → option AbsPath → Host → ExecResult * Host.
Variable ROOT_PATH : AbsPath.
Variable system : string.
Variable cpu_count : option Z.
Variable LooseVersion_lt : string → string → Result bool.
Variables edgeql_spec edgeql_spec2 schema_spec : PyModule.
Variable cwd : AbsPath.
Variable parsing_Spec : PyModule → AbsPath → Host → Result unit * Host.

(** [super().run()]: the [develop] of setuptools, which sees the
    console scripts of the distribution. *)
Variable setuptools_develop_run : list string → Host → Result unit * Host.

(** [dict(os.environ)] *)
Definition os_environ : M (gmap string string) :=
  λ w, (Ok (environ (host w)), w).

(** [subprocess.run(argv, env=env, check=check)]: the child sees [env];
    the environment of the caller stays as it is. *)
Definition subprocess_run_env (argv : list string) (env : gmap string string)
    (check : bool) : M CompletedProcess :=
  λ w, let h := host w in
       let '(r, h') :=
         exec argv None
           {| root := root h; next_ino := next_ino h; environ := env |} in
       let w' :=
         emit (EvRun argv None r)
           {| root := root h'; next_ino := next_ino h'; environ := environ h |}
           w in
       match r with
       | NotFound => (Raise (OSError FileNotFoundError []), w')
       | Exited rc out =>
           if check && negb (rc =? 0)
           then (Raise (CalledProcessError rc argv), w')
           else (Ok {| cp_returncode := rc; cp_stdout := out |}, w')
       | NoCwd kind => (Raise (OSError kind []), w')
       end.

(** [shutil.copy(src, dst)]: the data of [copy2]; mode bits are not
    modelled. *)
Definition shutil_copy (src dst : AbsPath) : M unit := shutil_copy2 src dst.

Definition call_super_run (scripts : list string) : M unit :=
  λ w, let '(r, h') := setuptools_develop_run scripts (host w) in
       (r, emit EvSuperRun h' w).

(** The arguments of the [cargo install] of the command-line client. *)
Definition cargo_install (rust_root : AbsPath) : list string :=
  ["cargo"; "install"; "--verbose"; "--verbose";
   "--git"; EDGEDBCLI_REPO;
   "--bin"; "edgedb";
   "--root"; abs_str rust_root;
   "--features=dev_mode"; "--locked"; "--debug"].

Definition run (self : cmd) : M unit :=
  _check_rust exec LooseVersion_lt >>
  let rust_tmp :=
    PurePath.child
      (PurePath.child (PurePath.of_string (build_temp self)) "rust") "cli" in
  let build_base := PurePath.locate cwd (PurePath.of_string (build_base self)) in
  let rust_root := build_base ++ ["cli"] in
  let! env := os_environ in
  let env := <["CARGO_TARGET_DIR" := PurePath.str rust_tmp]> env in
  let env :=
    <["PSQL_DEFAULT_PATH" :=
        abs_str (build_base ++ ["postgres"; "install"; "bin"])]> env in
  subprocess_run_env (cargo_install rust_root) env true >>
  shutil_copy (rust_root ++ ["bin"; "edgedb"])
    (ROOT_PATH ++ ["edb"; "cli"; "edgedb"]) >>
  call_super_run (patched_scripts (console_scripts self)) >>
  _compile_parsers ROOT_PATH edgeql_spec edgeql_spec2 schema_spec cwd
    parsing_Spec (PurePath.of_abs (build_base ++ ["lib"])) true >>
  _compile_postgres exec ROOT_PATH system cpu_count build_base
    false true true true.

End run.

End develop.

(** *** [gen_build_cache_key] *)

Module binascii.

Definition hexdigit (n : N) : ascii :=
  nth (N.to_nat n) (PyStr.chars "0123456789abcdef") "0"%char.

Definition hex_of_byte (b : Byte.byte) : string :=
  let n := Byte.to_N b in
  String (hexdigit (n / 16)%N) (String (hexdigit (n mod 16)%N) "").

(** [binascii.hexlify(bs).decode()] *)
Fixpoint hexlify (bs : list Byte.byte) : string :=
  match bs with
  | [] => ""
  | b :: bs' => hex_of_byte b +:+ hexlify bs'
  end.

(** The reading of two hexadecimal digits. *)
Definition digit_value (c : ascii) : option N :=
  (λ x, N.of_nat x.1) <$> list_find (λ x, x = c) (PyStr.chars "0123456789abcdef").

Definition unhex_byte (s : string) : option Byte.byte :=
  match s with
  | String x (String y "") =>
      match digit_value x, digit_value y with
      | Some a, Some b => Byte.of_N (16 * a + b)%N
      | _, _ => None
      end
  | _ => None
  end.

End binascii.

Module os_path.

(** [os.path.join(a, b)] *)
Definition join (a b : string) : string :=
  if PyStr.startswith "/" b then b
  else if bool_decide (a = "") || PyStr.endswith "/" a then a +:+ b
  else a +:+ "/" +:+ b.

End os_path.

Module gen_build_cache_key.

(** The key: the hash of the grammar sources in hexadecimal, a dash and
    the revision of the engine. *)
Definition cache_key (parser_hash : list Byte.byte) (postgres_revision : string) : string :=
  binascii.hexlify parser_hash +:+ "-" +:+ postgres_revision.

Section run.

Variable exec : list string → option AbsPath → Host → ExecResult * Host.

(** [_edb.__path__[0]] *)
Variable edb_path : string.

(** [edb.server.buildmeta.hash_dirs], which reads the files and returns
    a digest. *)
Variable hash_dirs : list (string * string) → Host → Result (list Byte.byte).

Definition call_hash_dirs (dirs : list (string * string)) : M (list Byte.byte) :=
  λ w, (hash_dirs dirs (host w), w).

Definition run : M unit :=
  let! parser_hash :=
    call_hash_dirs [(os_path.join edb_path "edgeql/parser/grammar", ".py")] in
  let! proc := subprocess_run exec git_submodule_status None true in
  let '(postgres_revision, _, _) :=
    PyStr.partition " " (PyStr.slice_from 1 (cp_stdout proc)) in
  print (cache_key parser_hash postgres_revision).

End run.

End gen_build_cache_key.

(** *** [build_ext]: the options *)

Module build_ext.

(** The values a Cython directive can take here. *)
Inductive PyVal :=
| VStr (s : string)
| VBool (b : bool).

(** ['bool' object has no attribute 'lower'] *)
Inductive Error := AttributeError.

Record options := mkOptions {
  _initialized : bool;
  cython_always : bool;
  cython_annotate : option bool;
  cython_directives : option string;
  define : option string;
  debug : bool
}.

(** The truth value of [os.environ.get(key)]. *)
Definition env_flag (env : gmap string string) (key : string) : bool :=
  match env !! key with
  | Some (String _ _) => true
  | _ => false
  end.

(** [initialize_options]; the one of distutils leaves [define]
    unset. *)
Definition initialize_options (self : options) : M options :=
  λ w,
    if _initialized self then (Ok self, w)
    else if env_flag (environ (host w)) "EDGEDB_DEBUG" then
      (Ok {| _initialized := _initialized self;
             cython_always := true;
             cython_annotate := Some true;
             cython_directives := Some "linetrace=True";
             define := Some "PG_DEBUG,CYTHON_TRACE,CYTHON_TRACE_NOGIL";
             debug := true |}, w)
    else
      (Ok {| _initialized := _initialized self;
             cython_always := false;
             cython_annotate := None;
             cython_directives := None;
             define := None;
             debug := false |}, w).

(** [v.lower()] *)
Definition py_lower (v : PyVal) : Error + string :=
  match v with
  | VStr s => inr (PyStr.lower s)
  | VBool _ => inl AttributeError
  end.

(** Lines 468-474: one round of the loop over the directives. *)
Definition set_directive (directives : gmap string PyVal) (directive : string) :
    Error + gmap string PyVal :=
  let '(k, _, v) := PyStr.partition "=" directive in
  let v := VStr v in
  match py_lower v with
  | inl e => inl e
  | inr l =>
      let v := if bool_decide (l = "false") then VBool false else v in
      match py_lower v with
      | inl e => inl e
      | inr l =>
          let v := if bool_decide (l = "true") then VBool true else v in
          inr (<[k := v]> directives)
      end
  end.

Fixpoint set_directives (directives : gmap string PyVal) (l : list string) :
    Error + gmap string PyVal :=
  match l with
  | [] => inr directives
  | directive :: l' =>
      match set_directive directives directive with
      | inl e => inl e
      | inr directives' => set_directives directives' l'
      end
  end.

(** Lines 462-474 of [finalize_options]: the directives handed to
    [cythonize]. *)
Definition compiler_directives (self : options) : Error + gmap string PyVal :=
  let directives := {[ "language_level" := VStr "3" ]} in
  match cython_directives self with
  | Some (String c s) => set_directives directives (PyStr.split "," (String c s))
  | _ => inr directives
  end.

End build_ext.

(** ** Vocabulary of the further properties *)

(** No blank character in the text. *)
Definition no_blank (s : string) : Prop :=
  Forall (λ c, PyStr.is_space c = false) (PyStr.chars s).

(** The text is over, or goes on with a blank. *)
Definition at_word_end (s : string) : Prop :=
  match s with
  | EmptyString => True
  | String c _ => PyStr.is_space c = true
  end.

(** The effects of [_compile_postgres] itself, external commands
    apart. *)
Definition postgres_effect (build_base : AbsPath) (ev : Event) : Prop :=
  (∃ m, ev = EvPrint m) ∨
  ev = EvRmtree (postgres_build build_base) ∨
  ev = EvMkdir (build_dir build_base) ∨
  ev = EvOpenW (stamp_path build_base) ∨
  (∃ d, ev = EvWrite (stamp_path build_base) d).

(** The effects of [_compile_parsers]. *)
Definition parser_effect (ev : Event) : Prop :=
  (∃ p, ev = EvMkdir p) ∨ (∃ name f, ev = EvParsingSpec name f) ∨
  (∃ s d, ev = EvCopyfile s d).

(** The key and the value of a directive of the form [key=value]. *)
Definition directive_key (d : string) : string := (PyStr.partition "=" d).1.1.
Definition directive_text (d : string) : string := (PyStr.partition "=" d).2.

(** ** More of the small host: the commands *)

(** No [rustc] on the path. *)
Definition demo_no_rustc (argv : list string) (cwd : option AbsPath) (h : Host) :
    ExecResult * Host :=
  (NotFound, h).

(** Where [cargo install] leaves the client. *)
Definition demo_client : AbsPath := demo_build_base ++ ["cli"; "bin"; "edgedb"].

(** The tools of a development install: [rustc] answers with its
    version, [cargo] leaves the client in the build tree, and the rest
    is as in [demo_exec]. *)
Definition demo_exec_develop (argv : list string) (cwd : option AbsPath) (h : Host) :
    ExecResult * Host :=
  if bool_decide (head argv = Some "rustc") then demo_rustc argv cwd h
  else if bool_decide (head argv = Some "cargo") then
    match FS.makedirs (removelast demo_client) (root h) with
    | Some r1 =>
        match FS.put demo_client (File (next_ino h) "client") r1 with
        | Some r2 =>
            (Exited 0 "",
             {| root := r2; next_ino := S (next_ino h); environ := environ h |})
        | None => (Exited 1 "", h)
        end
    | None => (Exited 1 "", h)
    end
  else demo_exec demo_git_out no_failure argv cwd h.

Definition demo_develop_super (scripts : list string) (h : Host) :
    Result unit * Host :=
  (Ok tt, h).

(** A source tree with the packages of the client and of the grammars,
    nothing built. *)
Definition demo_host_develop : Host :=
  {| root :=
       Dir {[ "work" :=
         Dir {[ "edgedb" :=
           Dir {[ "edb" :=
             Dir {[ "cli" := Dir ∅;
                    "edgeql" :=
                      Dir {[ "parser" := Dir {[ "grammar" := Dir ∅ ]} ]} ]} ]} ]} ]};
     next_ino := 10; environ := ∅ |}.

(** The entry points of the distribution, lines 557-561. *)
Definition console_scripts : list string :=
  ["edgedb-old = edb.cli:cli";
   "edgedb-server = edb.server.main:main";
   "edgedb = edb.cli:rustcli"].

Definition demo_develop : develop.cmd :=
  {| develop.build_temp := "build/temp";
     develop.build_base := "/work/edgedb/build";
     develop.console_scripts := console_scripts |}.

Definition demo_hash_dirs (dirs : list (string * string)) (h : Host) :
    Result (list Byte.byte) :=
  Ok [Byte.xde; Byte.xad; Byte.x00; Byte.x2a].

Definition demo_build_ext_options : build_ext.options :=
  {| build_ext._initialized := false;
     build_ext.cython_always := false;
     build_ext.cython_annotate := None;
     build_ext.cython_directives := Some "linetrace=True,boundscheck=off";
     build_ext.define := None;
     build_ext.debug := false |}.

Definition demo_build_ext_inplace : build_ext_cmd :=
  {| rust_extensions := ["_edgeql_rust"]; inplace := true; debug := false;
     build_temp := "build/temp" |}.

(** A build tree in which a directory took the place of the stamp
    file. *)
Definition demo_host_stamp_dir : Host :=
  {| root :=
       Dir {[ "work" :=
         Dir {[ "edgedb" :=
           Dir {[ "build" :=
             Dir {[ "postgres" := Dir {[ "stamp" := Dir ∅ ]} ]} ]} ]} ]};
     next_ino := 10; environ := ∅ |}.

(** A build tree in which a regular file took the place of the [build]
    directory. *)
Definition demo_host_build_file : Host :=
  {| root :=
       Dir {[ "work" :=
         Dir {[ "edgedb" :=
           Dir {[ "build" :=
             Dir {[ "postgres" :=
               Dir {[ "build" := File 7 "not a directory" ]} ]} ]} ]} ]};
     next_ino := 10; environ := ∅ |}.

(** A toolchain that reports a name in the place of a number. *)
Definition demo_rustc_nightly (argv : list string) (cwd : option AbsPath)
    (h : Host) : ExecResult * Host :=
  (Exited 0 "rustc nightly", h).

Definition is_digit (c : ascii) : bool :=
  (48 <=? nat_of_ascii c)%nat && (nat_of_ascii c <=? 57)%nat.

(** A stand-in for the comparison of versions that knows its limit: a
    version that starts with a number is not compared with one that
    starts with text. *)
Definition demo_loose_version_lt (a b : string) : Result bool :=
  match PyStr.first_char a, PyStr.first_char b with
  | Some x, Some y =>
      if bool_decide (is_digit x = is_digit y)
      then Ok (negb (String.leb b a))
      else Raise TypeError
  | _, _ => Ok (negb (String.leb b a))
  end.

(** A grammar module of a source tree at the root of the file system. *)
Definition demo_root_module (name : string) : PyModule :=
  {| __name__ := "edb.edgeql.parser.grammar." +:+ name;
     __file__ := "/edb/edgeql/parser/grammar/" +:+ name +:+ ".py" |}.

(** A source tree at the root of the file system, with the grammar
    package, nothing built. *)
Definition demo_host_root : Host :=
  {| root :=
       Dir {[ "edb" :=
         Dir {[ "edgeql" :=
           Dir {[ "parser" := Dir {[ "grammar" := Dir ∅ ]} ]} ]} ]};
     next_ino := 10; environ := ∅ |}.

(** * Properties *)

(** ** The file system operations *)

Section FSFacts.

Implicit Types (n x : node) (p q t : AbsPath) (c : string).

Lemma lookup_app n p q :
  FS.lookup n (p ++ q) =
  match FS.lookup n p with Some x => FS.lookup x q | None => None end.
Proof.
  revert n. induction p as [|c p IH]; intros n; simpl; [done|].
  destruct n as [|m]; [done|]. destruct (m !! c); [apply IH|done].
Qed.

Lemma lookup_empty_dir c p : FS.lookup (Dir ∅) (c :: p) = None.
Proof. simpl. by rewrite lookup_empty. Qed.

Lemma lookup_file_cons i d c p : FS.lookup (File i d) (c :: p) = None.
Proof. done. Qed.

(** *** [makedirs] *)

Lemma makedirs_lookup_ne q n n' t :
  FS.makedirs q n = Some n' → ¬ t `prefix_of` q →
  FS.lookup n' t = FS.lookup n t.
Proof.
  revert n n' t. induction q as [|c q IH]; intros n n' t H Hp; simpl in H.
  - destruct n; by simplify_eq.
  - destruct n as [|m]; [done|].
    destruct (FS.makedirs q (default (Dir ∅) (m !! c))) as [n1|] eqn:E; [|done].
    simplify_eq. destruct t as [|d t]; [by destruct Hp; apply prefix_nil|].
    simpl. destruct (decide (c = d)) as [->|Hne].
    + rewrite lookup_insert_eq.
      assert (¬ t `prefix_of` q) as Hp' by (intros ?; apply Hp; by apply prefix_cons).
      rewrite (IH _ _ _ E Hp').
      destruct (m !! d); simpl; [done|].
      destruct t; [by destruct Hp'; apply prefix_nil|]. apply lookup_empty_dir.
    + by rewrite lookup_insert_ne.
Qed.

Lemma makedirs_file_at q n n' t :
  FS.makedirs q n = Some n' → FS.file_at n' t = FS.file_at n t.
Proof.
  revert n n' t. induction q as [|c q IH]; intros n n' t H; simpl in H.
  - destruct n; by simplify_eq.
  - destruct n as [|m]; [done|].
    destruct (FS.makedirs q (default (Dir ∅) (m !! c))) as [n1|] eqn:E; [|done].
    simplify_eq. destruct t as [|d t]; [done|].
    unfold FS.file_at. simpl. destruct (decide (c = d)) as [->|Hne].
    + rewrite lookup_insert_eq. specialize (IH _ _ t E). unfold FS.file_at in IH.
      rewrite IH. destruct (m !! d); simpl; [done|].
      destruct t; [done|]. by rewrite lookup_empty_dir.
    + by rewrite lookup_insert_ne.
Qed.

Lemma makedirs_is_dir q n n' :
  FS.makedirs q n = Some n' → ∃ m, FS.lookup n' q = Some (Dir m).
Proof.
  revert n n'. induction q as [|c q IH]; intros n n' H; simpl in H.
  - destruct n; simplify_eq. eauto.
  - destruct n as [|m]; [done|].
    destruct (FS.makedirs q (default (Dir ∅) (m !! c))) as [n1|] eqn:E; [|done].
    simplify_eq. simpl. rewrite lookup_insert_eq. eauto.
Qed.

(** *** [remove] *)

Lemma remove_lookup_below p n n' q :
  FS.remove p n = Some n' → FS.lookup n' (p ++ q) = None.
Proof.
  revert n n'. induction p as [|c p IH]; intros n n' H; simpl in H; [done|].
  destruct n as [|m]; [done|]. destruct (m !! c) as [n1|] eqn:E; [|done].
  destruct p as [|c' p].
  - simplify_eq. simpl. by rewrite lookup_delete_eq.
  - destruct (FS.remove (c' :: p) n1) as [n2|] eqn:E2; [|done]. simplify_eq.
    change ((c :: c' :: p) ++ q) with (c :: ((c' :: p) ++ q)).
    simpl FS.lookup at 1. rewrite lookup_insert_eq. apply (IH _ _ E2).
Qed.

Lemma remove_file_at p n n' t :
  FS.remove p n = Some n' → ¬ p `prefix_of` t →
  FS.file_at n' t = FS.file_at n t.
Proof.
  revert n n' t. induction p as [|c p IH]; intros n n' t H Hp; simpl in H; [done|].
  destruct n as [|m]; [done|]. destruct (m !! c) as [n1|] eqn:E; [|done].
  destruct t as [|d t]; [by destruct p; [|destruct (FS.remove _ _)]; simplify_eq|].
  unfold FS.file_at; simpl.
  destruct (decide (c = d)) as [->|Hne].
  - assert (¬ p `prefix_of` t) as Hp' by (intros ?; apply Hp; by apply prefix_cons).
    destruct p as [|c' p]; [by destruct Hp'; apply prefix_nil|].
    destruct (FS.remove (c' :: p) n1) as [n2|] eqn:E2; [|done]. simplify_eq.
    rewrite lookup_insert_eq, E. apply (IH _ _ _ E2 Hp').
  - destruct p as [|c' p].
    + simplify_eq. by rewrite lookup_delete_ne.
    + destruct (FS.remove (c' :: p) n1) as [n2|] eqn:E2; [|done]. simplify_eq.
      by rewrite lookup_insert_ne.
Qed.

Lemma remove_is_dir p n n' t :
  FS.remove p n = Some n' → ¬ p `prefix_of` t →
  FS.is_dir n' t = FS.is_dir n t.
Proof.
  revert n n' t. induction p as [|c p IH]; intros n n' t H Hp; simpl in H; [done|].
  destruct n as [|m]; [done|]. destruct (m !! c) as [n1|] eqn:E; [|done].
  destruct t as [|d t]; [by destruct p; [|destruct (FS.remove _ _)]; simplify_eq|].
  unfold FS.is_dir; simpl.
  destruct (decide (c = d)) as [->|Hne].
  - assert (¬ p `prefix_of` t) as Hp' by (intros ?; apply Hp; by apply prefix_cons).
    destruct p as [|c' p]; [by destruct Hp'; apply prefix_nil|].
    destruct (FS.remove (c' :: p) n1) as [n2|] eqn:E2; [|done]. simplify_eq.
    rewrite lookup_insert_eq, E. apply (IH _ _ _ E2 Hp').
  - destruct p as [|c' p].
    + simplify_eq. by rewrite lookup_delete_ne.
    + destruct (FS.remove (c' :: p) n1) as [n2|] eqn:E2; [|done]. simplify_eq.
      by rewrite lookup_insert_ne.
Qed.

Lemma remove_total p n x :
  p ≠ [] → FS.lookup n p = Some x → is_Some (FS.remove p n).
Proof.
  revert n. induction p as [|c p IH]; intros n Hne H; [done|]. simpl in *.
  destruct n as [|m]; [done|]. destruct (m !! c) as [n1|] eqn:E; [|done].
  destruct p as [|c' p]; [eauto|].
  destruct (IH n1) as [n2 ->]; [done|done|eauto].
Qed.

(** *** [put] *)

Lemma put_lookup_eq p x n n' :
  FS.put p x n = Some n' → FS.lookup n' p = Some x.
Proof.
  revert n n'. induction p as [|c p IH]; intros n n' H; simpl in H; [done|].
  destruct n as [|m]; [done|]. destruct p as [|c' p].
  - simplify_eq. simpl. by rewrite lookup_insert_eq.
  - destruct (m !! c) as [n1|] eqn:E; [|done].
    destruct (FS.put (c' :: p) x n1) as [n2|] eqn:E2; [|done]. simplify_eq.
    simpl FS.lookup at 1. rewrite lookup_insert_eq. apply (IH _ _ E2).
Qed.

Lemma put_file_at p x n n' t :
  FS.put p x n = Some n' → ¬ p `prefix_of` t →
  FS.file_at n' t = FS.file_at n t.
Proof.
  revert n n' t. induction p as [|c p IH]; intros n n' t H Hp; simpl in H; [done|].
  destruct n as [|m]; [done|].
  destruct t as [|d t].
  { destruct p; [by simplify_eq|].
    destruct (m !! c); [|done]. by destruct (FS.put _ _ _); simplify_eq. }
  unfold FS.file_at; simpl.
  destruct (decide (c = d)) as [->|Hne].
  - assert (¬ p `prefix_of` t) as Hp' by (intros ?; apply Hp; by apply prefix_cons).
    destruct p as [|c' p]; [by destruct Hp'; apply prefix_nil|].
    destruct (m !! d) as [n1|] eqn:E; [|done].
    destruct (FS.put (c' :: p) x n1) as [n2|] eqn:E2; [|done]. simplify_eq.
    rewrite lookup_insert_eq. apply (IH _ _ _ E2 Hp').
  - destruct p as [|c' p].
    + simplify_eq. by rewrite lookup_insert_ne.
    + destruct (m !! c) as [n1|] eqn:E; [|done].
      destruct (FS.put (c' :: p) x n1) as [n2|] eqn:E2; [|done]. simplify_eq.
      by rewrite lookup_insert_ne.
Qed.

Lemma put_file_below p i d n n' q :
  FS.put p (File i d) n = Some n' → q ≠ [] → FS.lookup n' (p ++ q) = None.
Proof.
  intros H Hq. rewrite lookup_app, (put_lookup_eq _ _ _ _ H). by destruct q.
Qed.

Lemma put_is_dir p x n n' t :
  FS.put p x n = Some n' → ¬ p `prefix_of` t →
  FS.is_dir n' t = FS.is_dir n t.
Proof.
  revert n n' t. induction p as [|c p IH]; intros n n' t H Hp; simpl in H; [done|].
  destruct n as [|m]; [done|].
  destruct t as [|d t].
  { destruct p; [by simplify_eq|].
    destruct (m !! c); [|done]. by destruct (FS.put _ _ _); simplify_eq. }
  unfold FS.is_dir; simpl.
  destruct (decide (c = d)) as [->|Hne].
  - assert (¬ p `prefix_of` t) as Hp' by (intros ?; apply Hp; by apply prefix_cons).
    destruct p as [|c' p]; [by destruct Hp'; apply prefix_nil|].
    destruct (m !! d) as [n1|] eqn:E; [|done].
    destruct (FS.put (c' :: p) x n1) as [n2|] eqn:E2; [|done]. simplify_eq.
    rewrite lookup_insert_eq. apply (IH _ _ _ E2 Hp').
  - destruct p as [|c' p].
    + simplify_eq. by rewrite lookup_insert_ne.
    + destruct (m !! c) as [n1|] eqn:E; [|done].
      destruct (FS.put (c' :: p) x n1) as [n2|] eqn:E2; [|done]. simplify_eq.
      by rewrite lookup_insert_ne.
Qed.

End FSFacts.

(** ** The pipeline runner *)

Lemma runs_app l1 l2 : runs (l1 ++ l2) = runs l1 ++ runs l2.
Proof. apply omap_app. Qed.

Lemma pipeline_outcome_prefix cmds ran r :
  pipeline_outcome cmds ran r → ran.*1 `prefix_of` cmds.
Proof.
  induction 1; simpl.
  - done.
  - by apply prefix_cons.
  - apply prefix_cons, prefix_nil.
  - apply prefix_cons, prefix_nil.
  - apply prefix_cons, prefix_nil.
Qed.

Lemma pipeline_outcome_ok cmds ran :
  pipeline_outcome cmds ran (Ok tt) →
  ran.*1 = cmds ∧ Forall (λ x, ∃ out, x.2 = Exited 0 out) ran.
Proof.
  remember (Ok tt) as r eqn:Hr. induction 1; simplify_eq.
  - done.
  - destruct IHpipeline_outcome as [Heq Hall]; [done|]. split.
    + by rewrite fmap_cons, Heq.
    + constructor; [simpl; eauto|done].
Qed.

Lemma pipeline_outcome_failing cmds ran r i c rc out :
  pipeline_outcome cmds ran r →
  ran !! i = Some (c, Exited rc out) → rc ≠ 0 →
  r = Raise (CalledProcessError rc c.1) ∧ length ran = S i.
Proof.
  intros H. revert i. induction H; intros i Hi Hrc.
  - done.
  - destruct i as [|i]; simpl in Hi; [by simplify_eq|].
    destruct (IHpipeline_outcome _ Hi Hrc) as [-> Hlen].
    split; [done|]. simpl. by rewrite Hlen.
  - destruct i as [|i]; simpl in Hi; by simplify_eq.
  - destruct i as [|i]; simpl in Hi; by simplify_eq.
  - destruct i as [|i]; simpl in Hi; by simplify_eq.
Qed.

Lemma pipeline_outcome_raise cmds ran e :
  pipeline_outcome cmds ran (Raise e) →
  ∃ c res, last ran = Some (c, res) ∧
    (res = NotFound ∧ e = OSError FileNotFoundError [] ∨
     (∃ rc out, res = Exited rc out ∧ rc ≠ 0 ∧ e = CalledProcessError rc c.1) ∨
     (∃ kind, res = NoCwd kind ∧ e = OSError kind (default [] c.2))).
Proof.
  remember (Raise e) as r eqn:Hr. induction 1; simplify_eq.
  - destruct IHpipeline_outcome as (c' & res & Hl & Hres); [done|].
    exists c', res. split; [|done].
    destruct ran; [done|]. done.
  - exists c, (Exited rc out). split; [done|]. right. left. eauto.
  - exists c, NotFound. split; [done|]. by left.
  - exists c, (NoCwd kind). split; [done|]. right. right. eauto.
Qed.

Section PipelineFacts.

Context (exec : list string → option AbsPath → Host → ExecResult * Host).

(** A command whose working directory is there is handed to the
    operating system; otherwise the attempt is all there is. *)
Lemma subprocess_run_trace argv cwd check w r w' :
  subprocess_run exec argv cwd check w = (r, w') →
  ∃ res, trace w' = trace w ++ [(EvRun argv cwd res, root (host w'))] ∧
         (cwd_error cwd (root (host w)) = None ∧
          exec argv cwd (host w) = (res, host w') ∨
          ∃ kind, cwd_error cwd (root (host w)) = Some kind ∧
                  res = NoCwd kind ∧ host w' = host w ∧
                  r = Raise (OSError kind (default [] cwd))).
Proof.
  unfold subprocess_run.
  destruct (cwd_error cwd (root (host w))) as [kind|] eqn:Ecwd.
  { intros H. simplify_eq. exists (NoCwd kind). split; [done|]. right. eauto. }
  destruct (exec argv cwd (host w)) as [res h'] eqn:E.
  intros H. exists res.
  destruct res as [|rc out|k]; [|destruct (check && negb (rc =? 0))|];
    simplify_eq; (split; [done|by left]).
Qed.

Lemma run_pipeline_outcome cmds w r w' :
  run_pipeline exec cmds w = (r, w') →
  ∃ tr, trace w' = trace w ++ tr ∧ Forall is_run tr.*1 ∧
        pipeline_outcome cmds (runs tr.*1) r.
Proof.
  revert w. induction cmds as [|[argv cwd] cmds IH]; intros w H; simpl in H.
  - unfold ret in H. simplify_eq. exists []. rewrite app_nil_r.
    repeat split; [done|constructor].
  - unfold bind, subprocess_run in H.
    destruct (cwd_error cwd (root (host w))) as [kind|] eqn:Ecwd.
    { simplify_eq. eexists [_]. repeat split.
      - repeat constructor.
      - apply (po_nocwd (argv, cwd)). }
    destruct (exec argv cwd (host w)) as [res h'] eqn:E.
    destruct res as [|rc out|k].
    + simplify_eq. eexists [_]. repeat split.
      * repeat constructor.
      * apply po_missing.
    + simpl in H. destruct (rc =? 0) eqn:Erc; simpl in H.
      * apply Z.eqb_eq in Erc as ->.
        destruct (IH _ H) as (tr & Htr & Hruns & Hout).
        eexists (_ :: tr). split; [|split].
        -- rewrite Htr. simpl. by rewrite <-app_assoc.
        -- constructor; [exact I|done].
        -- simpl. by apply po_next.
      * apply Z.eqb_neq in Erc. simplify_eq. eexists [_]. repeat split.
        -- repeat constructor.
        -- by apply (po_fail (argv, cwd)).
    + simplify_eq. eexists [_]. repeat split.
      * repeat constructor.
      * apply (po_nocwd (argv, cwd)).
Qed.

(** A property of the host that no command breaks holds after the
    pipeline, and in every state it went through. *)
Lemma run_pipeline_invariant (P : Host → Prop) cmds w r w' :
  (∀ argv cwd h, P h → P (exec argv cwd h).2) →
  P (host w) →
  run_pipeline exec cmds w = (r, w') →
  P (host w').
Proof.
  intros Hexec. revert w.
  induction cmds as [|[argv cwd] cmds IH]; intros w HP H; simpl in H.
  - unfold ret in H. by simplify_eq.
  - unfold bind, subprocess_run in H.
    destruct (cwd_error cwd (root (host w))) as [kind|] eqn:Ecwd;
      [by simplify_eq|].
    specialize (Hexec argv cwd (host w) HP).
    destruct (exec argv cwd (host w)) as [res h'] eqn:E. simpl in Hexec.
    destruct res as [|rc out|k]; [by simplify_eq| |by simplify_eq].
    simpl in H. destruct (rc =? 0); simpl in H; [|by simplify_eq].
    eapply IH; [|exact H]. exact Hexec.
Qed.

End PipelineFacts.

(** ** Traces and the fail-fast property *)

Lemma new_trace_app w w' tr :
  trace w' = trace w ++ tr → new_trace w w' = tr.
Proof. intros H. unfold new_trace. rewrite H. apply drop_app_length. Qed.

Lemma new_events_app w w' tr :
  trace w' = trace w ++ tr → new_events w w' = tr.*1.
Proof. intros H. unfold new_events. by rewrite (new_trace_app _ _ _ H). Qed.

Lemma fail_fast_nil {A} (r : Result A) : fail_fast [] r.
Proof. intros i c rc out H. done. Qed.

Lemma fail_fast_app {A} ran1 ran2 (r : Result A) :
  all_exited_0 ran1 → fail_fast ran2 r → fail_fast (ran1 ++ ran2) r.
Proof.
  intros H1 H2 i c rc out Hi Hrc.
  destruct (lookup_app_Some ran1 ran2 i (c, Exited rc out)) as [Hl _].
  destruct (Hl Hi) as [Hi1 | [Hlen Hi2]].
  - unfold all_exited_0 in H1. rewrite Forall_lookup in H1.
    destruct (H1 _ _ Hi1) as [out' Hout]. simpl in Hout. by simplify_eq.
  - destruct (H2 _ _ _ _ Hi2 Hrc) as [-> Hlen2]. split; [done|].
    rewrite length_app, Hlen2. lia.
Qed.

Lemma fail_fast_raise {A B} ran e :
  fail_fast ran (@Raise A e) → fail_fast ran (@Raise B e).
Proof.
  intros H i c rc out Hi Hrc. destruct (H _ _ _ _ Hi Hrc) as [He Hlen].
  split; [by simplify_eq|done].
Qed.

Lemma fail_fast_all_ok {A} ran (r : Result A) :
  all_exited_0 ran → fail_fast ran r.
Proof.
  intros H. rewrite <-(app_nil_r ran). apply fail_fast_app; [done|].
  apply fail_fast_nil.
Qed.

Lemma pipeline_outcome_fail_fast cmds ran r :
  pipeline_outcome cmds ran r → fail_fast ran r.
Proof. intros H i c rc out Hi Hrc. by eapply pipeline_outcome_failing. Qed.

(** ** The primitives *)

Lemma put_cons_cons c c' p x m :
  FS.put (c :: c' :: p) x (Dir m) =
  match m !! c with
  | Some n' =>
      match FS.put (c' :: p) x n' with
      | Some n'' => Some (Dir (<[c := n'']> m))
      | None => None
      end
  | None => None
  end.
Proof. done. Qed.

Lemma put_again p x y n n' :
  FS.put p x n = Some n' → is_Some (FS.put p y n').
Proof.
  revert n n'. induction p as [|c p IH]; intros n n' H; simpl in H; [done|].
  destruct n as [|m]; [done|]. destruct p as [|c' p].
  - simplify_eq. simpl. eauto.
  - destruct (m !! c) as [n1|] eqn:E; [|done].
    destruct (FS.put (c' :: p) x n1) as [n2|] eqn:E2; [|done]. simplify_eq.
    destruct (IH _ _ E2) as [n3 E3].
    rewrite put_cons_cons, lookup_insert_eq, E3. eauto.
Qed.

(** A stamp write either fails before it touched anything, or first
    leaves the file empty and then holding the text, under one inode. *)
Lemma write_text_outcome p s w r w' :
  write_text p s w = (r, w') →
  (∃ e, r = Raise e ∧ w' = w) ∨
  (r = Ok tt ∧ ∃ i n1,
     trace w' = trace w ++ [(EvOpenW p, n1); (EvWrite p s, root (host w'))] ∧
     FS.file_at n1 p = Some (i, "") ∧
     FS.file_at (root (host w')) p = Some (i, s)).
Proof.
  unfold write_text, bind, open_w, write_close.
  destruct (FS.lookup (root (host w)) p) as [[i d|m]|] eqn:El.
  - destruct (FS.put p (File i "") (root (host w))) as [r1|] eqn:E1;
      [|intros; simplify_eq; left; eauto].
    simpl. destruct (put_again p _ (File i s) _ _ E1) as [r2 E2]. rewrite E2.
    intros ?; simplify_eq. right. split; [done|]. exists i, r1. simpl.
    split; [by rewrite <-app_assoc|]. unfold FS.file_at.
    by rewrite (put_lookup_eq _ _ _ _ E1), (put_lookup_eq _ _ _ _ E2).
  - intros; simplify_eq; left; eauto.
  - destruct (FS.put p (File (next_ino (host w)) "") (root (host w)))
      as [r1|] eqn:E1; [|intros; simplify_eq; left; eauto].
    simpl. destruct (put_again p _ (File (next_ino (host w)) s) _ _ E1) as [r2 E2].
    rewrite E2. intros ?; simplify_eq. right. split; [done|].
    exists (next_ino (host w)), r1. simpl.
    split; [by rewrite <-app_assoc|]. unfold FS.file_at.
    by rewrite (put_lookup_eq _ _ _ _ E1), (put_lookup_eq _ _ _ _ E2).
Qed.

Lemma stamp_not_prefix_build pb :
  ¬ (pb ++ ["stamp"]) `prefix_of` (pb ++ ["build"]).
Proof. intros H. apply prefix_app_inv in H. by apply prefix_cons_inv_1 in H. Qed.

(** The preparation of the build directory runs no command; after it
    the stamp is gone when the build is fresh, and as it was when not. *)
Lemma make_build_dir_outcome fresh_build build_base w r w2 :
  make_build_dir fresh_build (postgres_build build_base) w = (r, w2) →
  ∃ tr, trace w2 = trace w ++ tr ∧
    Forall (λ ev, ev = EvRmtree (postgres_build build_base) ∨
                  ev = EvMkdir (build_dir build_base)) tr.*1 ∧
    FS.lookup (root (host w2)) (stamp_path build_base) =
      (if fresh_build then None
       else FS.lookup (root (host w)) (stamp_path build_base)) ∧
    (fresh_build = true →
     FS.is_dir (root (host w)) (postgres_build build_base) = true →
     ∃ n tr', tr = (EvRmtree (postgres_build build_base), n) :: tr' ∧
              FS.lookup n (postgres_build build_base) = None).
Proof.
  unfold make_build_dir, stamp_path, build_dir, postgres_build.
  set (pb := build_base ++ ["postgres"]).
  assert (pb ≠ []) as Hpb by (subst pb; by destruct build_base).
  (* the second half, from any intermediate world *)
  assert (∀ wa r w2,
    (let! e := path_exists (pb ++ ["build"]) in
     if negb e then mkdir_parents (pb ++ ["build"]) false else ret tt) wa
      = (r, w2) →
    ∃ tr, trace w2 = trace wa ++ tr ∧
      Forall (λ ev, ev = EvRmtree pb ∨ ev = EvMkdir (pb ++ ["build"])) tr.*1 ∧
      FS.lookup (root (host w2)) (pb ++ ["stamp"]) =
      FS.lookup (root (host wa)) (pb ++ ["stamp"])) as Hmk.
  { intros wa r' w2'. unfold bind, path_exists, mkdir_parents, FS.exists_, ret.
    destruct (FS.lookup (root (host wa)) (pb ++ ["build"])) as [x|] eqn:El; simpl.
    - intros ?; simplify_eq. exists []. by rewrite app_nil_r.
    - rewrite El.
      destruct (FS.makedirs (pb ++ ["build"]) (root (host wa))) as [r1|] eqn:Em;
        intros ?; simplify_eq.
      + eexists [_]. split; [done|]. split; [repeat constructor; by right|].
        simpl. apply (makedirs_lookup_ne _ _ _ _ Em), stamp_not_prefix_build.
      + exists []. by rewrite app_nil_r. }
  unfold bind at 1. unfold path_exists at 1. cbv beta iota.
  unfold bind at 1.
  destruct fresh_build; simpl.
  - unfold FS.exists_, FS.is_dir, shutil_rmtree.
    destruct (FS.lookup (root (host w)) pb) as [[i d|m]|] eqn:El; simpl.
    + (* a regular file is in the way *)
      rewrite El. intros ?; simplify_eq. exists []. rewrite app_nil_r.
      repeat split; [constructor| |done].
      by rewrite lookup_app, El.
    + rewrite El.
      destruct (remove_total pb _ _ Hpb El) as [r1 Er]. rewrite Er.
      intros H. apply Hmk in H as (tr & Htr & Hev & Hst). simpl in *.
      eexists (_ :: tr). split; [by rewrite Htr, <-app_assoc|].
      split; [constructor; [by left|done]|].
      split; [by rewrite Hst; apply (remove_lookup_below _ _ _ _ Er)|].
      intros _ _. eexists _, _. split; [done|].
      rewrite <-(app_nil_r pb). apply (remove_lookup_below _ _ _ _ Er).
    + unfold ret. intros H. apply Hmk in H as (tr & Htr & Hev & Hst).
      exists tr. repeat split; [done|done| |done].
      by rewrite Hst, lookup_app, El.
  - unfold ret. intros H. apply Hmk in H as (tr & Htr & Hev & Hst).
    exists tr. repeat split; try done.
Qed.

(** ** The example programs *)

Lemma demo_exec_preserves git_out failing t :
  exec_preserves (demo_exec git_out failing) t.
Proof.
  intros argv cwd h. unfold demo_exec.
  destruct (bool_decide _); [done|]. by destruct (failing argv).
Qed.

Lemma demo_exec_keeps_absent git_out failing t :
  exec_keeps_absent (demo_exec git_out failing) t.
Proof. intros argv cwd h Hh. by rewrite demo_exec_preserves. Qed.

Lemma demo_build_rust_spares dbg :
  spares (demo_build_rust dbg) (demo_get_ext_fullpath true "_edgeql_rust").
Proof.
  intros h. unfold demo_build_rust.
  destruct (FS.put _ _ (root h)) as [r'|] eqn:E; [|done]. simpl.
  apply (put_file_at _ _ _ _ _ E). intros [k Hk]. vm_compute in Hk. congruence.
Qed.

Lemma demo_build_rust_keeps_inodes dbg : keeps_inodes (demo_build_rust dbg).
Proof.
  intros h. unfold demo_build_rust.
  destruct (FS.put _ _ (root h)); simpl; lia.
Qed.

(** ** [_compile_postgres]: the shape of a run *)

Section CompilePostgresFacts.

Context (exec : list string → option AbsPath → Host → ExecResult * Host).
Context (ROOT_PATH : AbsPath) (system : string) (cpu_count : option Z).

Lemma get_build_stamp_eq p w :
  get_build_stamp p w =
  (match FS.lookup (root (host w)) p with
   | None => Ok None
   | Some (File _ d) => Ok (Some d)
   | Some (Dir _) => Raise (OSError IsADirectoryError p)
   end, w).
Proof.
  unfold get_build_stamp, bind, path_exists, read_text, FS.exists_, ret.
  destruct (FS.lookup (root (host w)) p) as [[]|] eqn:E; simpl; by rewrite ?E.
Qed.

Lemma get_uuidlib_supported w :
  system = "Linux" ∨ system = "Darwin" →
  get_uuidlib system w = (Ok "e2fs", w).
Proof. unfold get_uuidlib. by intros [-> | ->]. Qed.

Lemma get_uuidlib_unsupported w :
  system ≠ "Linux" → system ≠ "Darwin" →
  get_uuidlib system w =
  (Raise (NotImplementedError ("unsupported system: " +:+ system)), w).
Proof.
  intros H1 H2. unfold get_uuidlib.
  rewrite !bool_decide_eq_false_2 by done. done.
Qed.

(** A rebuild on a supported system is the preparation of the build
    directory, the toolchain pipeline, and the stamp write. *)
Lemma compile_postgres_rebuild w src w1 bs build_base
    force_build fresh_build run_configure build_contrib :
  get_source_stamp exec w = (Ok src, w1) →
  get_build_stamp (stamp_path build_base) w1 = (Ok bs, w1) →
  is_outdated src bs || force_build = true →
  system = "Linux" ∨ system = "Darwin" →
  _compile_postgres exec ROOT_PATH system cpu_count build_base
    force_build fresh_build run_configure build_contrib w =
  (make_build_dir fresh_build (postgres_build build_base) >>
   toolchain_phase exec ROOT_PATH cpu_count build_base
     (is_outdated src bs) fresh_build run_configure build_contrib >>
   write_text (stamp_path build_base) src) w1.
Proof.
  intros Hsrc Hbs Hreb Hsys. unfold stamp_path, postgres_build in *.
  unfold _compile_postgres. unfold bind at 1. rewrite Hsrc.
  unfold bind at 1. rewrite Hbs, Hreb.
  unfold bind at 1. rewrite (get_uuidlib_supported _ Hsys).
  unfold toolchain_phase, configure_steps, make_steps, configure_cmd,
    make_cmd, make_contrib_cmd, install_cmd, install_contrib_cmd, build_dir,
    jobs, ret, raise.
  destruct cpu_count as [n|];
  destruct (run_configure || fresh_build || is_outdated src bs),
    (build_contrib || fresh_build || is_outdated src bs); simpl;
    unfold bind; cbv beta; simpl;
    (destruct (make_build_dir _ _ w1) as [[[]|e] w2]; [|done]);
    repeat match goal with
      | |- context [subprocess_run exec ?a ?c true ?w] =>
          destruct (subprocess_run exec a c true w) as [[?|?] ?];
          simpl; try done
      end; done.
Qed.

Lemma compile_postgres_current w src w1 bs build_base
    force_build fresh_build run_configure build_contrib :
  get_source_stamp exec w = (Ok src, w1) →
  get_build_stamp (stamp_path build_base) w1 = (Ok bs, w1) →
  is_outdated src bs || force_build = false →
  _compile_postgres exec ROOT_PATH system cpu_count build_base
    force_build fresh_build run_configure build_contrib w = (Ok tt, w1).
Proof.
  intros Hsrc Hbs Hreb. unfold stamp_path in *.
  unfold _compile_postgres. unfold bind at 1. rewrite Hsrc.
  unfold bind at 1. by rewrite Hbs, Hreb.
Qed.

Lemma compile_postgres_unsupported w src w1 bs build_base
    force_build fresh_build run_configure build_contrib :
  get_source_stamp exec w = (Ok src, w1) →
  get_build_stamp (stamp_path build_base) w1 = (Ok bs, w1) →
  is_outdated src bs || force_build = true →
  system ≠ "Linux" → system ≠ "Darwin" →
  _compile_postgres exec ROOT_PATH system cpu_count build_base
    force_build fresh_build run_configure build_contrib w =
  (Raise (NotImplementedError ("unsupported system: " +:+ system)), w1).
Proof.
  intros Hsrc Hbs Hreb H1 H2. unfold stamp_path in *.
  unfold _compile_postgres. unfold bind at 1. rewrite Hsrc.
  unfold bind at 1. rewrite Hbs, Hreb.
  unfold bind at 1. by rewrite (get_uuidlib_unsupported _ H1 H2).
Qed.

(** The source-state query runs [git submodule status] at most twice
    and touches nothing itself. *)
Lemma get_source_stamp_outcome w r w1 :
  get_source_stamp exec w = (r, w1) →
  ∃ tr, trace w1 = trace w ++ tr ∧
    Forall (λ ev, is_run ev ∨ ∃ m, ev = EvPrint m) tr.*1 ∧
    (runs tr.*1).*1 `prefix_of`
      [(git_submodule_status, None); (git_submodule_status, None)] ∧
    fail_fast (runs tr.*1) r ∧
    (∀ s, r = Ok s →
       all_exited_0 (runs tr.*1) ∧
       ∃ o1 o2,
         tr.*1 = [EvRun git_submodule_status None (Exited 0 o1);
                  EvRun git_submodule_status None (Exited 0 o2)] ∧
         host w1 =
           (exec git_submodule_status None
              (exec git_submodule_status None (host w)).2).2).
Proof.
  unfold get_source_stamp, bind, subprocess_run, cwd_error, str_index0, print,
    sys_exit, raise, ret.
  destruct (exec git_submodule_status None (host w)) as [res1 h1] eqn:E1.
  assert (∀ res (r0 : Result string),
    (∀ rc out, res = Exited rc out → rc ≠ 0 →
       r0 = Raise (CalledProcessError rc git_submodule_status)) →
    fail_fast [((git_submodule_status, None), res)] r0) as Hone.
  { intros res r0 Hr [|i] cx rc' out' Hi Hrc'; simpl in Hi; simplify_eq.
    split; [|done]. by apply (Hr _ _ eq_refl). }
  assert (∀ o res (r0 : Result string),
    (∀ rc out, res = Exited rc out → rc ≠ 0 →
       r0 = Raise (CalledProcessError rc git_submodule_status)) →
    fail_fast [((git_submodule_status, None), Exited 0 o);
               ((git_submodule_status, None), res)] r0) as Htwo.
  { intros o res r0 Hr [|[|i]] cx rc' out' Hi Hrc'; simpl in Hi; simplify_eq.
    split; [|done]. by apply (Hr _ _ eq_refl). }
  assert (∀ x : Cmd, [x] `prefix_of` [x; x]) as Hpre
    by (intros x; apply prefix_cons, prefix_nil).
  destruct res1 as [|rc1 out1|k1]; simpl.
  { intros ?; simplify_eq. eexists [_]. simpl.
    split_and!; [by rewrite <-?app_assoc|repeat constructor|apply Hpre|by apply Hone|done]. }
  2: { intros ?; simplify_eq. eexists [_]. simpl.
       split_and!; [by rewrite <-?app_assoc|repeat constructor|apply Hpre|by apply Hone|done]. }
  destruct (rc1 =? 0) eqn:Erc1; simpl.
  2: { apply Z.eqb_neq in Erc1. intros ?; simplify_eq. eexists [_]. simpl.
       split_and!; [by rewrite <-?app_assoc|repeat constructor|apply Hpre| |done].
       apply Hone. intros; by simplify_eq. }
  apply Z.eqb_eq in Erc1 as ->.
  destruct (PyStr.first_char out1) as [c1|]; simpl.
  2: { intros ?; simplify_eq. eexists [_]. simpl.
       split_and!; [by rewrite <-?app_assoc|repeat constructor|apply Hpre| |done].
       apply Hone. intros; by simplify_eq. }
  destruct (bool_decide (c1 = "-"%char)); simpl.
  { intros ?; simplify_eq. eexists [_; _]. simpl.
    split_and!; [by rewrite <-?app_assoc| |apply Hpre| |done].
    - constructor; [by left|]. constructor; [right; eauto|constructor].
    - apply Hone. intros; by simplify_eq. }
  destruct (exec git_submodule_status None h1) as [res2 h2] eqn:E2.
  destruct res2 as [|rc2 out2|k2]; simpl.
  { intros ?; simplify_eq. eexists [_; _]. simpl.
    split_and!; [by rewrite <-?app_assoc|repeat constructor|done|by apply Htwo|done]. }
  2: { intros ?; simplify_eq. eexists [_; _]. simpl.
       split_and!; [by rewrite <-?app_assoc|repeat constructor|done|by apply Htwo|done]. }
  destruct (rc2 =? 0) eqn:Erc2; simpl.
  2: { apply Z.eqb_neq in Erc2. intros ?; simplify_eq. eexists [_; _]. simpl.
       split_and!; [by rewrite <-?app_assoc|repeat constructor|done| |done].
       apply Htwo. intros; by simplify_eq. }
  apply Z.eqb_eq in Erc2 as ->.
  destruct (PyStr.partition " " _) as [[rev ?] ?].
  destruct (PyStr.first_char out2) as [c2|]; simpl;
    intros ?; simplify_eq; eexists [_; _]; simpl;
    (split_and!; [by rewrite <-?app_assoc|repeat constructor|done| |]);
    try (apply Htwo; intros; by simplify_eq); try done.
  intros src Hsrc. split; [repeat constructor; simpl; eauto|].
  by exists out1, out2.
Qed.

Lemma configure_cmd_not_make build_base j od fr bc :
  configure_cmd ROOT_PATH build_base ∉ make_steps build_base j od fr bc.
Proof.
  unfold make_steps, configure_cmd, make_cmd, make_contrib_cmd, install_cmd,
    install_contrib_cmd, abs_str.
  intros H. destruct (bc || fr || od); simpl in H;
    repeat (apply elem_of_cons in H as [H|H]; [by inversion H|]);
    by apply elem_of_nil in H.
Qed.

(** The toolchain phase: the commands that ran are a prefix of the
    plan, the phase is fail-fast, and it is the configure step that
    comes first when it is due. *)
Lemma toolchain_phase_outcome build_base od fr rc bc w2 r w3 :
  toolchain_phase exec ROOT_PATH cpu_count build_base od fr rc bc w2 = (r, w3) →
  ∃ tr j, trace w3 = trace w2 ++ tr ∧ Forall is_run tr.*1 ∧
    (∀ n, cpu_count = Some n → j = PyStr.of_Z (Z.max (n - 1) 1)) ∧
    (runs tr.*1).*1 `prefix_of` toolchain_plan ROOT_PATH build_base j od fr rc bc ∧
    fail_fast (runs tr.*1) r ∧
    (r = Ok tt →
       (runs tr.*1).*1 = toolchain_plan ROOT_PATH build_base j od fr rc bc ∧
       all_exited_0 (runs tr.*1) ∧ is_Some cpu_count) ∧
    (rc || fr || od = true →
       ∃ res, head (runs tr.*1) = Some (configure_cmd ROOT_PATH build_base, res)) ∧
    (rc || fr || od = false →
       configure_cmd ROOT_PATH build_base ∉ (runs tr.*1).*1).
Proof.
  set (j := match cpu_count with
            | Some n => PyStr.of_Z (Z.max (n - 1) 1)
            | None => ""
            end).
  assert (∀ n, cpu_count = Some n → j = PyStr.of_Z (Z.max (n - 1) 1)) as Hj
    by (by intros n Hn; subst j; rewrite Hn).
  unfold toolchain_phase, toolchain_plan. unfold bind at 1.
  destruct (run_pipeline exec _ w2) as [[[]|e] wa] eqn:E1;
    apply run_pipeline_outcome in E1 as (tr1 & Htr1 & Hrun1 & Hout1).
  2: { (* the configure step failed *)
    intros ?; simplify_eq. exists tr1, j.
    split; [done|]. split; [done|]. split; [done|].
    split; [by apply prefix_app_r, (pipeline_outcome_prefix _ _ _ Hout1)|].
    split; [by apply (pipeline_outcome_fail_fast _ _ _ Hout1)|].
    split; [done|]. unfold configure_steps in Hout1.
    split; intros Hc; rewrite Hc in Hout1.
    - inversion Hout1 as [|? ? ? ? ? Hrest| | |]; simplify_eq; simpl; eauto.
    - inversion Hout1. }
  apply pipeline_outcome_ok in Hout1 as [Hran1 Hok1].
  assert ((rc || fr || od = true →
            ∃ res, head (runs tr1.*1) = Some (configure_cmd ROOT_PATH build_base, res)) ∧
          (rc || fr || od = false → runs tr1.*1 = [])) as [Hhead Hnone].
  { unfold configure_steps in Hran1. split; intros Hc; rewrite Hc in Hran1.
    - destruct (runs tr1.*1) as [|[c res] ?]; [done|]. simpl in *.
      simplify_eq. eauto.
    - by destruct (runs tr1.*1). }
  unfold jobs. destruct cpu_count as [n|] eqn:Ecpu.
  - unfold bind, ret.
    destruct (run_pipeline exec _ wa) as [r2 w3'] eqn:E2.
    apply run_pipeline_outcome in E2 as (tr2 & Htr2 & Hrun2 & Hout2).
    intros ?; simplify_eq. exists (tr1 ++ tr2), j.
    rewrite fmap_app, runs_app, fmap_app.
    split; [by rewrite Htr2, Htr1, <-app_assoc|].
    split; [by apply Forall_app|]. split; [done|].
    split; [rewrite Hran1; by apply prefix_app, (pipeline_outcome_prefix _ _ _ Hout2)|].
    split; [by apply fail_fast_app, (pipeline_outcome_fail_fast _ _ _ Hout2)|].
    split; [|split].
    + intros ->. apply pipeline_outcome_ok in Hout2 as [Hran2 Hok2].
      split; [by rewrite Hran1, Hran2|]. split; [by apply Forall_app|eauto].
    + intros Hc. destruct (Hhead Hc) as [res Hres]. exists res.
      destruct (runs tr1.*1); [done|]. done.
    + intros Hc. rewrite (Hnone Hc). simpl. intros Hin.
      apply pipeline_outcome_prefix in Hout2 as [k Hk].
      apply (configure_cmd_not_make build_base
               (PyStr.of_Z (Z.max (n - 1) 1)) od fr bc).
      rewrite Hk. apply elem_of_app. by left.
  - unfold bind, raise. intros ?; simplify_eq. exists tr1, j.
    split; [done|]. split; [done|]. split; [done|].
    split; [rewrite Hran1; by apply prefix_app_r|].
    split; [by apply fail_fast_all_ok|].
    split; [done|]. split; [done|].
    intros Hc. rewrite (Hnone Hc). simpl. apply not_elem_of_nil.
Qed.

(** A property of the host that no command breaks holds after the
    toolchain phase. *)
Lemma toolchain_phase_invariant (P : Host → Prop) build_base od fr rc bc w2 r w3 :
  (∀ argv cwd h, P h → P (exec argv cwd h).2) →
  P (host w2) →
  toolchain_phase exec ROOT_PATH cpu_count build_base od fr rc bc w2 = (r, w3) →
  P (host w3).
Proof.
  intros Hexec HP. unfold toolchain_phase. unfold bind at 1.
  destruct (run_pipeline exec _ w2) as [[[]|e] wa] eqn:E1;
    apply (run_pipeline_invariant exec P _ _ _ _ Hexec HP) in E1.
  2: { by intros ?; simplify_eq. }
  unfold jobs. destruct cpu_count as [n|].
  - unfold bind, ret. intros E2.
    by apply (run_pipeline_invariant exec P _ _ _ _ Hexec E1) in E2.
  - unfold bind, raise. by intros ?; simplify_eq.
Qed.

Lemma get_source_stamp_nonempty w s w1 :
  get_source_stamp exec w = (Ok s, w1) → s ≠ "".
Proof.
  unfold get_source_stamp, bind, str_index0, sys_exit, raise, ret, print.
  destruct (subprocess_run exec _ _ _ w) as [[p1|?] wa]; [|done].
  destruct (PyStr.first_char (cp_stdout p1)); [|done].
  destruct (bool_decide _); simpl; [done|].
  destruct (subprocess_run exec _ _ _ wa) as [[p2|?] wb]; [|done].
  destruct (PyStr.partition _ _) as [[? ?] ?].
  destruct (PyStr.first_char (cp_stdout p2)); [|done].
  intros ?; by simplify_eq.
Qed.

(** The three phases of a rebuild, and where it can stop. *)
Lemma rebuild_outcome w src w1 bs build_base
    force_build fresh_build run_configure build_contrib r w' :
  get_source_stamp exec w = (Ok src, w1) →
  get_build_stamp (stamp_path build_base) w1 = (Ok bs, w1) →
  is_outdated src bs || force_build = true →
  system = "Linux" ∨ system = "Darwin" →
  _compile_postgres exec ROOT_PATH system cpu_count build_base
    force_build fresh_build run_configure build_contrib w = (r, w') →
  ∃ rp w2,
    make_build_dir fresh_build (postgres_build build_base) w1 = (rp, w2) ∧
    ((∃ e, rp = Raise e ∧ r = Raise e ∧ w' = w2) ∨
     (rp = Ok tt ∧ ∃ rt w3,
        toolchain_phase exec ROOT_PATH cpu_count build_base
          (is_outdated src bs) fresh_build run_configure build_contrib w2
          = (rt, w3) ∧
        ((∃ e, rt = Raise e ∧ r = Raise e ∧ w' = w3) ∨
         (rt = Ok tt ∧ write_text (stamp_path build_base) src w3 = (r, w'))))).
Proof.
  intros Hsrc Hbs Hreb Hsys.
  rewrite (compile_postgres_rebuild _ _ _ _ _ _ _ _ _ Hsrc Hbs Hreb Hsys).
  unfold bind.
  destruct (make_build_dir _ _ w1) as [[[]|e] w2]; intros H.
  2: { simplify_eq. eexists _, _. split; [done|]. left. eauto. }
  eexists _, _. split; [done|]. right. split; [done|].
  destruct (toolchain_phase _ _ _ _ _ _ _ _ w2) as [[[]|e] w3].
  - eexists _, _. split; [done|]. right. eauto.
  - simplify_eq. eexists _, _. split; [done|]. left. eauto.
Qed.

Lemma runs_no_run evs :
  Forall (λ ev, ¬ is_run ev) evs → runs evs = [].
Proof.
  induction 1 as [|ev evs Hev _ IH]; [done|].
  unfold runs in *. destruct ev; simpl; try exact IH. by destruct Hev.
Qed.

Lemma runs_all_run evs :
  Forall is_run evs → length (runs evs) = length evs.
Proof.
  induction 1 as [|ev evs Hev _ IH]; [done|].
  unfold runs in *. destruct ev; try done. simpl. by f_equal.
Qed.

Lemma elem_of_runs argv cwd res evs :
  EvRun argv cwd res ∈ evs ↔ ((argv, cwd), res) ∈ runs evs.
Proof.
  unfold runs. rewrite list_elem_of_omap. split.
  - intros H. exists (EvRun argv cwd res). done.
  - intros (ev & Hin & Hev). destruct ev; by simplify_eq.
Qed.

Lemma make_build_dir_no_run fresh_build build_base w r w2 :
  make_build_dir fresh_build (postgres_build build_base) w = (r, w2) →
  ∃ tr, trace w2 = trace w ++ tr ∧ runs tr.*1 = [].
Proof.
  intros H. apply make_build_dir_outcome in H as (tr & Htr & Hev & _).
  exists tr. split; [done|]. apply runs_no_run.
  eapply Forall_impl; [exact Hev|]. by intros ev [-> | ->] ?.
Qed.

Lemma write_text_no_run p s w r w' :
  write_text p s w = (r, w') →
  ∃ tr, trace w' = trace w ++ tr ∧ runs tr.*1 = [].
Proof.
  intros H. apply write_text_outcome in H as [(e & -> & ->) | (-> & i & n1 & Htr & _)].
  - exists []. by rewrite app_nil_r.
  - eexists. split; [exact Htr|done].
Qed.

Lemma prefix_two_l {A} (x y : A) l k :
  l `prefix_of` [x; y] → l `prefix_of` x :: y :: k.
Proof.
  intros [k' Hk]. exists (k' ++ k).
  change (x :: y :: k) with ([x; y] ++ k). by rewrite Hk, <-app_assoc.
Qed.

Lemma prefix_two_r {A} (x y : A) l k :
  l `prefix_of` k → [x; y] ++ l `prefix_of` x :: y :: k.
Proof. intros H. by apply (prefix_app [x; y]). Qed.

(** Whatever the run, the commands it started are, in this order, the
    two status queries and then a prefix of the plan, and the run is
    fail-fast. *)
Lemma compile_postgres_runs w build_base
    force_build fresh_build run_configure build_contrib r w' :
  _compile_postgres exec ROOT_PATH system cpu_count build_base
    force_build fresh_build run_configure build_contrib w = (r, w') →
  ∃ tr j outdated, trace w' = trace w ++ tr ∧
    (∀ n, cpu_count = Some n → j = PyStr.of_Z (Z.max (n - 1) 1)) ∧
    (runs tr.*1).*1 `prefix_of`
      (git_submodule_status, None) :: (git_submodule_status, None) ::
      toolchain_plan ROOT_PATH build_base j outdated
        fresh_build run_configure build_contrib ∧
    fail_fast (runs tr.*1) r.
Proof.
  set (j0 := match cpu_count with
             | Some n => PyStr.of_Z (Z.max (n - 1) 1)
             | None => ""
             end).
  assert (∀ n, cpu_count = Some n → j0 = PyStr.of_Z (Z.max (n - 1) 1)) as Hj0
    by (by intros n Hn; subst j0; rewrite Hn).
  destruct (get_source_stamp exec w) as [[src|e] w1] eqn:Hsrc.
  2: { (* the status query failed *)
    unfold _compile_postgres, bind. rewrite Hsrc. intros ?; simplify_eq.
    apply get_source_stamp_outcome in Hsrc as (tr & Htr & _ & Hpre & Hff & _).
    exists tr, j0, true. split_and!; [done|done| |by apply (fail_fast_raise _ _ Hff)].
    by apply prefix_two_l. }
  pose proof (get_source_stamp_outcome _ _ _ Hsrc)
    as (trg & Htrg & _ & Hpreg & _ & Hokg).
  destruct (Hokg _ eq_refl) as (Hallg & o1 & o2 & Hevg & _).
  assert ((runs trg.*1).*1 =
          [(git_submodule_status, None); (git_submodule_status, None)]) as Hrg
    by (by rewrite Hevg).
  pose proof (get_build_stamp_eq (stamp_path build_base) w1) as Hbs.
  destruct (FS.lookup (root (host w1)) (stamp_path build_base)) as [[i d|m]|] eqn:El.
  2: { (* the stamp is a directory *)
    unfold _compile_postgres, bind. rewrite Hsrc.
    unfold stamp_path in Hbs. rewrite Hbs. intros ?; simplify_eq.
    exists trg, j0, true. split_and!; [done|done| |by apply fail_fast_all_ok].
    rewrite Hrg. by apply prefix_two_l. }
  all: match type of Hbs with _ = (Ok ?b, _) => set (bs := b) in * end.
  all: destruct (is_outdated src bs || force_build) eqn:Hreb.
  2, 4: (* nothing to do *)
    rewrite (compile_postgres_current _ _ _ _ _ _ _ _ _ Hsrc Hbs Hreb);
    intros ?; simplify_eq;
    exists trg, j0, true; (split_and!; [done|done| |by apply fail_fast_all_ok]);
    rewrite Hrg; by apply prefix_two_l.
  all: destruct (decide (system = "Linux" ∨ system = "Darwin")) as [Hsys|Hsys].
  2, 4: (* unsupported system *)
    rewrite (compile_postgres_unsupported _ _ _ _ _ _ _ _ _ Hsrc Hbs Hreb)
      by (intros ?; apply Hsys; eauto);
    intros ?; simplify_eq;
    exists trg, j0, true; (split_and!; [done|done| |by apply fail_fast_all_ok]);
    rewrite Hrg; by apply prefix_two_l.
  all: intros Hrun;
    destruct (rebuild_outcome _ _ _ _ _ _ _ _ _ _ _ Hsrc Hbs Hreb Hsys Hrun)
      as (rp & w2 & Hmk & Hcase);
    apply make_build_dir_no_run in Hmk as (trp & Htrp & Hrp);
    destruct Hcase as [(e & -> & -> & ->) | (-> & rt & w3 & Htc & Hcase)].
  1, 3: (* the preparation failed *)
    exists (trg ++ trp), j0, true;
    rewrite fmap_app, runs_app, Hrp, app_nil_r;
    (split_and!; [by rewrite Htrp, Htrg, <-app_assoc|done|
                  |by apply fail_fast_all_ok]);
    rewrite Hrg; by apply prefix_two_l.
  all: apply toolchain_phase_outcome in Htc
         as (trt & j & Htrt & _ & Hj & Hpret & Hfft & Hokt & _);
    destruct Hcase as [(e & -> & -> & ->) | (-> & Hwr)].
  1, 3: (* a command failed *)
    exists (trg ++ trp ++ trt), j, (is_outdated src bs);
    rewrite !fmap_app, !runs_app, Hrp, app_nil_l, fmap_app;
    (split_and!; [by rewrite Htrt, Htrp, Htrg, <-!app_assoc|done| |]);
    [rewrite Hrg; by apply prefix_two_r|by apply fail_fast_app].
  all: apply write_text_no_run in Hwr as (trw & Htrw & Hrw);
    destruct (Hokt eq_refl) as (Hrt & Hallt & _);
    exists (trg ++ trp ++ trt ++ trw), j, (is_outdated src bs);
    rewrite !fmap_app, !runs_app, Hrp, Hrw, app_nil_l, app_nil_r, fmap_app;
    (split_and!; [by rewrite Htrw, Htrt, Htrp, Htrg, <-!app_assoc|done| |]);
    [rewrite Hrg; by apply prefix_two_r
    |by apply fail_fast_all_ok, Forall_app].
Qed.

End CompilePostgresFacts.

(** ** Unlinking, creating directories and copying *)

Section FileOps.

Implicit Types (w : World) (t p : AbsPath).

Lemma lookup_below_file n p i d q :
  FS.lookup n p = Some (File i d) → q ≠ [] → FS.lookup n (p ++ q) = None.
Proof. intros H Hq. rewrite lookup_app, H. by destruct q. Qed.

Lemma file_at_lookup n t i d :
  FS.file_at n t = Some (i, d) ↔ FS.lookup n t = Some (File i d).
Proof.
  unfold FS.file_at. destruct (FS.lookup n t) as [[]|]; split; intros; by simplify_eq.
Qed.

(** [p.unlink()]: the file at [p] goes, every other file stays. *)
Lemma path_unlink_outcome p w r w' :
  path_unlink p w = (r, w') →
  (∃ e, r = Raise e ∧ w' = w) ∨
  (r = Ok tt ∧
   (∃ n, trace w' = trace w ++ [(EvUnlink p, n)]) ∧
   next_ino (host w') = next_ino (host w) ∧
   is_Some (FS.file_at (root (host w)) p) ∧
   FS.lookup (root (host w')) p = None ∧
   (∀ t, t ≠ p → FS.file_at (root (host w')) t = FS.file_at (root (host w)) t)).
Proof.
  unfold path_unlink.
  destruct (FS.lookup (root (host w)) p) as [[i d|m]|] eqn:El;
    [|intros; simplify_eq; left; eauto..].
  destruct (FS.remove p (root (host w))) as [r1|] eqn:Er;
    [|intros; simplify_eq; left; eauto].
  intros ?; simplify_eq. right. split; [done|]. simpl.
  split_and!; [eauto|done| | |].
  - unfold FS.file_at. rewrite El. eauto.
  - rewrite <-(app_nil_r p). apply (remove_lookup_below _ _ _ _ Er).
  - intros t Hne. destruct (decide (p `prefix_of` t)) as [[q ->]|Hp].
    + assert (q ≠ []) by (intros ->; by rewrite app_nil_r in Hne).
      unfold FS.file_at.
      by rewrite (remove_lookup_below _ _ _ q Er), (lookup_below_file _ _ _ _ _ El).
    + by apply remove_file_at with p.
Qed.

(** [p.mkdir(parents=True, ...)]: no regular file changes. *)
Lemma mkdir_parents_outcome p ok w r w' :
  mkdir_parents p ok w = (r, w') →
  ((∃ e, r = Raise e) ∨ r = Ok tt) ∧
  (∃ tr, trace w' = trace w ++ tr ∧ Forall (λ ev, ev = EvMkdir p) tr.*1) ∧
  next_ino (host w') = next_ino (host w) ∧
  (∀ t, FS.file_at (root (host w')) t = FS.file_at (root (host w)) t) ∧
  (∀ t, ¬ t `prefix_of` p →
        FS.lookup (root (host w')) t = FS.lookup (root (host w)) t).
Proof.
  unfold mkdir_parents.
  assert (∃ tr, trace w = trace w ++ tr ∧ Forall (λ ev, ev = EvMkdir p) tr.*1)
    as Hnil by (exists []; by rewrite app_nil_r).
  destruct (FS.lookup (root (host w)) p) as [[i d|m]|] eqn:El.
  - intros ?; simplify_eq. eauto 10.
  - destruct ok; intros ?; simplify_eq; eauto 10.
  - destruct (FS.makedirs p (root (host w))) as [r1|] eqn:Em;
      intros ?; simplify_eq; [|eauto 10].
    split_and!; [by right| |done| |].
    + eexists [_]. split; [done|]. by repeat constructor.
    + intros t. simpl. by apply makedirs_file_at with p.
    + intros t Ht. simpl. by apply makedirs_lookup_ne with p.
Qed.

(** [shutil.copyfile(src, dst)]: [dst] ends up a regular file with the
    content of [src], under the inode it had or under a new one. *)
Lemma shutil_copyfile_outcome src dst w r w' :
  shutil_copyfile src dst w = (r, w') →
  (∃ e, r = Raise e ∧ w' = w) ∨
  (r = Ok tt ∧
   (∃ n, trace w' = trace w ++ [(EvCopyfile src dst, n)]) ∧
   next_ino (host w) ≤ next_ino (host w') ∧
   (∃ i d j,
      FS.file_at (root (host w)) src = Some (i, d) ∧
      FS.file_at (root (host w')) dst = Some (j, d) ∧
      (match FS.file_at (root (host w)) dst with
       | Some (j', _) => j = j'
       | None => j = next_ino (host w)
       end)) ∧
   (∀ t, t ≠ dst → ∀ x, FS.file_at (root (host w)) t = Some x →
                        FS.file_at (root (host w')) t = Some x) ∧
   (∀ t, t ≠ dst → ∀ x, FS.file_at (root (host w')) t = Some x →
                        FS.file_at (root (host w)) t = Some x) ∧
   (∀ t, FS.is_dir (root (host w')) t = true →
         FS.is_dir (root (host w)) t = true))%nat.
Proof.
  unfold shutil_copyfile.
  destruct (FS.lookup (root (host w)) src) as [[i d|m]|] eqn:Es;
    [|intros; simplify_eq; left; eauto..].
  assert (∀ x r1,
    (∀ m, FS.lookup (root (host w)) dst ≠ Some (Dir m)) →
    FS.put dst x (root (host w)) = Some r1 →
    ∀ t, t ≠ dst → ∀ y, FS.file_at (root (host w)) t = Some y →
                        FS.file_at r1 t = Some y) as Hkeep.
  { intros x r1 Hnd Hput t Hne y Hy.
    destruct (decide (dst `prefix_of` t)) as [[q ->]|Hp];
      [|by rewrite (put_file_at _ _ _ _ _ Hput Hp)].
    (* [t] below [dst] would make [dst] a directory *)
    exfalso. assert (q ≠ []) by (intros ->; by rewrite app_nil_r in Hne).
    destruct y as [a b]. apply file_at_lookup in Hy.
    rewrite lookup_app in Hy.
    destruct (FS.lookup (root (host w)) dst) as [[|m']|] eqn:Ed;
      [by destruct q|by destruct (Hnd m')|done]. }
  assert (∀ j x r1,
    FS.put dst (File j x) (root (host w)) = Some r1 →
    ∀ t, t ≠ dst → ∀ y, FS.file_at r1 t = Some y →
                        FS.file_at (root (host w)) t = Some y) as Hback.
  { intros j x r1 Hput t Hne y Hy.
    destruct (decide (dst `prefix_of` t)) as [[q ->]|Hp];
      [|by rewrite <-(put_file_at _ _ _ _ _ Hput Hp)].
    exfalso. assert (q ≠ []) by (intros ->; by rewrite app_nil_r in Hne).
    unfold FS.file_at in Hy. by rewrite (put_file_below _ _ _ _ _ q Hput) in Hy. }
  assert (∀ j x r1,
    FS.put dst (File j x) (root (host w)) = Some r1 →
    ∀ t, FS.is_dir r1 t = true → FS.is_dir (root (host w)) t = true) as Hdir.
  { intros j x r1 Hput t Ht.
    destruct (decide (dst `prefix_of` t)) as [[q ->]|Hp];
      [|by rewrite <-(put_is_dir _ _ _ _ _ Hput Hp)].
    exfalso. unfold FS.is_dir in Ht.
    rewrite lookup_app, (put_lookup_eq _ _ _ _ Hput) in Ht. by destruct q. }
  destruct (FS.lookup (root (host w)) dst) as [[j d'|m]|] eqn:Ed.
  - case_bool_decide; [intros; simplify_eq; left; eauto|].
    destruct (FS.put dst (File j d) (root (host w))) as [r1|] eqn:Ep;
      [|intros; simplify_eq; left; eauto].
    intros ?; simplify_eq. right. split; [done|]. simpl.
    split_and!; [eauto|done| | | |].
    + exists i, d, j. unfold FS.file_at.
      by rewrite Es, Ed, (put_lookup_eq _ _ _ _ Ep).
    + by apply (Hkeep _ _ ltac:(done) Ep).
    + by apply (Hback _ _ _ Ep).
    + by apply (Hdir _ _ _ Ep).
  - intros; simplify_eq; left; eauto.
  - destruct (FS.put dst (File (next_ino (host w)) d) (root (host w)))
      as [r1|] eqn:Ep; [|intros; simplify_eq; left; eauto].
    intros ?; simplify_eq. right. split; [done|]. simpl.
    split_and!; [eauto|lia| | | |].
    + exists i, d, (next_ino (host w)). unfold FS.file_at.
      by rewrite Es, Ed, (put_lookup_eq _ _ _ _ Ep).
    + by apply (Hkeep _ _ ltac:(done) Ep).
    + by apply (Hback _ _ _ Ep).
    + by apply (Hdir _ _ _ Ep).
Qed.

(** Writing a regular file where no directory is changes no other
    regular file and no directory. *)
Lemma put_file_frame p i d n n' t :
  (∀ m, FS.lookup n p ≠ Some (Dir m)) →
  FS.put p (File i d) n = Some n' → t ≠ p →
  FS.file_at n' t = FS.file_at n t ∧ FS.is_dir n' t = FS.is_dir n t.
Proof.
  intros Hnd Hput Hne.
  destruct (decide (p `prefix_of` t)) as [[q ->]|Hp].
  - assert (q ≠ []) by (intros ->; by rewrite app_nil_r in Hne).
    unfold FS.file_at, FS.is_dir.
    rewrite (put_file_below _ _ _ _ _ q Hput) by done.
    rewrite lookup_app.
    destruct (FS.lookup n p) as [[|m]|] eqn:El; [by destruct q|by destruct (Hnd m)|done].
  - split; [by apply put_file_at with p (File i d)|by apply put_is_dir with p (File i d)].
Qed.

End FileOps.

(** ** [build_ext.run]: the two loops *)

Section BuildExtFacts.

Context (exec : list string → option AbsPath → Host → ExecResult * Host).
Context (LooseVersion_lt : string → string → Result bool).
Context (get_ext_fullpath : bool → string → AbsPath).
Context (build_rust_run : bool → Host → Result unit * Host).
Context (distutils_build_ext_run : Host → Result unit * Host).

Local Abbreviation plan_body :=
  (λ (ext : string) (copy_list : list (AbsPath * AbsPath)),
     let dylib_path := get_ext_fullpath false ext in
     let target_path := get_ext_fullpath true ext in
     let copy_list := copy_list ++ [(dylib_path, target_path)] in
     let! e := path_exists target_path in
     (if e : bool then path_unlink target_path else ret tt) >>
     mkdir_parents (removelast target_path) true >>
     ret copy_list).

Local Abbreviation planned exts :=
  ((λ e, (get_ext_fullpath false e, get_ext_fullpath true e)) <$> exts).

(** One round of the planning loop. *)
Lemma plan_body_outcome ext acc wa r wb :
  plan_body ext acc wa = (r, wb) →
  ∃ tr, trace wb = trace wa ++ tr ∧
    Forall plan_event tr.*1 ∧
    next_ino (host wb) = next_ino (host wa) ∧
    (∀ t x, FS.file_at (root (host wb)) t = Some x →
            FS.file_at (root (host wa)) t = Some x) ∧
    (∀ t x, FS.file_at (root (host wa)) t = Some x →
            FS.file_at (root (host wb)) t = Some x ∨ EvUnlink t ∈ tr.*1) ∧
    (∀ cl, r = Ok cl →
       cl = acc ++ [(get_ext_fullpath false ext, get_ext_fullpath true ext)] ∧
       FS.file_at (root (host wb)) (get_ext_fullpath true ext) = None).
Proof.
  cbv beta zeta. remember (get_ext_fullpath true ext) as t eqn:Ht. clear Ht.
  unfold bind at 1. unfold path_exists at 1. cbv beta iota.
  unfold bind at 1. unfold FS.exists_.
  (* the unlink, if any *)
  assert (∀ r1 w1,
    (if match FS.lookup (root (host wa)) t with Some _ => true | None => false end
     then path_unlink t else ret tt) wa = (r1, w1) →
    ∃ tr, trace w1 = trace wa ++ tr ∧ Forall plan_event tr.*1 ∧
      next_ino (host w1) = next_ino (host wa) ∧
      (∀ t' x, FS.file_at (root (host w1)) t' = Some x →
               FS.file_at (root (host wa)) t' = Some x) ∧
      (∀ t' x, FS.file_at (root (host wa)) t' = Some x →
               FS.file_at (root (host w1)) t' = Some x ∨ EvUnlink t' ∈ tr.*1) ∧
      (r1 = Ok tt → FS.file_at (root (host w1)) t = None)) as Hun.
  { intros r1 w1. destruct (FS.lookup (root (host wa)) t) as [x|] eqn:El.
    - intros H. apply path_unlink_outcome in H
        as [(e & -> & ->) | (-> & [n Htr] & Hino & _ & Hgone & Hother)].
      + exists []. rewrite app_nil_r. split_and!; try done; eauto.
      + eexists [_]. split; [exact Htr|].
        split; [constructor; [left; eauto|constructor]|]. split; [done|].
        split_and!.
        * intros t' x' Hx. destruct (decide (t' = t)) as [->|Hne].
          { unfold FS.file_at in Hx. by rewrite Hgone in Hx. }
          by rewrite <-(Hother _ Hne).
        * intros t' x' Hx. destruct (decide (t' = t)) as [->|Hne].
          { right. simpl. apply list_elem_of_here. }
          left. by rewrite (Hother _ Hne).
        * intros _. unfold FS.file_at. by rewrite Hgone.
    - unfold ret. intros ?; simplify_eq. exists []. rewrite app_nil_r.
      split_and!; try done; eauto. intros _. unfold FS.file_at. by rewrite El. }
  destruct ((if match FS.lookup (root (host wa)) t with
                   | Some _ => true
                   | None => false
                   end
             then path_unlink t else ret tt) wa) as [r1 w1].
  destruct (Hun _ _ eq_refl)
    as (tr1 & Htr1 & Hev1 & Hino1 & Hsh1 & Hkeep1 & Hgone1).
  clear Hun.
  destruct r1 as [[]|e].
  2: { intros ?; simplify_eq. exists tr1. split_and!; done. }
  unfold bind.
  destruct (mkdir_parents (removelast t) true w1) as [r2 w2] eqn:E2.
  apply mkdir_parents_outcome in E2
    as (_ & (tr2 & Htr2 & Hev2) & Hino2 & Hsame2 & _).
  assert (∃ tr, trace w2 = trace wa ++ tr ∧ Forall plan_event tr.*1 ∧
    next_ino (host w2) = next_ino (host wa) ∧
    (∀ t' x, FS.file_at (root (host w2)) t' = Some x →
             FS.file_at (root (host wa)) t' = Some x) ∧
    (∀ t' x, FS.file_at (root (host wa)) t' = Some x →
             FS.file_at (root (host w2)) t' = Some x ∨ EvUnlink t' ∈ tr.*1) ∧
    FS.file_at (root (host w2)) t = None) as (tr & Htr & Hev & Hino & Hsh & Hkeep & Hgone).
  { exists (tr1 ++ tr2). rewrite fmap_app.
    split_and!.
    - by rewrite Htr2, Htr1, <-app_assoc.
    - apply Forall_app. split; [done|].
      eapply Forall_impl; [exact Hev2|]. intros ev ->. right. left. eauto.
    - congruence.
    - intros t' x Hx. rewrite Hsame2 in Hx. by apply Hsh1.
    - intros t' x Hx. destruct (Hkeep1 _ _ Hx) as [H|H].
      + left. by rewrite Hsame2.
      + right. apply elem_of_app. by left.
    - rewrite Hsame2. by apply Hgone1. }
  destruct r2 as [[]|e]; unfold ret; intros ?; simplify_eq;
    exists tr; split_and!; try done.
  intros cl ?. by simplify_eq.
Qed.

(** The planning loop: it only unlinks and creates directories; a file
    that was there is still there or was unlinked; and when the loop
    completes no planned target is a regular file any more. *)
Lemma plan_loop_outcome exts acc wa r wb :
  for_fold exts acc plan_body wa = (r, wb) →
  ∃ tr, trace wb = trace wa ++ tr ∧
    Forall plan_event tr.*1 ∧
    next_ino (host wb) = next_ino (host wa) ∧
    (∀ t x, FS.file_at (root (host wb)) t = Some x →
            FS.file_at (root (host wa)) t = Some x) ∧
    (∀ t x, FS.file_at (root (host wa)) t = Some x →
            FS.file_at (root (host wb)) t = Some x ∨ EvUnlink t ∈ tr.*1) ∧
    (∀ cl, r = Ok cl →
       cl = acc ++ planned exts ∧
       ∀ e, e ∈ exts →
            FS.file_at (root (host wb)) (get_ext_fullpath true e) = None).
Proof.
  revert acc wa. induction exts as [|ext exts IH]; intros acc wa.
  - simpl. unfold ret. intros ?; simplify_eq. exists []. rewrite !app_nil_r.
    split_and!; try done; eauto. intros cl ?; simplify_eq. split; [done|].
    intros e He. by apply elem_of_nil in He.
  - cbn [for_fold]. unfold bind at 1.
    destruct (plan_body ext acc wa) as [r1 w1] eqn:E1.
    apply plan_body_outcome in E1 as (tr1 & Htr1 & Hev1 & Hino1 & Hsh1 & Hkeep1 & Hok1).
    destruct r1 as [acc1|e].
    2: { intros ?; simplify_eq. exists tr1. split_and!; done. }
    intros H. apply IH in H as (tr2 & Htr2 & Hev2 & Hino2 & Hsh2 & Hkeep2 & Hok2).
    destruct (Hok1 _ eq_refl) as [-> Hgone1].
    exists (tr1 ++ tr2). rewrite fmap_app. split_and!.
    + by rewrite Htr2, Htr1, <-app_assoc.
    + by apply Forall_app.
    + congruence.
    + intros t x Hx. by apply Hsh1, Hsh2.
    + intros t x Hx. destruct (Hkeep1 _ _ Hx) as [H|H].
      * destruct (Hkeep2 _ _ H) as [H'|H']; [by left|].
        right. apply elem_of_app. by right.
      * right. apply elem_of_app. by left.
    + intros cl Hcl. destruct (Hok2 _ Hcl) as [-> Hgone2].
      split; [by rewrite fmap_cons, <-app_assoc|].
      intros e He. apply elem_of_cons in He as [->|He]; [|by apply Hgone2].
      destruct (FS.file_at (root (host wb)) (get_ext_fullpath true ext))
        as [x|] eqn:Hx; [|done].
      apply Hsh2 in Hx. by rewrite Hgone1 in Hx.
Qed.

(** The copy loop: it only copies planned pairs, it never lowers the
    inode counter, and a path whose file, if any, had an inode from
    [n0] on still is so. *)
Lemma copy_loop_outcome (cl : list (AbsPath * AbsPath)) wa r wb :
  for_each cl (λ '(src, dst), shutil_copyfile src dst) wa = (r, wb) →
  ∃ tr, trace wb = trace wa ++ tr ∧
    Forall (λ ev, ∃ s d, ev = EvCopyfile s d ∧ (s, d) ∈ cl) tr.*1 ∧
    (next_ino (host wa) ≤ next_ino (host wb))%nat ∧
    (∀ n0 t, (n0 ≤ next_ino (host wa))%nat →
       (∀ x, FS.file_at (root (host wa)) t = Some x → (n0 ≤ x.1)%nat) →
       ∀ x, FS.file_at (root (host wb)) t = Some x → (n0 ≤ x.1)%nat) ∧
    (r = Ok tt →
       (∀ t, is_Some (FS.file_at (root (host wa)) t) →
             is_Some (FS.file_at (root (host wb)) t)) ∧
       ∀ s d, (s, d) ∈ cl →
         EvCopyfile s d ∈ tr.*1 ∧ is_Some (FS.file_at (root (host wb)) d)).
Proof.
  revert wa. induction cl as [|[src dst] cl IH]; intros wa.
  - simpl. unfold ret. intros ?; simplify_eq. exists []. rewrite app_nil_r.
    split_and!; try done; eauto. intros _. split; [done|].
    intros s d H. by apply elem_of_nil in H.
  - cbn [for_each]. unfold bind at 1.
    destruct (shutil_copyfile src dst wa) as [r1 w1] eqn:E1.
    apply shutil_copyfile_outcome in E1
      as [(e & -> & ->) | (-> & [n Htr1] & Hino1 & (i & d & j & Hs & Hd & Hj) & Hkeep1 & Hback1 & _)].
    { intros ?; simplify_eq. exists []. rewrite app_nil_r.
      split_and!; try done; eauto. }
    intros H. apply IH in H as (tr2 & Htr2 & Hev2 & Hino2 & Hbound2 & Hok2).
    exists ((EvCopyfile src dst, n) :: tr2). split_and!.
    + by rewrite Htr2, Htr1, <-app_assoc.
    + rewrite fmap_cons. constructor.
      * exists src, dst. split; [done|]. apply list_elem_of_here.
      * eapply Forall_impl; [exact Hev2|]. intros ev (s0 & d0 & -> & Hin).
        exists s0, d0. split; [done|]. by apply list_elem_of_further.
    + lia.
    + intros n0 t Hn0 Hwa. apply Hbound2; [lia|].
      intros x Hx. destruct (decide (t = dst)) as [->|Hne].
      * rewrite Hd in Hx. simplify_eq. simpl.
        destruct (FS.file_at (root (host wa)) dst) as [[j' d']|] eqn:Hold.
        -- subst j. apply (Hwa (j', d') eq_refl).
        -- lia.
      * apply Hwa. by apply Hback1.
    + intros ->. destruct (Hok2 eq_refl) as [Hsome2 Hall2]. split.
      * intros t [x Hx]. apply Hsome2.
        destruct (decide (t = dst)) as [->|Hne]; [by rewrite Hd|].
        rewrite (Hkeep1 _ Hne _ Hx). eauto.
      * intros s0 d0 Hin. apply elem_of_cons in Hin as [Heq|Hin].
        -- simplify_eq. split; [rewrite fmap_cons; apply list_elem_of_here|].
           apply Hsome2. by rewrite Hd.
        -- destruct (Hall2 _ _ Hin) as [Hev Hsome]. split; [|done].
           rewrite fmap_cons. by apply list_elem_of_further.
Qed.

End BuildExtFacts.

(** ** [_compile_parsers]: the paths *)

Section ParserPaths.

Lemma append_cons x (a b : string) : String x a +:+ b = String x (a +:+ b).
Proof. done. Qed.

Lemma slice_from_app a b :
  PyStr.slice_from (String.length a) (a +:+ b) = b.
Proof. induction a as [|c a IH]; [by destruct b|exact IH]. Qed.

Lemma length_append_1 a c :
  (String.length a + 1)%nat = String.length (a +:+ String c "").
Proof.
  induction a as [|c' a IH]; [done|]. rewrite append_cons. simpl.
  by rewrite <-IH.
Qed.

Lemma append_assoc (a b c : string) : (a +:+ b) +:+ c = a +:+ (b +:+ c).
Proof.
  induction a as [|x a IH]; [done|]. by rewrite !append_cons, IH.
Qed.

Lemma join_app sep l1 l2 :
  l1 ≠ [] → l2 ≠ [] →
  PyStr.join sep (l1 ++ l2) = PyStr.join sep l1 +:+ sep +:+ PyStr.join sep l2.
Proof.
  intros H1 H2. induction l1 as [|x l1 IH]; [done|].
  destruct l1 as [|y l1].
  - simpl. by destruct l2.
  - change (PyStr.join sep ((x :: y :: l1) ++ l2))
      with (x +:+ sep +:+ PyStr.join sep ((y :: l1) ++ l2)).
    rewrite IH by done.
    change (PyStr.join sep (x :: y :: l1))
      with (x +:+ sep +:+ PyStr.join sep (y :: l1)).
    by rewrite !append_assoc.
Qed.

(** The slice [str(spec_path)[len(str(ROOT_PATH)) + 1:]] is the path of
    the directory of the module relative to the root. *)
Lemma relative_slice (R rel : list string) :
  R ≠ [] → rel ≠ [] →
  PyStr.slice_from (String.length (PurePath.str (PurePath.of_abs R)) + 1)
    (PurePath.str (PurePath.of_abs (R ++ rel)))
  = PyStr.join "/" rel.
Proof.
  intros HR Hrel. unfold PurePath.str, PurePath.of_abs, abs_str. cbn [is_abs parts].
  rewrite (join_app "/" R rel HR Hrel).
  rewrite (length_append_1 _ "/"%char).
  rewrite <-(slice_from_app (("/" +:+ PyStr.join "/" R) +:+ "/")
               (PyStr.join "/" rel)) at 2.
  by rewrite !append_assoc.
Qed.

Lemma removelast_snoc {A} (l : list A) x : removelast (l ++ [x]) = l.
Proof. induction l as [|y l IH]; [done|]. simpl. rewrite IH. by destruct l. Qed.

End ParserPaths.

(** ** [_compile_parsers]: the rounds *)

Section ParserFacts.

Context (ROOT_PATH cwd : AbsPath).
Context (parsing_Spec : PyModule → AbsPath → Host → Result unit * Host).
Context (build_lib : PurePath) (inplace : bool).

Local Abbreviation B := (PurePath.locate cwd build_lib).
Local Abbreviation cache := (cache_path cwd build_lib).
Local Abbreviation source := (source_path ROOT_PATH).
Local Abbreviation step := (parser_step ROOT_PATH cwd parsing_Spec build_lib inplace).
Local Abbreviation steps := (parser_steps ROOT_PATH cwd parsing_Spec build_lib inplace).
Local Abbreviation good := (tables_in_place ROOT_PATH cwd build_lib inplace).
Local Abbreviation round := (round_steps ROOT_PATH cwd build_lib inplace).

Lemma locate_cache pn :
  PurePath.locate cwd
    (PurePath.truediv build_lib
       {| is_abs := false; parts := grammar_dir ++ [pn] |})
  = cache pn.
Proof.
  unfold cache_path, PurePath.locate, PurePath.truediv. cbn [is_abs parts].
  destruct (is_abs build_lib); cbn [is_abs parts]; by rewrite <-?app_assoc.
Qed.

Lemma last_component_ne (a b : AbsPath) x y :
  x ≠ y → a ++ grammar_dir ++ [x] ≠ b ++ grammar_dir ++ [y].
Proof.
  intros Hne Heq. rewrite !app_assoc in Heq.
  apply app_inj_tail in Heq as [_ ?]. done.
Qed.

Lemma cache_ne_source pn :
  B ≠ ROOT_PATH → cache pn ≠ source pn.
Proof.
  intros Hne Heq. unfold cache_path, source_path in Heq.
  by apply app_inv_tail in Heq.
Qed.

Lemma shutil_copy2_file src dst w :
  FS.is_dir (root (host w)) dst = false →
  shutil_copy2 src dst w = shutil_copyfile src dst w.
Proof. intros H. unfold shutil_copy2. by rewrite H. Qed.

Lemma spec_calls_app l1 l2 : spec_calls (l1 ++ l2) = spec_calls l1 ++ spec_calls l2.
Proof. apply omap_app. Qed.

Lemma table_steps_app l1 l2 :
  table_steps (l1 ++ l2) = table_steps l1 ++ table_steps l2.
Proof. apply omap_app. Qed.

Hypothesis Hcontract : writes_only_pickle parsing_Spec.

Lemma copyfile_frame src dst w w' :
  shutil_copyfile src dst w = (Ok tt, w') →
  ∀ t, t ≠ dst →
    FS.file_at (root (host w')) t = FS.file_at (root (host w)) t.
Proof.
  intros H t Hne.
  apply shutil_copyfile_outcome in H
    as [(e & ? & _) | (_ & _ & _ & _ & Hkeep & Hback & _)]; [done|].
  destruct (FS.file_at (root (host w)) t) as [x|] eqn:Hx.
  - by apply Hkeep.
  - destruct (FS.file_at (root (host w')) t) as [y|] eqn:Hy; [|done].
    apply Hback in Hy; [|done]. congruence.
Qed.

(** One round: the call of [parsing.Spec] for the module, then the copy
    in inplace mode; nothing else is touched. *)
Lemma parser_step_outcome m pn (N : list string) wa r wb :
  pn ∈ N →
  (inplace = true → B ≠ ROOT_PATH) →
  (inplace = true → ∀ pn', pn' ∈ N → ¬ source pn' `prefix_of` B ++ grammar_dir) →
  (inplace = true → ∀ pn', pn' ∈ N →
     FS.is_dir (root (host wa)) (source pn') = false) →
  step m pn wa = (r, wb) →
  ∃ tr, trace wb = trace wa ++ tr ∧
    spec_calls tr.*1 `prefix_of` [(__name__ m, cache pn)] ∧
    (inplace = false → Forall (λ ev, ∀ s d, ev ≠ EvCopyfile s d) tr.*1) ∧
    (∀ t, t ≠ cache pn → t ≠ source pn →
       FS.file_at (root (host wb)) t = FS.file_at (root (host wa)) t) ∧
    (inplace = true → ∀ pn', pn' ∈ N →
       FS.is_dir (root (host wb)) (source pn') = false) ∧
    (r = Ok tt →
       spec_calls tr.*1 = [(__name__ m, cache pn)] ∧ good (root (host wb)) pn) ∧
    table_steps tr.*1 `prefix_of` round (__name__ m) pn ∧
    (r = Ok tt → table_steps tr.*1 = round (__name__ m) pn).
Proof.
  intros HpnN HB Hsrc Hdir. unfold parser_step. unfold bind at 1.
  destruct (mkdir_parents (B ++ grammar_dir) true wa) as [r1 w1] eqn:E1.
  apply mkdir_parents_outcome in E1
    as (_ & (tr1 & Htr1 & Hev1) & _ & Hfile1 & Hlook1).
  assert (spec_calls tr1.*1 = []) as Hsc1.
  { clear -Hev1. induction tr1 as [|[ev n] tr1 IH]; [done|].
    rewrite fmap_cons in Hev1. apply Forall_cons in Hev1 as [Hev Hev1].
    simpl in Hev. subst ev. simpl. by apply IH. }
  assert (table_steps tr1.*1 = []) as Hts1.
  { clear -Hev1. induction tr1 as [|[ev n] tr1 IH]; [done|].
    rewrite fmap_cons in Hev1. apply Forall_cons in Hev1 as [Hev Hev1].
    simpl in Hev. subst ev. simpl. by apply IH. }
  assert (Forall (λ ev, ∀ s d, ev ≠ EvCopyfile s d) tr1.*1) as Hnc1.
  { eapply Forall_impl; [exact Hev1|]. by intros ev -> s d. }
  assert (inplace = true → ∀ pn', pn' ∈ N →
            FS.is_dir (root (host w1)) (source pn') = false) as Hdir1.
  { intros Hi pn' Hpn'. unfold FS.is_dir. rewrite Hlook1 by (by apply Hsrc).
    by apply Hdir. }
  destruct r1 as [[]|e].
  2: { intros ?; simplify_eq. exists tr1. rewrite Hsc1, Hts1.
       split_and!; [done|apply prefix_nil|done|by intros; rewrite Hfile1|done|done
                   |apply prefix_nil|done]. }
  unfold bind at 1. unfold call_parsing_Spec. rewrite locate_cache.
  destruct (Hcontract m (cache pn) (host w1)) as [Hw Hfr].
  destruct (parsing_Spec m (cache pn) (host w1)) as [r2 h2]. simpl in Hw, Hfr.
  set (w2 := emit (EvParsingSpec (__name__ m) (cache pn)) h2 w1).
  set (tr2 := tr1 ++ [(EvParsingSpec (__name__ m) (cache pn), root h2)]).
  assert (trace w2 = trace wa ++ tr2) as Htr2
    by (subst w2 tr2; simpl; by rewrite Htr1, <-app_assoc).
  assert (spec_calls tr2.*1 = [(__name__ m, cache pn)]) as Hsc2
    by (subst tr2; by rewrite fmap_app, spec_calls_app, Hsc1).
  assert (table_steps tr2.*1 = [EvParsingSpec (__name__ m) (cache pn)]) as Hts2
    by (subst tr2; by rewrite fmap_app, table_steps_app, Hts1).
  assert (Forall (λ ev, ∀ s d, ev ≠ EvCopyfile s d) tr2.*1) as Hnc2.
  { subst tr2. rewrite fmap_app. apply Forall_app. split; [done|].
    by repeat constructor. }
  assert (∀ t, t ≠ cache pn →
            FS.file_at (root (host w2)) t = FS.file_at (root (host wa)) t) as Hfile2.
  { intros t Ht. simpl. destruct (Hfr t Ht) as [-> _]. apply Hfile1. }
  assert (inplace = true → ∀ pn', pn' ∈ N →
            FS.is_dir (root (host w2)) (source pn') = false) as Hdir2.
  { intros Hi pn' Hpn'. simpl. destruct (Hfr (source pn')) as [_ ->].
    - destruct (decide (pn' = pn)) as [->|Hne].
      + intros Heq. by apply (cache_ne_source pn (HB Hi)).
      + by apply last_component_ne.
    - by apply Hdir1. }
  destruct r2 as [[]|e].
  2: { intros ?; simplify_eq. exists tr2. rewrite Hsc2, Hts2.
       split_and!; [done|done|done|by intros; apply Hfile2|done|done
                   |apply prefix_cons, prefix_nil|done]. }
  destruct (Hw eq_refl) as [[i d] Hcache].
  destruct inplace eqn:Hin.
  2: { unfold ret. intros ?; simplify_eq. exists tr2. rewrite Hsc2, Hts2.
       split_and!; [done|done|done|by intros; apply Hfile2|done| |done|done].
       intros _. split; [done|]. exists i, d. split; [done|done]. }
  rewrite shutil_copy2_file by (by apply Hdir2).
  destruct (shutil_copyfile (cache pn) (source pn) w2) as [r3 w3] eqn:E3.
  intros ?; simplify_eq.
  pose proof E3 as E3'.
  apply shutil_copyfile_outcome in E3'
    as [(e & -> & ->) | (-> & [n Htr3] & _ & (i' & d' & j & Hs & Hd & _) & Hkeep & _ & Hdir3)].
  { exists tr2. rewrite Hsc2, Hts2.
    split_and!; [done|done|done|by intros; apply Hfile2|done|done
                |apply prefix_cons, prefix_nil|done]. }
  exists (tr2 ++ [(EvCopyfile (cache pn) (source pn), n)]).
  rewrite fmap_app, spec_calls_app, table_steps_app, Hsc2, Hts2. simpl.
  split_and!; [| | | | | |done|done].
  - by rewrite Htr3, Htr2, <-app_assoc.
  - done.
  - done.
  - intros t Hc Hs'. rewrite (copyfile_frame _ _ _ _ E3 t Hs'). by apply Hfile2.
  - intros _ pn' Hpn'.
    destruct (FS.is_dir (root (host wb)) (source pn')) eqn:Hd'; [|done].
    apply Hdir3 in Hd'. by rewrite (Hdir2 eq_refl pn' Hpn') in Hd'.
  - intros _. split; [done|]. simpl in Hcache, Hs. rewrite Hcache in Hs. simplify_eq.
    exists i', d'. split.
    + rewrite (copyfile_frame _ _ _ _ E3) by (by apply cache_ne_source, HB).
      done.
    + intros _. eauto.
Qed.

Lemma prefix_one_l {A} (x : A) l k : l `prefix_of` [x] → l `prefix_of` x :: k.
Proof.
  intros [k' Hk]. exists (k' ++ k).
  change (x :: k) with ([x] ++ k). by rewrite Hk, <-app_assoc.
Qed.

(** The rounds, one per module: the calls of [parsing.Spec] are a
    prefix of the expected ones, and when all rounds complete every
    table is in place. *)
Lemma parser_steps_outcome (l : list (PyModule * string)) (N : list string) wa r wb :
  NoDup l.*2 →
  (∀ pn, pn ∈ l.*2 → pn ∈ N) →
  (inplace = true → B ≠ ROOT_PATH) →
  (inplace = true → ∀ pn', pn' ∈ N → ¬ source pn' `prefix_of` B ++ grammar_dir) →
  (inplace = true → ∀ pn', pn' ∈ N →
     FS.is_dir (root (host wa)) (source pn') = false) →
  steps l wa = (r, wb) →
  ∃ tr, trace wb = trace wa ++ tr ∧
    spec_calls tr.*1 `prefix_of` ((λ x, (__name__ x.1, cache x.2)) <$> l) ∧
    (inplace = false → Forall (λ ev, ∀ s d, ev ≠ EvCopyfile s d) tr.*1) ∧
    (∀ pn, pn ∉ l.*2 → good (root (host wa)) pn → good (root (host wb)) pn) ∧
    (r = Ok tt →
       spec_calls tr.*1 = (λ x, (__name__ x.1, cache x.2)) <$> l ∧
       ∀ pn, pn ∈ l.*2 → good (root (host wb)) pn) ∧
    table_steps tr.*1 `prefix_of` (l ≫= λ x, round (__name__ x.1) x.2) ∧
    (r = Ok tt → table_steps tr.*1 = l ≫= λ x, round (__name__ x.1) x.2).
Proof.
  revert wa. induction l as [|[m pn] l IH]; intros wa Hnd HN HB Hsrc Hdir.
  - simpl. unfold ret. intros ?; simplify_eq. exists []. rewrite app_nil_r.
    split_and!; try done. intros _. split; [done|].
    intros pn Hpn. by apply elem_of_nil in Hpn.
  - cbn [parser_steps]. unfold bind at 1.
    destruct (step m pn wa) as [r1 w1] eqn:E1.
    rewrite fmap_cons in Hnd. apply NoDup_cons in Hnd as [Hfresh Hnd].
    apply (parser_step_outcome m pn N) in E1
      as (tr1 & Htr1 & Hpre1 & Hnc1 & Hfr1 & Hdir1 & Hok1 & Htp1 & Hts1);
      [|apply HN; rewrite fmap_cons; apply list_elem_of_here|done..].
    assert (∀ pn', pn' ≠ pn →
              good (root (host wa)) pn' → good (root (host w1)) pn') as Hkeep1.
    { intros pn' Hne (i & d & Hc & Hs). exists i, d. split.
      - rewrite Hfr1; [done|by apply last_component_ne..].
      - intros Hi. destruct (Hs Hi) as [j Hj]. exists j.
        rewrite Hfr1; [done|by apply last_component_ne..]. }
    destruct r1 as [[]|e].
    2: { intros ?; simplify_eq. exists tr1. split_and!; [done| |done| |done| |done].
         - rewrite fmap_cons. by apply prefix_one_l.
         - intros pn' Hpn'. apply Hkeep1. intros ->. apply Hpn'.
           rewrite fmap_cons. apply list_elem_of_here.
         - rewrite bind_cons. by apply prefix_app_r. }
    destruct (Hok1 eq_refl) as [Hsc1 Hgood1].
    intros H. apply IH in H
      as (tr2 & Htr2 & Hpre2 & Hnc2 & Hkeep2 & Hok2 & Htp2 & Hts2);
      [|done|by intros; apply HN; rewrite fmap_cons; apply list_elem_of_further|done..].
    exists (tr1 ++ tr2).
    rewrite fmap_app, spec_calls_app, table_steps_app, Hsc1, (Hts1 eq_refl),
      !fmap_cons, bind_cons.
    split_and!; [| | | | |by apply prefix_app|by intros Hr; rewrite (Hts2 Hr)].
    + by rewrite Htr2, Htr1, <-app_assoc.
    + simpl. by apply prefix_cons.
    + intros Hi. apply Forall_app. split; [by apply Hnc1|by apply Hnc2].
    + intros pn' Hpn' Hg. apply not_elem_of_cons in Hpn' as [Hne Hpn'].
      by apply Hkeep2, Hkeep1.
    + intros Hr. destruct (Hok2 Hr) as [Hsc2 Hgood2]. split; [by rewrite Hsc2|].
      intros pn' Hpn'. apply elem_of_cons in Hpn' as [->|Hpn'].
      * by apply Hkeep2.
      * by apply Hgood2.
Qed.

(** The body of the loop of [_compile_parsers], for a module of the
    source tree: the paths it computes. *)
Lemma parser_body_eq m x pn :
  ROOT_PATH ≠ [] →
  PurePath.of_string (__file__ m) = PurePath.of_abs (ROOT_PATH ++ grammar_dir ++ [x]) →
  (PyStr.rpartition "." (__name__ m)).2 +:+ ".pickle" = pn →
  PurePath.of_string pn = {| is_abs := false; parts := [pn] |} →
  (let spec_path := PurePath.parent (PurePath.of_string (__file__ m)) in
   let subpath :=
     PurePath.of_string
       (PyStr.slice_from
          (String.length (PurePath.str (PurePath.of_abs ROOT_PATH)) + 1)
          (PurePath.str spec_path)) in
   let pickle_name := (PyStr.rpartition "." (__name__ m)).2 +:+ ".pickle" in
   let pickle_path := PurePath.child subpath pickle_name in
   let cache := PurePath.truediv build_lib pickle_path in
   mkdir_parents (PurePath.locate cwd (PurePath.parent cache)) true >>
   call_parsing_Spec cwd parsing_Spec m cache >>
   if inplace then
     shutil_copy2 (PurePath.locate cwd cache)
       (PurePath.locate cwd
          (PurePath.truediv (PurePath.of_abs ROOT_PATH) pickle_path))
   else ret tt)
  = step m pn.
Proof.
  intros HR Hfile Hname Hpn. cbv zeta. rewrite Hfile, Hname.
  assert (PurePath.parent (PurePath.of_abs (ROOT_PATH ++ grammar_dir ++ [x]))
          = PurePath.of_abs (ROOT_PATH ++ grammar_dir)) as ->.
  { unfold PurePath.parent, PurePath.of_abs. cbn [is_abs parts].
    by rewrite app_assoc, removelast_snoc. }
  rewrite relative_slice by done.
  assert (PurePath.child (PurePath.of_string (PyStr.join "/" grammar_dir)) pn
          = {| is_abs := false; parts := grammar_dir ++ [pn] |}) as ->.
  { unfold PurePath.child. rewrite Hpn.
    by assert (PurePath.of_string (PyStr.join "/" grammar_dir)
               = {| is_abs := false; parts := grammar_dir |}) as ->
      by (vm_compute; reflexivity). }
  unfold parser_step. rewrite locate_cache.
  assert (PurePath.locate cwd
            (PurePath.parent
               (PurePath.truediv build_lib
                  {| is_abs := false; parts := grammar_dir ++ [pn] |}))
          = B ++ grammar_dir) as ->.
  { unfold PurePath.locate, PurePath.parent, PurePath.truediv. cbn [is_abs parts].
    rewrite app_assoc, removelast_snoc.
    destruct (is_abs build_lib); by rewrite <-?app_assoc. }
  done.
Qed.

Lemma for_each_steps (l : list (PyModule * string)) (body : PyModule → M unit) :
  (∀ m pn, (m, pn) ∈ l → body m = step m pn) →
  for_each l.*1 body = steps l.
Proof.
  induction l as [|[m pn] l IH]; intros H; [done|].
  rewrite fmap_cons. cbn [for_each parser_steps fst].
  rewrite (H m pn) by apply list_elem_of_here.
  rewrite IH; [done|]. intros m' pn' Hin. apply H. by apply list_elem_of_further.
Qed.

Lemma cache_path_inj x y : cache x = cache y → x = y.
Proof.
  intros Heq. destruct (decide (x = y)) as [|Hne]; [done|].
  by apply (last_component_ne B B) in Hne.
Qed.

End ParserFacts.

Lemma demo_parsing_Spec_contract : writes_only_pickle demo_parsing_Spec.
Proof.
  intros m f h. unfold demo_parsing_Spec.
  destruct (FS.lookup (root h) f) as [[i d|dir]|] eqn:El.
  2: { split; [done|]. by intros t _. }
  all: destruct (FS.put f _ (root h)) as [r'|] eqn:E;
    [|split; [done|by intros t _]].
  all: simpl; split;
    [intros _; unfold FS.file_at; rewrite (put_lookup_eq _ _ _ _ E); eauto|].
  all: intros t Ht; apply (put_file_frame _ _ _ _ _ _ ltac:(by rewrite El) E Ht).
Qed.

(** * The claims about [_compile_postgres] *)

Section CompilePostgresClaims.

Context (exec : list string → option AbsPath → Host → ExecResult * Host).
Context (ROOT_PATH : AbsPath) (system : string) (cpu_count : option Z).

(** C1. Staleness is decided by stamp equality alone.  The stamp of
    the last build is [None] when there is no stamp file and the text of
    the file otherwise, reading it changes nothing, and the target is
    outdated exactly when that stamp is not the source stamp: outdated
    without a stamp file, outdated when the file differs from the source
    stamp, current when they are equal.  With [force_build] off, a
    current target makes [_compile_postgres] return at once. *)
Theorem C1_staleness_is_stamp_inequality w source_stamp w1 build_base
    fresh_build run_configure build_contrib :
  get_source_stamp exec w = (Ok source_stamp, w1) →
  let stamp := stamp_path build_base in
  (FS.lookup (root (host w1)) stamp = None →
     get_build_stamp stamp w1 = (Ok None, w1) ∧
     is_outdated source_stamp None = true) ∧
  (∀ i d, FS.lookup (root (host w1)) stamp = Some (File i d) →
     get_build_stamp stamp w1 = (Ok (Some d), w1) ∧
     (d ≠ source_stamp → is_outdated source_stamp (Some d) = true) ∧
     (d = source_stamp →
        is_outdated source_stamp (Some d) = false ∧
        _compile_postgres exec ROOT_PATH system cpu_count build_base
          false fresh_build run_configure build_contrib w = (Ok tt, w1))).
Proof.
  intros Hsrc stamp. split.
  - intros Hl. rewrite get_build_stamp_eq, Hl. done.
  - intros i d Hl. rewrite get_build_stamp_eq, Hl. split; [done|].
    unfold is_outdated. split.
    + intros Hne. rewrite bool_decide_eq_false_2; [done|]. congruence.
    + intros ->. rewrite bool_decide_eq_true_2 by done. split; [done|].
      eapply compile_postgres_current; [exact Hsrc| |].
      * rewrite get_build_stamp_eq. fold stamp. by rewrite Hl.
      * unfold is_outdated. by rewrite bool_decide_eq_true_2.
Qed.

(** C9. Once the source stamp is known, a target that needs no rebuild
    (its stamp file holds the source stamp, and [force_build] is off)
    makes [_compile_postgres] return at once, on any system: the world
    is the one the two status queries left, and they are the only
    entries of the trace.  When a rebuild is needed and the system is
    neither Linux nor Darwin, the function raises [NotImplementedError]
    with the name of the system, in that same world: no command of the
    toolchain has run and no file has been touched. *)
Theorem C9_noop_or_unsupported w source_stamp w1 build_stamp build_base
    force_build fresh_build run_configure build_contrib :
  get_source_stamp exec w = (Ok source_stamp, w1) →
  get_build_stamp (stamp_path build_base) w1 = (Ok build_stamp, w1) →
  let run :=
    _compile_postgres exec ROOT_PATH system cpu_count build_base
      force_build fresh_build run_configure build_contrib w in
  (∃ o1 o2,
     new_events w w1 =
       [EvRun git_submodule_status None (Exited 0 o1);
        EvRun git_submodule_status None (Exited 0 o2)] ∧
     host w1 =
       (exec git_submodule_status None
          (exec git_submodule_status None (host w)).2).2) ∧
  (build_stamp = Some source_stamp → force_build = false →
     run = (Ok tt, w1)) ∧
  (is_outdated source_stamp build_stamp || force_build = true →
   system ≠ "Linux" → system ≠ "Darwin" →
     run = (Raise (NotImplementedError ("unsupported system: " +:+ system)), w1)).
Proof.
  intros Hsrc Hbs run. split_and!.
  - apply get_source_stamp_outcome in Hsrc as (tr & Htr & _ & _ & _ & Hok).
    destruct (Hok _ eq_refl) as (_ & o1 & o2 & Hev & Hhost).
    exists o1, o2. by rewrite (new_events_app _ _ _ Htr).
  - intros -> ->. apply (compile_postgres_current _ _ _ _ _ _ _ _ _ _ _ _ _ Hsrc Hbs).
    unfold is_outdated. by rewrite bool_decide_eq_true_2.
  - intros Hreb H1 H2.
    by apply (compile_postgres_unsupported _ _ _ _ _ _ _ _ _ _ _ _ _ Hsrc Hbs).
Qed.

(** C3. The toolchain is fail-fast.  Whatever the run, the commands it
    started are, in order, the two status queries followed by a prefix
    of the plan of the rebuild (configure if due, make, make in contrib
    if due, make install, make install in contrib if due); and a command
    that exits with a non-zero status is the last command that ran,
    the run ending in the [CalledProcessError] that carries this status
    and this command. *)
Theorem C3_toolchain_is_fail_fast w build_base
    force_build fresh_build run_configure build_contrib :
  let run :=
    _compile_postgres exec ROOT_PATH system cpu_count build_base
      force_build fresh_build run_configure build_contrib w in
  let ran := runs (new_events w run.2) in
  (∃ j outdated,
     ran.*1 `prefix_of`
       (git_submodule_status, None) :: (git_submodule_status, None) ::
       toolchain_plan ROOT_PATH build_base j outdated
         fresh_build run_configure build_contrib) ∧
  (∀ i c rc out,
     ran !! i = Some (c, Exited rc out) → rc ≠ 0 →
     run.1 = Raise (CalledProcessError rc c.1) ∧ length ran = S i).
Proof.
  intros run ran. subst ran.
  destruct run as [r w'] eqn:Hrun. subst run. simpl.
  apply compile_postgres_runs in Hrun as (tr & j & od & Htr & _ & Hpre & Hff).
  rewrite (new_events_app _ _ _ Htr). split; [eauto|exact Hff].
Qed.

(** C7. A fresh build implies the configure step.  In a rebuild
    (outdated target or [force_build]) on Linux or Darwin, once the
    build directory has been prepared, the configure step runs if and
    only if [run_configure] or [fresh_build] is set or the target is
    outdated, and then it is the first command of the toolchain; so it
    runs in every fresh rebuild, whatever [run_configure]. *)
Theorem C7_configure_when_due w source_stamp w1 build_stamp w2 build_base
    force_build fresh_build run_configure build_contrib :
  get_source_stamp exec w = (Ok source_stamp, w1) →
  get_build_stamp (stamp_path build_base) w1 = (Ok build_stamp, w1) →
  is_outdated source_stamp build_stamp || force_build = true →
  system = "Linux" ∨ system = "Darwin" →
  make_build_dir fresh_build (postgres_build build_base) w1 = (Ok tt, w2) →
  let run :=
    _compile_postgres exec ROOT_PATH system cpu_count build_base
      force_build fresh_build run_configure build_contrib w in
  let ran := runs (new_events w2 run.2) in
  ((∃ res, (configure_cmd ROOT_PATH build_base, res) ∈ ran) ↔
   run_configure || fresh_build || is_outdated source_stamp build_stamp = true) ∧
  (run_configure || fresh_build || is_outdated source_stamp build_stamp = true →
   ∃ res, head ran = Some (configure_cmd ROOT_PATH build_base, res)) ∧
  (fresh_build = true →
   ∃ res, head ran = Some (configure_cmd ROOT_PATH build_base, res)).
Proof.
  intros Hsrc Hbs Hreb Hsys Hmk run ran. subst ran.
  destruct run as [r w'] eqn:Hrun. subst run. simpl.
  destruct (rebuild_outcome _ _ _ _ _ _ _ _ _ _ _ _ _ _ _ Hsrc Hbs Hreb Hsys Hrun)
    as (rp & w2' & Hmk' & Hcase).
  rewrite Hmk in Hmk'. simplify_eq.
  destruct Hcase as [(e & ? & _) | (_ & rt & w3 & Htc & Hcase)]; [done|].
  apply toolchain_phase_outcome in Htc
    as (trt & j & Htrt & _ & _ & _ & _ & _ & Hhead & Hnot).
  assert (runs (new_events w2' w') = runs trt.*1) as ->.
  { destruct Hcase as [(e & -> & -> & ->) | (-> & Hwr)].
    - by rewrite (new_events_app _ _ _ Htrt).
    - apply write_text_no_run in Hwr as (trw & Htrw & Hrw).
      rewrite (new_events_app w2' w' (trt ++ trw))
        by (by rewrite Htrw, Htrt, <-app_assoc).
      by rewrite fmap_app, runs_app, Hrw, app_nil_r. }
  split_and!.
  - split.
    + intros [res Hin].
      destruct (run_configure || fresh_build || is_outdated source_stamp build_stamp)
        eqn:Hc; [done|].
      destruct (Hnot eq_refl). apply list_elem_of_fmap. by exists (configure_cmd ROOT_PATH build_base, res).
    + intros Hc. destruct (Hhead Hc) as [res Hres]. exists res.
      destruct (runs trt.*1) as [|x l]; simplify_eq/=. apply list_elem_of_here.
  - exact Hhead.
  - intros ->. apply Hhead. by rewrite orb_true_r.
Qed.

(** C8. The parallel make steps get [max(os.cpu_count() - 1, 1)]
    workers.  With [n] the CPU count of the host, in any run every
    [make] command that carries [-j] carries after it the decimal text
    of [max (n - 1) 1], which is [n - 1] when [n > 1] and [1]
    otherwise, so at least one; and a rebuild that completes has run
    [make MAKELEVEL=0 -j] with this count. *)
Theorem C8_make_jobs n w build_base
    force_build fresh_build run_configure build_contrib :
  cpu_count = Some n →
  let run :=
    _compile_postgres exec ROOT_PATH system cpu_count build_base
      force_build fresh_build run_configure build_contrib w in
  let workers := if 1 <? n then n - 1 else 1 in
  1 ≤ workers ∧
  (∀ argv cwd res,
     EvRun argv cwd res ∈ new_events w run.2 →
     head argv = Some "make" → "-j" ∈ argv →
     arg_after "-j" argv = Some (PyStr.of_Z workers)) ∧
  (∀ source_stamp w1 build_stamp,
     get_source_stamp exec w = (Ok source_stamp, w1) →
     get_build_stamp (stamp_path build_base) w1 = (Ok build_stamp, w1) →
     is_outdated source_stamp build_stamp || force_build = true →
     run.1 = Ok tt →
     ∃ out, EvRun ["make"; "MAKELEVEL=0"; "-j"; PyStr.of_Z workers]
              (Some (build_dir build_base)) (Exited 0 out)
            ∈ new_events w1 run.2).
Proof.
  intros Hcpu run workers.
  assert (workers = Z.max (n - 1) 1) as Hw.
  { subst workers. destruct (1 <? n) eqn:E.
    - apply Z.ltb_lt in E. lia.
    - apply Z.ltb_ge in E. lia. }
  split; [lia|].
  destruct run as [r w'] eqn:Hrun. subst run. simpl. rewrite Hw. split.
  - pose proof (compile_postgres_runs _ _ _ _ _ _ _ _ _ _ _ _ Hrun)
      as (tr & j & od & Htr & Hj & Hpre & _).
    rewrite (Hj _ Hcpu) in Hpre. rewrite (new_events_app _ _ _ Htr).
    intros argv cwd res Hin Hhd Hj'.
    apply elem_of_runs in Hin.
    assert ((argv, cwd) ∈ (runs tr.*1).*1) as Hin'
      by (apply list_elem_of_fmap; by exists ((argv, cwd), res)).
    destruct Hpre as [k Hk].
    assert ((argv, cwd) ∈
      (git_submodule_status, None) :: (git_submodule_status, None) ::
      toolchain_plan ROOT_PATH build_base (PyStr.of_Z (Z.max (n - 1) 1)) od
        fresh_build run_configure build_contrib) as Hin''
      by (rewrite Hk; apply elem_of_app; by left).
    clear -Hin'' Hhd Hj'.
    unfold toolchain_plan, configure_steps, make_steps, configure_cmd, make_cmd,
      make_contrib_cmd, install_cmd, install_contrib_cmd, abs_str,
      git_submodule_status in Hin''.
    destruct (run_configure || fresh_build || od),
      (build_contrib || fresh_build || od); simpl in Hin'';
      repeat (apply elem_of_cons in Hin'' as [Hin''|Hin'']; [simplify_eq|]);
      try (by apply elem_of_nil in Hin'');
      try done;
      try (simpl in Hhd; by simplify_eq);
      try (by repeat (apply elem_of_cons in Hj' as [Hj'|Hj']; [done|]);
           apply elem_of_nil in Hj').
  - intros src w1 bs Hsrc Hbs Hreb ->.
    destruct (decide (system = "Linux" ∨ system = "Darwin")) as [Hsys|Hsys].
    2: { rewrite (compile_postgres_unsupported _ _ _ _ _ _ _ _ _ _ _ _ _ Hsrc Hbs Hreb)
           in Hrun by (intros ?; apply Hsys; eauto). done. }
    destruct (rebuild_outcome _ _ _ _ _ _ _ _ _ _ _ _ _ _ _ Hsrc Hbs Hreb Hsys Hrun)
      as (rp & w2 & Hmk & Hcase).
    apply make_build_dir_no_run in Hmk as (trp & Htrp & _).
    destruct Hcase as [(e & _ & ? & _) | (_ & rt & w3 & Htc & Hcase)]; [done|].
    apply toolchain_phase_outcome in Htc
      as (trt & j & Htrt & Hrun_t & Hj & _ & _ & Hok & _).
    destruct Hcase as [(e & _ & ? & _) | (-> & Hwr)]; [done|].
    apply write_text_no_run in Hwr as (trw & Htrw & _).
    destruct (Hok eq_refl) as (Hplan & Hall & _).
    rewrite (Hj _ Hcpu) in Hplan.
    rewrite (new_events_app w1 w' (trp ++ trt ++ trw))
      by (by rewrite Htrw, Htrt, Htrp, <-!app_assoc).
    assert (make_cmd build_base (PyStr.of_Z (Z.max (n - 1) 1)) ∈ (runs trt.*1).*1)
      as Hin.
    { rewrite Hplan. unfold toolchain_plan, make_steps.
      apply elem_of_app. right. apply list_elem_of_here. }
    apply list_elem_of_fmap in Hin as ([c res] & Hc & Hin). simpl in Hc. subst c.
    unfold all_exited_0 in Hall. rewrite Forall_forall in Hall.
    destruct (Hall _ Hin) as [out Hout]. simpl in Hout. subst res.
    exists out. rewrite !fmap_app. apply elem_of_app. right.
    apply elem_of_app. left. by apply elem_of_runs.
Qed.

(** C10. A fresh rebuild starts from nothing.  In a rebuild on Linux or
    Darwin with [fresh_build] set, when the build output directory
    exists its removal is the first thing the function does after the
    stamps are read, before any command of the toolchain, and the stamp
    file goes with it.  Provided the external commands create no stamp
    file themselves, a fresh rebuild that does not complete leaves no
    stamp file: the next invocation reads no stamp, finds the target
    outdated whatever the source stamp, and goes into a rebuild. *)
Theorem C10_fresh_build_drops_stamp w source_stamp w1 build_stamp build_base
    force_build run_configure build_contrib :
  get_source_stamp exec w = (Ok source_stamp, w1) →
  get_build_stamp (stamp_path build_base) w1 = (Ok build_stamp, w1) →
  is_outdated source_stamp build_stamp || force_build = true →
  system = "Linux" ∨ system = "Darwin" →
  exec_keeps_absent exec (stamp_path build_base) →
  let run :=
    _compile_postgres exec ROOT_PATH system cpu_count build_base
      force_build true run_configure build_contrib w in
  (FS.is_dir (root (host w1)) (postgres_build build_base) = true →
   ∃ n rest,
     new_trace w1 run.2 = (EvRmtree (postgres_build build_base), n) :: rest ∧
     FS.lookup n (postgres_build build_base) = None ∧
     FS.lookup n (stamp_path build_base) = None) ∧
  (run.1 ≠ Ok tt →
   FS.lookup (root (host run.2)) (stamp_path build_base) = None ∧
   get_build_stamp (stamp_path build_base) run.2 = (Ok None, run.2) ∧
   ∀ s w1' force_build' fresh_build' run_configure' build_contrib',
     get_source_stamp exec run.2 = (Ok s, w1') →
     is_outdated s None = true ∧
     _compile_postgres exec ROOT_PATH system cpu_count build_base
       force_build' fresh_build' run_configure' build_contrib' run.2 =
     (make_build_dir fresh_build' (postgres_build build_base) >>
      toolchain_phase exec ROOT_PATH cpu_count build_base
        true fresh_build' run_configure' build_contrib' >>
      write_text (stamp_path build_base) s) w1').
Proof.
  intros Hsrc Hbs Hreb Hsys Hexec run.
  destruct run as [r w'] eqn:Hrun. subst run. simpl.
  destruct (rebuild_outcome _ _ _ _ _ _ _ _ _ _ _ _ _ _ _ Hsrc Hbs Hreb Hsys Hrun)
    as (rp & w2 & Hmk & Hcase).
  apply make_build_dir_outcome in Hmk as (trp & Htrp & _ & Hst2 & Hrm).
  set (P := λ h : Host, FS.lookup (root h) (stamp_path build_base) = None).
  assert (∀ argv cwd h, P h → P (exec argv cwd h).2) as HP
    by (intros argv cwd h; apply Hexec).
  (* where the run stopped, and what it appended after the preparation *)
  assert (∃ tr, trace w' = trace w2 ++ tr ∧ (r ≠ Ok tt → P (host w')))
    as (tr & Htr & Hfin).
  { destruct Hcase as [(e & -> & -> & ->) | (-> & rt & w3 & Htc & Hcase)].
    { exists []. by rewrite app_nil_r. }
    pose proof (toolchain_phase_invariant _ _ _ P _ _ _ _ _ _ _ _ HP Hst2 Htc) as H3.
    apply toolchain_phase_outcome in Htc as (trt & _ & Htrt & _).
    destruct Hcase as [(e & -> & -> & ->) | (-> & Hwr)]; [by exists trt|].
    apply write_text_outcome in Hwr
      as [(e & -> & ->) | (-> & i & n1 & Htrw & _)]; [by exists trt|].
    eexists. split; [by rewrite Htrw, Htrt, <-app_assoc|done]. }
  split.
  - intros Hdir. destruct (Hrm eq_refl Hdir) as (n & rest & -> & Hn).
    exists n, (rest ++ tr). split_and!; [|done|].
    + rewrite (new_trace_app w1 w' (((EvRmtree (postgres_build build_base), n)
        :: rest) ++ tr)); [done|]. by rewrite Htr, Htrp, <-app_assoc.
    + unfold stamp_path. fold (postgres_build build_base).
      by rewrite lookup_app, Hn.
  - intros Hr. specialize (Hfin Hr). split; [exact Hfin|].
    split; [by rewrite get_build_stamp_eq, Hfin|].
    intros s w1' f' fr' rc' bc' Hsrc'. split; [done|].
    pose proof (get_source_stamp_outcome _ _ _ _ Hsrc')
      as (tr' & _ & _ & _ & _ & Hok).
    destruct (Hok _ eq_refl) as (_ & o1 & o2 & _ & Hhost).
    assert (P (host w1')) as HP1 by (rewrite Hhost; by apply HP, HP).
    apply (compile_postgres_rebuild _ _ _ _ _ _ _ None); [done| |done|done].
    by rewrite get_build_stamp_eq, HP1.
Qed.

(** C2, as amended. When a rebuild on Linux or Darwin stops with an
    error, [_compile_postgres] has not written the stamp: no write to the
    stamp file is in the trace, and, provided the external commands
    leave the stamp file alone, the file is gone if the build was fresh
    and is as it was before if not.  So if the stopped rebuild was a
    fresh one or had found the target outdated, the next look at the
    stamp finds the target outdated again.  When the rebuild completes,
    the write of the source stamp is its last action. *)
Theorem C2_stamp_only_after_success w source_stamp w1 build_stamp build_base
    force_build fresh_build run_configure build_contrib :
  get_source_stamp exec w = (Ok source_stamp, w1) →
  get_build_stamp (stamp_path build_base) w1 = (Ok build_stamp, w1) →
  is_outdated source_stamp build_stamp || force_build = true →
  system = "Linux" ∨ system = "Darwin" →
  exec_preserves exec (stamp_path build_base) →
  let stamp := stamp_path build_base in
  let run :=
    _compile_postgres exec ROOT_PATH system cpu_count build_base
      force_build fresh_build run_configure build_contrib w in
  (∀ e, run.1 = Raise e →
     Forall (λ ev, ev ≠ EvOpenW stamp ∧ ∀ d, ev ≠ EvWrite stamp d)
       (new_events w run.2) ∧
     FS.lookup (root (host run.2)) stamp =
       (if fresh_build then None else FS.lookup (root (host w1)) stamp) ∧
     (is_outdated source_stamp build_stamp = true ∨ fresh_build = true →
      retried_after_failure stamp source_stamp run)) ∧
  (run.1 = Ok tt →
     ∃ before i n1,
       new_trace w run.2 =
         before ++ [(EvOpenW stamp, n1);
                    (EvWrite stamp source_stamp, root (host run.2))] ∧
       FS.file_at (root (host run.2)) stamp = Some (i, source_stamp)).
Proof.
  intros Hsrc Hbs Hreb Hsys Hexec stamp run.
  destruct run as [r w'] eqn:Hrun. subst run. simpl.
  pose proof (get_source_stamp_outcome _ _ _ _ Hsrc) as (trg & Htrg & _ & _ & _ & Hokg).
  destruct (Hokg _ eq_refl) as (_ & o1 & o2 & Hevg & _).
  destruct (rebuild_outcome _ _ _ _ _ _ _ _ _ _ _ _ _ _ _ Hsrc Hbs Hreb Hsys Hrun)
    as (rp & w2 & Hmk & Hcase).
  apply make_build_dir_outcome in Hmk as (trp & Htrp & Hevp & Hst2 & _).
  fold stamp in Hst2.
  set (v := if fresh_build then None else FS.lookup (root (host w1)) stamp) in *.
  set (P := λ h : Host, FS.lookup (root h) stamp = v).
  assert (∀ argv cwd h, P h → P (exec argv cwd h).2) as HP.
  { intros argv cwd h Hh. unfold P, stamp. rewrite (Hexec argv cwd h).
    exact Hh. }
  assert (Forall (λ ev, ev ≠ EvOpenW stamp ∧ ∀ d, ev ≠ EvWrite stamp d)
            (trg ++ trp).*1) as Hquiet.
  { rewrite fmap_app. apply Forall_app. split.
    - rewrite Hevg. by repeat constructor.
    - eapply Forall_impl; [exact Hevp|]. by intros ev [-> | ->]. }
  split.
  - intros e ->.
    assert (∃ trt, trace w' = trace w2 ++ trt ∧ Forall is_run trt.*1 ∧ P (host w'))
      as (trt & Htrt & Hrunt & Hfin).
    { destruct Hcase as [(e' & -> & ? & ->) | (-> & rt & w3 & Htc & Hcase)].
      { exists []. rewrite app_nil_r. split_and!; [done|constructor|done]. }
      pose proof (toolchain_phase_invariant _ _ _ P _ _ _ _ _ _ _ _ HP Hst2 Htc) as H3.
      apply toolchain_phase_outcome in Htc as (trt & _ & Htrt & Hrunt & _).
      destruct Hcase as [(e' & -> & ? & ->) | (-> & Hwr)]; [by exists trt|].
      apply write_text_outcome in Hwr
        as [(e' & ? & ->) | (? & _)]; [by exists trt|done]. }
    split_and!.
    + rewrite (new_events_app w w' ((trg ++ trp) ++ trt))
        by (by rewrite Htrt, Htrp, Htrg, <-!app_assoc).
      rewrite fmap_app. apply Forall_app. split; [done|].
      eapply Forall_impl; [exact Hrunt|]. by intros [] ?.
    + exact Hfin.
    + intros Hstale rc argv _. simpl. rewrite get_build_stamp_eq, Hfin.
      subst v. destruct fresh_build; [by exists None|].
      rewrite get_build_stamp_eq in Hbs. fold stamp in Hbs.
      destruct (FS.lookup (root (host w1)) stamp) as [[i d|m]|]; simplify_eq.
      * exists (Some d). split; [done|]. by destruct Hstale.
      * exists None. done.
  - intros ->.
    destruct Hcase as [(e' & _ & ? & _) | (_ & rt & w3 & Htc & Hcase)]; [done|].
    apply toolchain_phase_outcome in Htc as (trt & _ & Htrt & _).
    destruct Hcase as [(e' & _ & ? & _) | (_ & Hwr)]; [done|].
    apply write_text_outcome in Hwr
      as [(e' & ? & _) | (_ & i & n1 & Htrw & _ & Hfile)]; [done|].
    exists (trg ++ trp ++ trt), i, n1. split; [|done].
    apply new_trace_app. by rewrite Htrw, Htrt, Htrp, Htrg, <-!app_assoc.
Qed.

(** C5, as amended. The stamp is written in place, not atomically: a
    rebuild that completes ends with [open(stamp, 'w')], which leaves
    the stamp file empty, followed by the write of the source stamp
    into that same file (same inode), after which the file holds
    exactly the source stamp.  The state in between shows an empty
    stamp, which is never a source stamp, so a reader that sees it
    finds the target outdated. *)
Theorem C5_stamp_written_in_place w source_stamp w1 build_stamp build_base
    force_build fresh_build run_configure build_contrib :
  get_source_stamp exec w = (Ok source_stamp, w1) →
  get_build_stamp (stamp_path build_base) w1 = (Ok build_stamp, w1) →
  is_outdated source_stamp build_stamp || force_build = true →
  system = "Linux" ∨ system = "Darwin" →
  let stamp := stamp_path build_base in
  let run :=
    _compile_postgres exec ROOT_PATH system cpu_count build_base
      force_build fresh_build run_configure build_contrib w in
  run.1 = Ok tt →
  ∃ before i truncated,
    new_trace w1 run.2 =
      before ++ [(EvOpenW stamp, truncated);
                 (EvWrite stamp source_stamp, root (host run.2))] ∧
    FS.file_at truncated stamp = Some (i, "") ∧
    FS.file_at (root (host run.2)) stamp = Some (i, source_stamp) ∧
    is_outdated source_stamp (Some "") = true.
Proof.
  intros Hsrc Hbs Hreb Hsys stamp run.
  destruct run as [r w'] eqn:Hrun. subst run. simpl. intros ->.
  destruct (rebuild_outcome _ _ _ _ _ _ _ _ _ _ _ _ _ _ _ Hsrc Hbs Hreb Hsys Hrun)
    as (rp & w2 & Hmk & Hcase).
  apply make_build_dir_outcome in Hmk as (trp & Htrp & _).
  destruct Hcase as [(e' & _ & ? & _) | (_ & rt & w3 & Htc & Hcase)]; [done|].
  apply toolchain_phase_outcome in Htc as (trt & _ & Htrt & _).
  destruct Hcase as [(e' & _ & ? & _) | (_ & Hwr)]; [done|].
  apply write_text_outcome in Hwr
    as [(e' & ? & _) | (_ & i & n1 & Htrw & Hn1 & Hfile)]; [done|].
  exists (trp ++ trt), i, n1. split_and!; [|done|done|].
  - apply new_trace_app. by rewrite Htrw, Htrt, Htrp, <-!app_assoc.
  - pose proof (get_source_stamp_nonempty _ _ _ _ Hsrc) as Hne.
    unfold is_outdated. rewrite bool_decide_eq_false_2; [done|]. congruence.
Qed.

End CompilePostgresClaims.

(** * The claim about [build_ext.run] *)

Section BuildExtClaims.

Context (exec : list string → option AbsPath → Host → ExecResult * Host).
Context (LooseVersion_lt : string → string → Result bool).
Context (get_ext_fullpath : bool → string → AbsPath).
Context (build_rust_run : bool → Host → Result unit * Host).
Context (distutils_build_ext_run : Host → Result unit * Host).

(** C4. Replacement of a Rust extension artifact.  Take a Rust
    extension built not in place whose in-place target path [t] holds a
    regular file, of inode [i], once the toolchain check has passed.
    Provided setuptools-rust and distutils leave [t] alone, then in any
    run that reaches the Rust build step, the unlink of [t] comes before
    that step, with nothing but unlinks, directory creations and the
    environment update before it; nothing follows a build step that
    fails; and from the unlink on no file at [t] has the old inode.  So
    a copy is made only after the build step has completed.  When [run]
    completes, the copy of the built artifact to [t] comes after the
    build step, and [t] holds a file with a new inode. *)
Theorem C4_unlink_before_build self w wc ext i d :
  ext ∈ rust_extensions self →
  inplace self = false →
  (print "running build_rust" >> _check_rust exec LooseVersion_lt) w
    = (Ok tt, wc) →
  let t := get_ext_fullpath true ext in
  FS.file_at (root (host wc)) t = Some (i, d) →
  (i < next_ino (host wc))%nat →
  (∀ dbg, spares (build_rust_run dbg) t) →
  (∀ dbg, keeps_inodes (build_rust_run dbg)) →
  spares distutils_build_ext_run t →
  let res :=
    run exec LooseVersion_lt get_ext_fullpath build_rust_run
      distutils_build_ext_run self w in
  let evs := new_events wc res.2 in
  (∀ rb, EvBuildRust (debug self) rb ∈ evs →
     (∃ l1 l2 l3,
        evs = l1 ++ EvUnlink t :: l2 ++ EvBuildRust (debug self) rb :: l3 ∧
        Forall plan_event (l1 ++ l2) ∧
        (rb ≠ Ok tt → l3 = [])) ∧
     (∀ x, FS.file_at (root (host res.2)) t = Some x → (i < x.1)%nat)) ∧
  (∀ src dst, EvCopyfile src dst ∈ evs →
     EvBuildRust (debug self) (Ok tt) ∈ evs) ∧
  (res.1 = Ok tt →
     ∃ l1 l2 l3 l4 j d',
       evs = l1 ++ EvUnlink t :: l2 ++ EvBuildRust (debug self) (Ok tt) ::
             l3 ++ EvCopyfile (get_ext_fullpath false ext) t :: l4 ∧
       FS.file_at (root (host res.2)) t = Some (j, d') ∧ (i < j)%nat).
Proof.
  intros Hext Hinplace Hpre t Hfile Hino Hrust Hrust_ino Hsuper res evs.
  subst evs. destruct res as [r w'] eqn:Hres. subst res. simpl.
  unfold run in Hres.
  rewrite bool_decide_eq_false_2 in Hres
    by (intros Hnil; rewrite Hnil in Hext; by apply elem_of_nil in Hext).
  rewrite Hinplace in Hres. cbn [negb] in Hres.
  unfold bind at 1 2 3 in Hres. unfold bind at 1 in Hpre.
  destruct (print "running build_rust" w) as [[[]|?] wp]; [|done].
  rewrite Hpre in Hres.
  unfold bind at 1 in Hres.
  destruct (for_fold _ _ _ wc) as [rl wl] eqn:El.
  apply plan_loop_outcome in El
    as (trl & Htrl & Hevl & Hinol & Hshl & Hkeepl & Hokl).
  assert (∀ ev, ev ∈ trl.*1 → plan_event ev) as Hplan_l
    by (by apply Forall_forall).
  assert (∀ ev, plan_event ev →
            (∀ dbg rb, ev ≠ EvBuildRust dbg rb) ∧ (∀ s d', ev ≠ EvCopyfile s d'))
    as Hplan_no.
  { intros ev [[? ->]|[[? ->]|(? & ? & ->)]]; by split. }
  destruct rl as [cl|e].
  2: { (* the planning loop stopped: the build step was not reached *)
    simplify_eq. rewrite (new_events_app _ _ _ Htrl). split_and!; [| |done].
    - intros rb Hin. by destruct (proj1 (Hplan_no _ (Hplan_l _ Hin)) (debug self) rb).
    - intros s d' Hin. by destruct (proj2 (Hplan_no _ (Hplan_l _ Hin)) s d'). }
  destruct (Hokl _ eq_refl) as [Hcl Hgone]. simpl in Hcl.
  assert (FS.file_at (root (host wl)) t = None) as Hgone_t by (by apply Hgone).
  assert (EvUnlink t ∈ trl.*1) as Hunl.
  { destruct (Hkeepl _ _ Hfile) as [H|H]; [|done]. by rewrite Hgone_t in H. }
  apply list_elem_of_split in Hunl as (l1 & l2 & Hsplit).
  assert (Forall plan_event (l1 ++ l2)) as Hplan.
  { rewrite Hsplit in Hevl. apply Forall_app in Hevl as [H1 H2].
    apply Forall_cons in H2 as [_ H2]. by apply Forall_app. }
  (* the environment update and the build step *)
  unfold bind, setenv, call_build_rust in Hres. simpl in Hres.
  match type of Hres with
  | context [build_rust_run ?dbg ?h] =>
      pose proof (Hrust dbg h) as Hsp; pose proof (Hrust_ino dbg h) as Hmono;
      destruct (build_rust_run dbg h) as [rb hb]
  end.
  simpl in Hsp, Hmono. rewrite Hgone_t in Hsp. rewrite Hinol in Hmono.
  match type of Hres with
  | context [emit (EvBuildRust _ _) hb ?ws] =>
      set (wbr := emit (EvBuildRust (debug self) rb) hb ws) in *
  end.
  assert (∃ k v n1 n2,
    trace wbr = trace wc ++ trl ++
                [(EvSetenv k v, n1); (EvBuildRust (debug self) rb, n2)])
    as (k & v & n1 & n2 & Htrb).
  { eexists _, _, _, _. subst wbr. simpl. rewrite Htrl, <-!app_assoc. done. }
  (* what follows the build step *)
  assert (∃ tail,
    new_events wc w' =
      trl.*1 ++ [EvSetenv k v; EvBuildRust (debug self) rb] ++ tail ∧
    Forall (λ ev, (∃ s d', ev = EvCopyfile s d') ∨ ev = EvSuperRun) tail ∧
    (rb ≠ Ok tt → tail = []) ∧
    (∀ x, FS.file_at (root (host w')) t = Some x →
          (next_ino (host wc) ≤ x.1)%nat) ∧
    (r = Ok tt →
       rb = Ok tt ∧
       ∃ a b, tail = a ++ EvCopyfile (get_ext_fullpath false ext) t :: b ∧
              is_Some (FS.file_at (root (host w')) t)))
    as (tail & Hevs & Htail & Hfailed & Hbound & Hdone).
  { destruct rb as [[]|e].
    2: { simplify_eq. exists []. split_and!.
         - rewrite (new_events_app _ _ _ Htrb), fmap_app. done.
         - constructor.
         - done.
         - intros x Hx. simpl in Hx. by rewrite Hsp in Hx.
         - done. }
    destruct (for_each cl _ wbr) as [rc wcp] eqn:Ec.
    apply copy_loop_outcome in Ec as (trc & Htrc & Hevc & Hinoc & Hboundc & Hokc).
    assert (∀ x, FS.file_at (root (host wcp)) t = Some x →
                 (next_ino (host wc) ≤ x.1)%nat) as Hb.
    { apply Hboundc; [done|]. intros x Hx. simpl in Hx. by rewrite Hsp in Hx. }
    assert (Forall (λ ev, (∃ s d', ev = EvCopyfile s d') ∨ ev = EvSuperRun) trc.*1)
      as Htc.
    { eapply Forall_impl; [exact Hevc|]. intros ev (s & d' & -> & _). left. eauto. }
    destruct rc as [[]|e].
    2: { simplify_eq. exists trc.*1. split_and!; [|done|done|done|done].
         rewrite (new_events_app wc w' (trl ++ [(EvSetenv k v, n1);
           (EvBuildRust (debug self) (Ok tt), n2)] ++ trc))
           by (by rewrite Htrc, Htrb, <-!app_assoc).
         by rewrite !fmap_app. }
    destruct (Hokc eq_refl) as [_ Hall].
    destruct (Hall (get_ext_fullpath false ext) t) as [Hcopy Hsome].
    { rewrite Hcl. apply list_elem_of_fmap. by exists ext. }
    apply list_elem_of_split in Hcopy as (a & b & Hab).
    unfold call_super_run in Hres.
    pose proof (Hsuper (host wcp)) as Hsp'.
    destruct (distutils_build_ext_run (host wcp)) as [rs hs].
    simplify_eq. simpl in *.
    exists (trc.*1 ++ [EvSuperRun]). split_and!.
    - unfold new_events, new_trace. simpl. rewrite Htrc, Htrb.
      rewrite <-!app_assoc, drop_app_length, !fmap_app. done.
    - apply Forall_app. split; [done|]. constructor; [by right|constructor].
    - done.
    - intros x Hx. rewrite Hsp' in Hx. by apply Hb.
    - intros _. split; [done|]. exists a, (b ++ [EvSuperRun]). rewrite Hsp'.
      split; [|done]. by rewrite Hab, <-app_assoc. }
  assert (∀ ev, ev ∈ tail →
            (∀ dbg rb', ev ≠ EvBuildRust dbg rb')) as Htail_no.
  { intros ev Hin. rewrite Forall_forall in Htail.
    by destruct (Htail _ Hin) as [(? & ? & ->)| ->]. }
  rewrite Hevs. split_and!.
  - intros rb' Hin.
    assert (rb' = rb) as ->.
    { apply elem_of_app in Hin as [Hin|Hin].
      { by destruct (proj1 (Hplan_no _ (Hplan_l _ Hin)) (debug self) rb'). }
      apply elem_of_app in Hin as [Hin|Hin].
      - apply elem_of_cons in Hin as [?|Hin]; [done|].
        apply elem_of_cons in Hin as [?|Hin]; [by simplify_eq|].
        by apply elem_of_nil in Hin.
      - by destruct (Htail_no _ Hin (debug self) rb'). }
    split.
    + exists l1, (l2 ++ [EvSetenv k v]), tail. rewrite Hsplit. split_and!.
      * by rewrite <-!app_assoc.
      * rewrite app_assoc. apply Forall_app. split; [done|].
        constructor; [|constructor]. right. right. eauto.
      * done.
    + intros x Hx. specialize (Hbound _ Hx). lia.
  - intros s d' Hin.
    assert (rb = Ok tt) as ->.
    { destruct rb as [[]|e]; [done|]. rewrite Hfailed in Hin by done.
      apply elem_of_app in Hin as [Hin|Hin].
      { by destruct (proj2 (Hplan_no _ (Hplan_l _ Hin)) s d'). }
      repeat (apply elem_of_cons in Hin as [?|Hin]; [done|]).
      by apply elem_of_nil in Hin. }
    apply elem_of_app. right. apply list_elem_of_further, list_elem_of_here.
  - intros Hr. destruct (Hdone Hr) as (-> & a & b & -> & [[j d'] Hj]).
    exists l1, (l2 ++ [EvSetenv k v]), a, b, j, d'. rewrite Hsplit. split_and!.
    + by rewrite <-!app_assoc.
    + done.
    + specialize (Hbound _ Hj). simpl in Hbound. lia.
Qed.

End BuildExtClaims.

(** * The claim about [_compile_parsers] *)

Section ParserClaims.

Context (ROOT_PATH cwd : AbsPath).
Context (edgeql_spec edgeql_spec2 schema_spec : PyModule).
Context (parsing_Spec : PyModule → AbsPath → Host → Result unit * Host).



(** C6.  One cache artifact per grammar, at the cache path that mirrors
    the place of the grammar in the source tree: this breaks in a
    source tree at the root of the file system, where the slice that
    makes the path of a grammar relative to [ROOT_PATH] cuts one
    character too many.  For setup.py at [/],
    run from [/] with the build tree [build/lib] and the three grammar
    modules at [/edb/edgeql/parser/grammar], the build completes with
    the three pickle files below [build/lib/db/edgeql/parser/grammar]
    and none at the cache path [build/lib/edb/edgeql/parser/grammar]
    that mirrors the place of the grammars in the source tree; in
    inplace mode the first copy is aimed at
    [/db/edgeql/parser/grammar/single.pickle], a directory that is not
    there, and the run stops with [FileNotFoundError] after one call
    of [parsing.Spec]. *)
Theorem C6_tables_misplaced_at_root :
  let run inplace :=
    _compile_parsers [] (demo_root_module "single") (demo_root_module "block")
      (demo_root_module "sdldocument") [] demo_parsing_Spec
      demo_build_lib inplace (start demo_host_root) in
  let misplaced := ["build"; "lib"; "db"; "edgeql"; "parser"; "grammar"] in
  (grammar_module [] (demo_root_module "single") "single" ∧
   grammar_module [] (demo_root_module "block") "block" ∧
   grammar_module [] (demo_root_module "sdldocument") "sdldocument") ∧
  cache_path [] demo_build_lib "single.pickle"
    = ["build"; "lib"; "edb"; "edgeql"; "parser"; "grammar"; "single.pickle"] ∧
  (run false).1 = Ok tt ∧
  spec_calls (events (run false).2) =
    [("edb.edgeql.parser.grammar.single", misplaced ++ ["single.pickle"]);
     ("edb.edgeql.parser.grammar.block", misplaced ++ ["block.pickle"]);
     ("edb.edgeql.parser.grammar.sdldocument",
      misplaced ++ ["sdldocument.pickle"])] ∧
  (λ pn, FS.file_at (root (host (run false).2)) (cache_path [] demo_build_lib pn))
    <$> pickle_names = [None; None; None] ∧
  (λ pn, snd <$> FS.file_at (root (host (run false).2)) (misplaced ++ [pn]))
    <$> pickle_names
    = [Some "tables of edb.edgeql.parser.grammar.single";
       Some "tables of edb.edgeql.parser.grammar.block";
       Some "tables of edb.edgeql.parser.grammar.sdldocument"] ∧
  (run true).1
    = Raise (OSError FileNotFoundError
               ["db"; "edgeql"; "parser"; "grammar"; "single.pickle"]) ∧
  spec_calls (events (run true).2)
    = [("edb.edgeql.parser.grammar.single", misplaced ++ ["single.pickle"])].
Proof.
  cbv zeta. split_and!; try (vm_compute; reflexivity);
    split; vm_compute; reflexivity.
Qed.

End ParserClaims.

(** * The claims at concrete inputs *)

Lemma C1_witness :
  let w := start (demo_host_built "+abc123") in
  get_source_stamp (demo_exec demo_git_out no_failure) w
    = (Ok "+abc123", (get_source_stamp (demo_exec demo_git_out no_failure) w).2) ∧
  is_outdated "+abc123" (Some "+abc123") = false ∧
  is_outdated "+abc123" (Some " abc123") = true ∧
  is_outdated "+abc123" None = true.
Proof.
  intros w.
  assert (get_source_stamp (demo_exec demo_git_out no_failure) w
    = (Ok "+abc123", (get_source_stamp (demo_exec demo_git_out no_failure) w).2))
    as Hsrc by (vm_compute; reflexivity).
  pose proof (C1_staleness_is_stamp_inequality
    (demo_exec demo_git_out no_failure) demo_root "Linux" (Some 4)
    w "+abc123" _ demo_build_base true true true Hsrc) as [_ H].
  split; [exact Hsrc|].
  destruct (H 7%nat "+abc123" ltac:(vm_compute; reflexivity)) as (_ & _ & Heq).
  destruct (Heq eq_refl) as [Hcur _].
  split; [exact Hcur|]. split; reflexivity.
Defined.


Lemma C9_witness :
  let exec := demo_exec demo_git_out no_failure in
  let w := start (demo_host_built "+abc123") in
  let w1 := (get_source_stamp exec w).2 in
  get_source_stamp exec w = (Ok "+abc123", w1) ∧
  get_build_stamp (stamp_path demo_build_base) w1 = (Ok (Some "+abc123"), w1) ∧
  _compile_postgres exec demo_root "Windows" (Some 4) demo_build_base
    false true true true w = (Ok tt, w1) ∧
  _compile_postgres exec demo_root "Windows" (Some 4) demo_build_base
    true true true true w =
    (Raise (NotImplementedError "unsupported system: Windows"), w1).
Proof.
  intros exec w w1.
  assert (get_source_stamp exec w = (Ok "+abc123", w1)) as H1
    by (vm_compute; reflexivity).
  assert (get_build_stamp (stamp_path demo_build_base) w1
          = (Ok (Some "+abc123"), w1)) as H2
    by (vm_compute; reflexivity).
  split; [exact H1|]. split; [exact H2|]. split.
  - destruct (C9_noop_or_unsupported exec demo_root "Windows" (Some 4)
      w _ w1 _ demo_build_base false true true true H1 H2) as (_ & Hcur & _).
    apply Hcur; reflexivity.
  - destruct (C9_noop_or_unsupported exec demo_root "Windows" (Some 4)
      w _ w1 _ demo_build_base true true true true H1 H2) as (_ & _ & Huns).
    apply Huns; [reflexivity|discriminate|discriminate].
Defined.

(** A run in which [make install] breaks: [make install] in contrib
    never runs, and the error names the command that broke. *)
Example install_fails_run :
  let run :=
    _compile_postgres (demo_exec demo_git_out install_fails) demo_root
      "Linux" (Some 4) demo_build_base false true true true
      (start demo_host_clean) in
  run.1 = Raise (CalledProcessError 2 ["make"; "MAKELEVEL=0"; "install"]) ∧
  (runs (events run.2)).*1.*1 =
    [git_submodule_status; git_submodule_status;
     ["/work/edgedb/postgres/configure";
      "--prefix=/work/edgedb/build/postgres/install"; "--with-uuid=e2fs"];
     ["make"; "MAKELEVEL=0"; "-j"; "3"];
     ["make"; "-C"; "contrib"; "MAKELEVEL=0"; "-j"; "3"];
     ["make"; "MAKELEVEL=0"; "install"]] ∧
  FS.lookup (root (host run.2)) (stamp_path demo_build_base) = None.
Proof. vm_compute. done. Qed.

Lemma C7_witness :
  let exec := demo_exec demo_git_out no_failure in
  let w := start (demo_host_built "+abc123") in
  let w1 := (get_source_stamp exec w).2 in
  let w2 := (make_build_dir true (postgres_build demo_build_base) w1).2 in
  let run :=
    _compile_postgres exec demo_root "Linux" (Some 4) demo_build_base
      true true false false w in
  get_source_stamp exec w = (Ok "+abc123", w1) ∧
  get_build_stamp (stamp_path demo_build_base) w1 = (Ok (Some "+abc123"), w1) ∧
  make_build_dir true (postgres_build demo_build_base) w1 = (Ok tt, w2) ∧
  ∃ res, head (runs (new_events w2 run.2))
         = Some (configure_cmd demo_root demo_build_base, res).
Proof.
  intros exec w w1 w2 run.
  assert (get_source_stamp exec w = (Ok "+abc123", w1)) as H1
    by (vm_compute; reflexivity).
  assert (get_build_stamp (stamp_path demo_build_base) w1
          = (Ok (Some "+abc123"), w1)) as H2
    by (vm_compute; reflexivity).
  assert (make_build_dir true (postgres_build demo_build_base) w1 = (Ok tt, w2))
    as H3 by (vm_compute; reflexivity).
  split; [exact H1|]. split; [exact H2|]. split; [exact H3|].
  destruct (C7_configure_when_due exec demo_root "Linux" (Some 4)
    w _ w1 _ w2 demo_build_base true true false false H1 H2
    eq_refl (or_introl eq_refl) H3) as (_ & _ & Hfresh).
  apply Hfresh. reflexivity.
Defined.

Lemma C8_witness :
  let exec := demo_exec demo_git_out no_failure in
  let w := start demo_host_clean in
  let w1 := (get_source_stamp exec w).2 in
  let run :=
    _compile_postgres exec demo_root "Linux" (Some 4) demo_build_base
      false true true true w in
  Some 4 = Some 4 ∧
  arg_after "-j" ["make"; "MAKELEVEL=0"; "-j"; "3"] = Some "3" ∧
  ∃ out, EvRun ["make"; "MAKELEVEL=0"; "-j"; "3"]
           (Some (build_dir demo_build_base)) (Exited 0 out)
         ∈ new_events w1 run.2.
Proof.
  intros exec w w1 run.
  assert (get_source_stamp exec w = (Ok "+abc123", w1)) as H1
    by (vm_compute; reflexivity).
  assert (get_build_stamp (stamp_path demo_build_base) w1 = (Ok None, w1)) as H2
    by (vm_compute; reflexivity).
  assert (run.1 = Ok tt) as H3 by (vm_compute; reflexivity).
  destruct (C8_make_jobs exec demo_root "Linux" (Some 4) 4
    w demo_build_base false true true true eq_refl)
    as (_ & Hj & Hran).
  split; [reflexivity|]. split.
  - apply (Hj _ (Some (build_dir demo_build_base)) (Exited 0 "")).
    + apply list_elem_of_lookup. exists 4%nat. vm_compute. reflexivity.
    + reflexivity.
    + apply list_elem_of_lookup. exists 2%nat. reflexivity.
  - exact (Hran _ _ _ H1 H2 eq_refl H3).
Defined.

Lemma C10_witness :
  let exec := demo_exec demo_git_out install_fails in
  let w := start (demo_host_built "+old") in
  let w1 := (get_source_stamp exec w).2 in
  let run :=
    _compile_postgres exec demo_root "Linux" (Some 4) demo_build_base
      false true false false w in
  get_source_stamp exec w = (Ok "+abc123", w1) ∧
  get_build_stamp (stamp_path demo_build_base) w1 = (Ok (Some "+old"), w1) ∧
  run.1 = Raise (CalledProcessError 2 ["make"; "MAKELEVEL=0"; "install"]) ∧
  FS.lookup (root (host run.2)) (stamp_path demo_build_base) = None ∧
  get_build_stamp (stamp_path demo_build_base) run.2 = (Ok None, run.2).
Proof.
  intros exec w w1 run.
  assert (get_source_stamp exec w = (Ok "+abc123", w1)) as H1
    by (vm_compute; reflexivity).
  assert (get_build_stamp (stamp_path demo_build_base) w1
          = (Ok (Some "+old"), w1)) as H2
    by (vm_compute; reflexivity).
  assert (run.1 = Raise (CalledProcessError 2 ["make"; "MAKELEVEL=0"; "install"]))
    as H3 by (vm_compute; reflexivity).
  split; [exact H1|]. split; [exact H2|]. split; [exact H3|].
  destruct (C10_fresh_build_drops_stamp exec demo_root "Linux" (Some 4)
    w _ w1 _ demo_build_base false false false H1 H2 eq_refl
    (or_introl eq_refl) (demo_exec_keeps_absent _ _ _)) as (_ & Hfail).
  destruct Hfail as (Hgone & Hread & _).
  - fold run. rewrite H3. discriminate.
  - split; [exact Hgone|exact Hread].
Defined.

Lemma C2_witness :
  let exec := demo_exec demo_git_out install_fails in
  let w := start (demo_host_built "+old") in
  let w1 := (get_source_stamp exec w).2 in
  let run :=
    _compile_postgres exec demo_root "Linux" (Some 4) demo_build_base
      false false false false w in
  get_source_stamp exec w = (Ok "+abc123", w1) ∧
  get_build_stamp (stamp_path demo_build_base) w1 = (Ok (Some "+old"), w1) ∧
  run.1 = Raise (CalledProcessError 2 ["make"; "MAKELEVEL=0"; "install"]) ∧
  FS.lookup (root (host run.2)) (stamp_path demo_build_base)
    = FS.lookup (root (host w1)) (stamp_path demo_build_base) ∧
  retried_after_failure (stamp_path demo_build_base) "+abc123" run.
Proof.
  intros exec w w1 run.
  assert (get_source_stamp exec w = (Ok "+abc123", w1)) as H1
    by (vm_compute; reflexivity).
  assert (get_build_stamp (stamp_path demo_build_base) w1
          = (Ok (Some "+old"), w1)) as H2
    by (vm_compute; reflexivity).
  assert (run.1 = Raise (CalledProcessError 2 ["make"; "MAKELEVEL=0"; "install"]))
    as H3 by (vm_compute; reflexivity).
  split; [exact H1|]. split; [exact H2|]. split; [exact H3|].
  destruct (C2_stamp_only_after_success exec demo_root "Linux" (Some 4)
    w _ w1 _ demo_build_base false false false false H1 H2 eq_refl
    (or_introl eq_refl) (demo_exec_preserves _ _ _)) as (Hfail & _).
  destruct (Hfail _ H3) as (_ & Hsame & Hretry).
  split; [exact Hsame|]. apply Hretry. left. reflexivity.
Defined.

(** C2 as stated fails: a forced rebuild of a current target, not
    fresh, in which [make install] breaks, leaves the old stamp in
    place, and it still equals the source stamp: the next look at the
    stamp finds the target current, and nothing is attempted again. *)
Lemma C2_counterexample :
  ¬ retried_after_failure (stamp_path demo_build_base) "+abc123"
      (_compile_postgres (demo_exec demo_git_out install_fails) demo_root
         "Linux" (Some 4) demo_build_base true false false false
         (start (demo_host_built "+abc123"))).
Proof.
  intros H.
  destruct (H 2 ["make"; "MAKELEVEL=0"; "install"]) as (bs & Hbs & Hout).
  { vm_compute. reflexivity. }
  assert (bs = Some "+abc123") as ->.
  { rewrite get_build_stamp_eq in Hbs.
    assert (FS.lookup
      (root (host (_compile_postgres (demo_exec demo_git_out install_fails)
         demo_root "Linux" (Some 4) demo_build_base true false false false
         (start (demo_host_built "+abc123"))).2))
      (stamp_path demo_build_base) = Some (File 7 "+abc123")) as Hl
      by (vm_compute; reflexivity).
    rewrite Hl in Hbs. congruence. }
  vm_compute in Hout. discriminate.
Qed.

(** After that failed forced rebuild, an invocation that is not forced
    runs the two status queries and nothing else. *)
Example no_retry_after_forced_failure :
  let exec := demo_exec demo_git_out install_fails in
  let first :=
    _compile_postgres exec demo_root "Linux" (Some 4) demo_build_base
      true false false false (start (demo_host_built "+abc123")) in
  let second :=
    _compile_postgres exec demo_root "Linux" (Some 4) demo_build_base
      false true true true first.2 in
  first.1 = Raise (CalledProcessError 2 ["make"; "MAKELEVEL=0"; "install"]) ∧
  second.1 = Ok tt ∧
  (runs (new_events first.2 second.2)).*1.*1
    = [git_submodule_status; git_submodule_status].
Proof. vm_compute. done. Qed.

Lemma C5_witness :
  let exec := demo_exec demo_git_out no_failure in
  let w := start (demo_host_built "+old") in
  let w1 := (get_source_stamp exec w).2 in
  let run :=
    _compile_postgres exec demo_root "Linux" (Some 4) demo_build_base
      false false false false w in
  get_source_stamp exec w = (Ok "+abc123", w1) ∧
  get_build_stamp (stamp_path demo_build_base) w1 = (Ok (Some "+old"), w1) ∧
  run.1 = Ok tt ∧
  ∃ before i truncated,
    new_trace w1 run.2 =
      before ++ [(EvOpenW (stamp_path demo_build_base), truncated);
                 (EvWrite (stamp_path demo_build_base) "+abc123",
                  root (host run.2))] ∧
    FS.file_at truncated (stamp_path demo_build_base) = Some (i, "") ∧
    FS.file_at (root (host run.2)) (stamp_path demo_build_base)
      = Some (i, "+abc123") ∧
    is_outdated "+abc123" (Some "") = true.
Proof.
  intros exec w w1 run.
  assert (get_source_stamp exec w = (Ok "+abc123", w1)) as H1
    by (vm_compute; reflexivity).
  assert (get_build_stamp (stamp_path demo_build_base) w1
          = (Ok (Some "+old"), w1)) as H2
    by (vm_compute; reflexivity).
  assert (run.1 = Ok tt) as H3 by (vm_compute; reflexivity).
  split; [exact H1|]. split; [exact H2|]. split; [exact H3|].
  exact (C5_stamp_written_in_place exec demo_root "Linux" (Some 4)
    w _ w1 _ demo_build_base false false false false H1 H2 eq_refl
    (or_introl eq_refl) H3).
Defined.

(** C5 as stated fails: in a rebuild of a target whose stamp file holds
    [+old], one of the states the run goes through shows the stamp file
    empty: neither the old stamp nor the new one. *)
Lemma C5_counterexample :
  let run :=
    _compile_postgres (demo_exec demo_git_out no_failure) demo_root
      "Linux" (Some 4) demo_build_base false false false false
      (start (demo_host_built "+old")) in
  run.1 = Ok tt ∧
  ¬ stamp_never_partial (stamp_path demo_build_base) (Some "+old") "+abc123"
      (snapshots run.2).
Proof.
  intros run. split; [vm_compute; reflexivity|].
  intros H. destruct (H (Some "")) as [Hold | Hnew].
  - apply list_elem_of_lookup. exists 7%nat. vm_compute. reflexivity.
  - discriminate.
  - discriminate.
Qed.

Lemma C4_witness :
  let t := demo_get_ext_fullpath true "_edgeql_rust" in
  let w := start demo_host_ext in
  let wc := ((print "running build_rust" >>
              _check_rust demo_rustc demo_version_lt)%py w).2 in
  let res :=
    run demo_rustc demo_version_lt demo_get_ext_fullpath demo_build_rust
      demo_super_run demo_build_ext w in
  (print "running build_rust" >> _check_rust demo_rustc demo_version_lt)%py w
    = (Ok tt, wc) ∧
  FS.file_at (root (host wc)) t = Some (5%nat, "old artifact") ∧
  res.1 = Ok tt ∧
  ∃ l1 l2 l3 l4 j d',
    new_events wc res.2 =
      l1 ++ EvUnlink t :: l2 ++ EvBuildRust false (Ok tt) ::
      l3 ++ EvCopyfile (demo_get_ext_fullpath false "_edgeql_rust") t :: l4 ∧
    FS.file_at (root (host res.2)) t = Some (j, d') ∧ (5 < j)%nat.
Proof.
  intros t w wc res.
  assert ((print "running build_rust" >>
           _check_rust demo_rustc demo_version_lt)%py w = (Ok tt, wc)) as H1
    by (vm_compute; reflexivity).
  assert (FS.file_at (root (host wc)) t = Some (5%nat, "old artifact")) as H2
    by (vm_compute; reflexivity).
  assert (res.1 = Ok tt) as H3 by (vm_compute; reflexivity).
  split; [exact H1|]. split; [exact H2|]. split; [exact H3|].
  destruct (C4_unlink_before_build demo_rustc demo_version_lt
    demo_get_ext_fullpath demo_build_rust demo_super_run demo_build_ext
    w wc "_edgeql_rust" 5%nat "old artifact") as (_ & _ & Hdone).
  - apply list_elem_of_here.
  - reflexivity.
  - exact H1.
  - exact H2.
  - vm_compute. lia.
  - exact demo_build_rust_spares.
  - exact demo_build_rust_keeps_inodes.
  - intros h. reflexivity.
  - exact (Hdone H3).
Defined.

(** The run of the example, in full: the old artifact is unlinked, the
    build runs, and the copy gives the target a new inode. *)
Example build_ext_run_trace :
  let res :=
    run demo_rustc demo_version_lt demo_get_ext_fullpath demo_build_rust
      demo_super_run demo_build_ext (start demo_host_ext) in
  res.1 = Ok tt ∧
  events res.2 =
    [EvPrint "running build_rust";
     EvRun ["rustc"; "-V"] None (Exited 0 "rustc 1.42.0 (b8cedc004 2020-03-09)");
     EvUnlink ["work"; "edgedb"; "edb"; "_edgeql_rust.so"];
     EvSetenv "CARGO_TARGET_DIR" "build/temp/rust/extensions";
     EvBuildRust false (Ok tt);
     EvCopyfile ["work"; "edgedb"; "build"; "lib"; "edb"; "_edgeql_rust.so"]
       ["work"; "edgedb"; "edb"; "_edgeql_rust.so"];
     EvSuperRun] ∧
  FS.file_at (root (host res.2)) ["work"; "edgedb"; "edb"; "_edgeql_rust.so"]
    = Some (11%nat, "new artifact").
Proof. vm_compute. done. Qed.


(** The run of the example in inplace mode: three cache files, three
    copies in the source tree, same content. *)
Example compile_parsers_files :
  let res :=
    _compile_parsers demo_root (demo_module "single") (demo_module "block")
      (demo_module "sdldocument") demo_root demo_parsing_Spec
      demo_build_lib true (start demo_host_src) in
  let grammar := ["edb"; "edgeql"; "parser"; "grammar"] in
  (λ pn, snd <$> FS.file_at (root (host res.2))
                   (demo_build_base ++ ["lib"] ++ grammar ++ [pn]))
    <$> pickle_names
  = [Some "tables of edb.edgeql.parser.grammar.single";
     Some "tables of edb.edgeql.parser.grammar.block";
     Some "tables of edb.edgeql.parser.grammar.sdldocument"] ∧
  (λ pn, snd <$> FS.file_at (root (host res.2)) (demo_root ++ grammar ++ [pn]))
    <$> pickle_names
  = [Some "tables of edb.edgeql.parser.grammar.single";
     Some "tables of edb.edgeql.parser.grammar.block";
     Some "tables of edb.edgeql.parser.grammar.sdldocument"].
Proof. vm_compute. done. Qed.
(** * Further properties *)

(** ** Sequencing *)

Lemma bind_outcome {A B} (m : M A) (k : A → M B) w r w' :
  bind m k w = (r, w') →
  (∃ e, m w = (Raise e, w') ∧ r = Raise e) ∨
  (∃ a wa, m w = (Ok a, wa) ∧ k a wa = (r, w')).
Proof.
  unfold bind. destruct (m w) as [[a|e] wa]; intros H.
  - right. eauto.
  - left. simplify_eq. eauto.
Qed.

(** ** Text *)

Section TextFacts.

Lemma append_nil_r (s : string) : s +:+ "" = s.
Proof. induction s as [|c s IH]; [done|]. by rewrite append_cons, IH. Qed.

Lemma rev_app_rev_app a b c :
  String.rev_app (String.rev_app a b) c = String.rev_app b (a +:+ c).
Proof.
  revert b c. induction a as [|x a IH]; intros b c; [done|].
  simpl. by rewrite IH.
Qed.

Lemma rev_rev_app a : String.rev (String.rev_app a "") = a.
Proof. unfold String.rev. rewrite rev_app_rev_app. simpl. apply append_nil_r. Qed.

(** A run of non-blank characters goes to the word being read. *)
Lemma words_aux_no_blank a acc s :
  no_blank a →
  PyStr.words_aux (Some acc) (a +:+ s) =
  PyStr.words_aux (Some (String.rev_app a acc)) s.
Proof.
  revert acc. induction a as [|c a IH]; intros acc H; [done|].
  apply Forall_cons in H as [Hc Ha]. rewrite append_cons. simpl.
  rewrite Hc. simpl. by apply IH.
Qed.

(** A word followed by a blank or by the end of the text is the first
    word that is split off. *)
Lemma words_first a s :
  a ≠ "" → no_blank a → at_word_end s →
  ∃ s', PyStr.words (a +:+ s) = a :: PyStr.words s' ∧
        (∀ c t, s = String c t → s' = t) ∧ (s = "" → s' = "").
Proof.
  intros Ha Hnb Hend. destruct a as [|c a]; [done|].
  apply Forall_cons in Hnb as [Hc Hnb].
  unfold PyStr.words. rewrite append_cons. simpl. rewrite Hc. simpl.
  rewrite (words_aux_no_blank a _ s Hnb).
  assert (String.rev (String.rev_app a (String c "")) = String c a) as Hrev.
  { change (String.rev_app a (String c "")) with (String.rev_app (String c a) "").
    apply rev_rev_app. }
  destruct s as [|b t]; simpl.
  - exists "". rewrite Hrev. split; [done|]. split; [by intros|done].
  - simpl in Hend. rewrite Hend. exists t. rewrite Hrev.
    split; [done|]. split; [by intros ?? [= _ ->]|done].
Qed.

(** The second word of [name ver ...]. *)
Lemma words_second name ver tail :
  name ≠ "" → ver ≠ "" → no_blank name → no_blank ver → at_word_end tail →
  PyStr.words (name +:+ " " +:+ ver +:+ tail) !! 1%nat = Some ver.
Proof.
  intros Hn Hv Hnn Hnv Hend.
  destruct (words_first name (" " +:+ ver +:+ tail) Hn Hnn) as (s1 & -> & Hs1 & _);
    [done|].
  rewrite (Hs1 _ _ eq_refl). simpl.
  destruct (words_first ver tail Hv Hnv Hend) as (s2 & -> & _). done.
Qed.

(** [partition] at the first separator. *)
Lemma partition_app sep a b :
  sep ∉ PyStr.chars a →
  PyStr.partition sep (a +:+ String sep b) = (a, String sep "", b).
Proof.
  induction a as [|c a IH]; intros H.
  - change ("" +:+ String sep b) with (String sep b). simpl.
    by rewrite decide_True.
  - apply not_elem_of_cons in H as [Hne Ha]. rewrite append_cons.
    cbn [PyStr.partition]. rewrite decide_False by done. by rewrite IH.
Qed.

(** [partition] gives the text back. *)
Lemma partition_concat sep s h m t :
  PyStr.partition sep s = (h, m, t) →
  h +:+ (m +:+ t) = s ∧ (sep ∉ PyStr.chars h) ∧
  (m = String sep "" ∨ m = "" ∧ t = "").
Proof.
  revert h. induction s as [|c s IH]; intros h; simpl.
  - intros ?; simplify_eq. split_and!; [done|apply not_elem_of_nil|by right].
  - destruct (decide (c = sep)) as [->|Hne].
    + intros ?; simplify_eq.
      split_and!; [done|apply not_elem_of_nil|by left].
    + destruct (PyStr.partition sep s) as [[h' m'] t'].
      intros ?; simplify_eq.
      destruct (IH _ eq_refl) as (Heq & Hh & Hm).
      split_and!; [|by apply not_elem_of_cons|done].
      by rewrite append_cons, Heq.
Qed.

End TextFacts.

(** ** [_check_rust] *)

Section CheckRust.

Context (exec : list string → option AbsPath → Host → ExecResult * Host).
Context (LooseVersion_lt : string → string → Result bool).

Lemma check_rust_eq w :
  _check_rust exec LooseVersion_lt w =
  (match (exec ["rustc"; "-V"] None (host w)).1 with
   | NotFound | NoCwd FileNotFoundError =>
       Raise (RuntimeError
                ("please install rustc >= " +:+ RUST_VERSION
                 +:+ " to compile edgedb from source (see https://rustup.rs/)"))
   | Exited rc out =>
       if rc =? 0 then
         match PyStr.words out !! 1%nat with
         | None => Raise IndexError
         | Some ver =>
             match LooseVersion_lt ver RUST_VERSION with
             | Ok true =>
                 Raise (RuntimeError
                          ("please upgrade Rust to " +:+ RUST_VERSION
                           +:+ " to compile edgedb from source"))
             | Ok false => Ok tt
             | Raise (OSError FileNotFoundError _) =>
                 Raise (RuntimeError
                          ("please install rustc >= " +:+ RUST_VERSION
                           +:+ " to compile edgedb from source (see https://rustup.rs/)"))
             | Raise e => Raise e
             end
         end
       else Raise (CalledProcessError rc ["rustc"; "-V"])
   | NoCwd kind => Raise (OSError kind [])
   end,
   emit (EvRun ["rustc"; "-V"] None (exec ["rustc"; "-V"] None (host w)).1)
     (exec ["rustc"; "-V"] None (host w)).2 w).
Proof.
  unfold _check_rust, reraise_FileNotFoundError, bind, subprocess_run, cwd_error.
  destruct (exec ["rustc"; "-V"] None (host w)) as [[|rc out|k] h']; simpl;
    [done| |by destruct k].
  destruct (rc =? 0); simpl; [|done].
  destruct (PyStr.words out !! 1%nat) as [ver|]; [|done].
  destruct (LooseVersion_lt ver RUST_VERSION) as [[]|e]; [done|done|].
  unfold raise. destruct e as [| | | | | |k ?|]; try done. by destruct k.
Qed.

Lemma new_events_emit ev h w : new_events w (emit ev h w) = [ev].
Proof. by apply (new_events_app _ _ [(ev, root h)]). Qed.

(** X1. Without [rustc] on the path, [_check_rust] raises the
    [RuntimeError] that asks to install rustc 1.42.0 or later; the
    [FileNotFoundError] of the failed start does not get out.  The
    attempt to start [rustc -V] is all that has happened. *)
Theorem check_rust_missing_rustc w :
  (exec ["rustc"; "-V"] None (host w)).1 = NotFound →
  let res := _check_rust exec LooseVersion_lt w in
  res.1 = Raise (RuntimeError
    "please install rustc >= 1.42.0 to compile edgedb from source (see https://rustup.rs/)") ∧
  new_events w res.2 = [EvRun ["rustc"; "-V"] None NotFound].
Proof.
  intros H. cbv zeta. rewrite check_rust_eq, H. simpl.
  split; [done|]. rewrite <-H. apply new_events_emit.
Qed.

(** X2. [_check_rust] passes exactly when [rustc -V] exits with status
    0, its output has a second blank-separated word, and the comparison
    of that word with 1.42.0 returns and does not find it older.  When
    the comparison itself raises, as [LooseVersion] does with
    [TypeError] for a word such as [nightly] whose text meets a number,
    that exception gets out as it is.  The function never raises
    [FileNotFoundError], and whatever the outcome it has run one
    command, [rustc -V], and done nothing else. *)
Theorem check_rust_verdict w :
  let res := _check_rust exec LooseVersion_lt w in
  (res.1 = Ok tt ↔
   ∃ out ver,
     (exec ["rustc"; "-V"] None (host w)).1 = Exited 0 out ∧
     PyStr.words out !! 1%nat = Some ver ∧
     LooseVersion_lt ver "1.42.0" = Ok false) ∧
  (∀ out ver e,
     (exec ["rustc"; "-V"] None (host w)).1 = Exited 0 out →
     PyStr.words out !! 1%nat = Some ver →
     LooseVersion_lt ver "1.42.0" = Raise e →
     (∀ p, e ≠ OSError FileNotFoundError p) →
     res.1 = Raise e) ∧
  (∀ p, res.1 ≠ Raise (OSError FileNotFoundError p)) ∧
  (∃ r, new_events w res.2 = [EvRun ["rustc"; "-V"] None r]).
Proof.
  cbv zeta. rewrite check_rust_eq. simpl. split_and!.
  - destruct ((exec ["rustc"; "-V"] None (host w)).1) as [|rc out|k] eqn:E.
    { split; [done|]. by intros (? & ? & ? & _). }
    2: { split; [by destruct k|]. by intros (? & ? & ? & _). }
    destruct (rc =? 0) eqn:Erc.
    2: { split; [done|]. intros (? & ? & ? & _); by simplify_eq. }
    apply Z.eqb_eq in Erc as ->.
    destruct (PyStr.words out !! 1%nat) as [ver|] eqn:Ew.
    2: { split; [done|]. intros (? & ? & ? & ? & _). simplify_eq; congruence. }
    change RUST_VERSION with "1.42.0".
    destruct (LooseVersion_lt ver "1.42.0") as [[]|e] eqn:Elt.
    + split; [done|]. intros (? & ? & ? & ? & ?). simplify_eq; congruence.
    + split; [|done]. intros _. by exists out, ver.
    + split.
      * destruct e as [| | | | | |k ?|]; try done. by destruct k.
      * intros (? & ? & ? & ? & ?). simplify_eq; congruence.
  - intros out ver e Hex Hw Hlt He. rewrite Hex. simpl. rewrite Hw.
    change RUST_VERSION with "1.42.0". rewrite Hlt.
    destruct e as [| | | | | |k p|]; try done.
    destruct k; try done. by destruct (He p).
  - intros p. destruct ((exec ["rustc"; "-V"] None (host w)).1) as [|rc out|k];
      [done| |by destruct k].
    destruct (rc =? 0); [|done].
    destruct (PyStr.words out !! 1%nat) as [ver|]; [|done].
    destruct (LooseVersion_lt ver RUST_VERSION) as [[]|e]; [done|done|].
    destruct e as [| | | | | |k ?|]; try done. by destruct k.
  - eexists. apply new_events_emit.
Qed.

(** X3. The version that [_check_rust] compares is the word after the
    name of the program.  When [rustc -V] prints [name ver], followed
    by nothing or by a blank and more text, the outcome is that of the
    comparison of [ver] with 1.42.0: the check passes if [ver] is not
    older, raises the [RuntimeError] that asks to upgrade Rust if it
    is, and when the comparison raises, the exception gets out, a
    [FileNotFoundError] as the [RuntimeError] that asks to install
    rustc. *)
Theorem check_rust_version_word w name ver tail :
  name ≠ "" → ver ≠ "" → no_blank name → no_blank ver → at_word_end tail →
  (exec ["rustc"; "-V"] None (host w)).1
    = Exited 0 (name +:+ " " +:+ ver +:+ tail) →
  (_check_rust exec LooseVersion_lt w).1 =
    match LooseVersion_lt ver "1.42.0" with
    | Ok true =>
        Raise (RuntimeError
          "please upgrade Rust to 1.42.0 to compile edgedb from source")
    | Ok false => Ok tt
    | Raise (OSError FileNotFoundError _) =>
        Raise (RuntimeError
          "please install rustc >= 1.42.0 to compile edgedb from source (see https://rustup.rs/)")
    | Raise e => Raise e
    end.
Proof.
  intros Hn Hv Hnn Hnv Hend H. rewrite check_rust_eq, H. simpl.
  by rewrite (words_second name ver tail Hn Hv Hnn Hnv Hend).
Qed.

End CheckRust.

(** ** [_compile_postgres] *)

Section FSMore.

Lemma makedirs_empty p :
  ∃ n', FS.makedirs p (Dir ∅) = Some n' ∧ FS.lookup n' p = Some (Dir ∅).
Proof.
  induction p as [|c p (n' & Hm & Hl)]; [by exists (Dir ∅)|].
  exists (Dir (<[c := n']> ∅)). simpl. rewrite lookup_empty. simpl.
  rewrite Hm. split; [done|]. by rewrite lookup_insert_eq.
Qed.

(** A directory that [makedirs] has to create is empty. *)
Lemma makedirs_lookup_new p n n' :
  FS.lookup n p = None → FS.makedirs p n = Some n' →
  FS.lookup n' p = Some (Dir ∅).
Proof.
  revert n n'. induction p as [|c p IH]; intros n n' Hl Hm; [done|].
  destruct n as [|m]; [done|]. simpl in Hl, Hm.
  destruct (m !! c) as [n1|] eqn:E; simpl in Hm.
  - destruct (FS.makedirs p n1) as [n2|] eqn:E2; [|done]. simplify_eq.
    simpl. rewrite lookup_insert_eq. by apply (IH n1).
  - destruct (makedirs_empty p) as (n2 & Hm2 & Hl2). rewrite Hm2 in Hm.
    simplify_eq. simpl. by rewrite lookup_insert_eq.
Qed.

End FSMore.

Section CompilePostgresMore.

Context (exec : list string → option AbsPath → Host → ExecResult * Host).
Context (ROOT_PATH : AbsPath) (system : string) (cpu_count : option Z).

Local Abbreviation compile := (_compile_postgres exec ROOT_PATH system cpu_count).

(** A rebuild on a supported system, phase by phase. *)
Lemma rebuild_trace w src w1 bs build_base
    force_build fresh_build run_configure build_contrib r w' :
  get_source_stamp exec w = (Ok src, w1) →
  get_build_stamp (stamp_path build_base) w1 = (Ok bs, w1) →
  is_outdated src bs || force_build = true →
  system = "Linux" ∨ system = "Darwin" →
  compile build_base force_build fresh_build run_configure build_contrib w
    = (r, w') →
  ∃ trp trt trw j,
    trace w' = trace w1 ++ trp ++ trt ++ trw ∧
    Forall (λ ev, ev = EvRmtree (postgres_build build_base) ∨
                  ev = EvMkdir (build_dir build_base)) trp.*1 ∧
    Forall is_run trt.*1 ∧
    Forall (λ ev, ev = EvOpenW (stamp_path build_base) ∨
                  ev = EvWrite (stamp_path build_base) src) trw.*1 ∧
    (∀ n, cpu_count = Some n → j = PyStr.of_Z (Z.max (n - 1) 1)) ∧
    (runs trt.*1).*1 `prefix_of`
      toolchain_plan ROOT_PATH build_base j (is_outdated src bs)
        fresh_build run_configure build_contrib ∧
    (r = Ok tt →
       (runs trt.*1).*1 =
         toolchain_plan ROOT_PATH build_base j (is_outdated src bs)
           fresh_build run_configure build_contrib ∧
       all_exited_0 (runs trt.*1) ∧ is_Some cpu_count ∧
       ∃ i, FS.file_at (root (host w')) (stamp_path build_base) = Some (i, src)).
Proof.
  intros Hsrc Hbs Hreb Hsys Hrun.
  destruct (rebuild_outcome _ _ _ _ _ _ _ _ _ _ _ _ _ _ _ Hsrc Hbs Hreb Hsys Hrun)
    as (rp & w2 & Hmk & Hcase).
  apply make_build_dir_outcome in Hmk as (trp & Htrp & Hevp & _).
  set (j0 := match cpu_count with
             | Some n => PyStr.of_Z (Z.max (n - 1) 1)
             | None => ""
             end).
  assert (∀ n, cpu_count = Some n → j0 = PyStr.of_Z (Z.max (n - 1) 1)) as Hj0
    by (by intros n Hn; subst j0; rewrite Hn).
  destruct Hcase as [(e & -> & -> & ->) | (-> & rt & w3 & Htc & Hcase)].
  { exists trp, [], [], j0. rewrite !app_nil_r.
    split_and!; [done|done|constructor|constructor|done|apply prefix_nil|done]. }
  apply toolchain_phase_outcome in Htc
    as (trt & j & Htrt & Hevt & Hj & Hpret & _ & Hokt & _).
  destruct Hcase as [(e & -> & -> & ->) | (-> & Hwr)].
  { exists trp, trt, [], j. rewrite !app_nil_r.
    split_and!; [by rewrite Htrt, Htrp, <-app_assoc|done|done|constructor|done|done|done]. }
  destruct (Hokt eq_refl) as (Hplan & Hall & Hcpu).
  apply write_text_outcome in Hwr
    as [(e & -> & ->) | (-> & i & n1 & Htrw & _ & Hfile)].
  { exists trp, trt, [], j. rewrite !app_nil_r.
    split_and!; [by rewrite Htrt, Htrp, <-app_assoc|done|done|constructor|done|done|done]. }
  eexists trp, trt, [_; _], j.
  split_and!; [by rewrite Htrw, Htrt, Htrp, <-!app_assoc|done|done| |done|done|].
  - simpl. constructor; [by left|]. constructor; [by right|constructor].
  - intros _. split_and!; eauto.
Qed.

Lemma runs_app3 (a b c : list (Event * node)) :
  Forall (λ ev, ¬ is_run ev) a.*1 → Forall (λ ev, ¬ is_run ev) c.*1 →
  runs (a ++ b ++ c).*1 = runs b.*1.
Proof.
  intros Ha Hc.
  by rewrite !fmap_app, !runs_app, (runs_no_run _ Ha), (runs_no_run _ Hc), app_nil_r.
Qed.

(** X4. A submodule that was never initialised stops everything.
    When the first status query prints a line that starts with [-],
    [_compile_postgres] prints the hint to run [git submodule init] and
    [update] and exits with status 1, whatever its options: the status
    query and the message are all that has happened. *)
Theorem submodule_not_initialized w rest h1 build_base
    force_build fresh_build run_configure build_contrib :
  exec git_submodule_status None (host w) = (Exited 0 (String "-" rest), h1) →
  let run :=
    compile build_base force_build fresh_build run_configure build_contrib w in
  run.1 = Raise (SystemExit 1) ∧
  new_events w run.2 =
    [EvRun git_submodule_status None (Exited 0 (String "-" rest));
     EvPrint "postgres submodule not initialized, run `git submodule init; git submodule update`"] ∧
  host run.2 = h1.
Proof.
  intros H. cbv zeta.
  unfold _compile_postgres, get_source_stamp, bind, subprocess_run. rewrite H.
  simpl. split; [done|]. split; [|done].
  unfold new_events, new_trace. simpl.
  by rewrite <-app_assoc, drop_app_length.
Qed.

(** X5. A status query that prints nothing makes [_compile_postgres]
    raise [IndexError], whatever its options, with nothing done but the
    query. *)
Theorem submodule_status_empty w h1 build_base
    force_build fresh_build run_configure build_contrib :
  exec git_submodule_status None (host w) = (Exited 0 "", h1) →
  let run :=
    compile build_base force_build fresh_build run_configure build_contrib w in
  run.1 = Raise IndexError ∧
  new_events w run.2 = [EvRun git_submodule_status None (Exited 0 "")] ∧
  host run.2 = h1.
Proof.
  intros H. cbv zeta.
  unfold _compile_postgres, get_source_stamp, bind, subprocess_run. rewrite H.
  simpl. split; [done|]. split; [|done].
  unfold new_events, new_trace. simpl. by rewrite drop_app_length.
Qed.

(** X6. The source stamp is the status character followed by the
    revision, both taken from the second status query: when the first
    query shows an initialised submodule and the second one prints the
    character [c], a revision without a space, a space and more text,
    the stamp is [c] followed by the revision. *)
Theorem source_stamp_format w c1 t1 h1 c rev rest h2 :
  exec git_submodule_status None (host w) = (Exited 0 (String c1 t1), h1) →
  c1 ≠ "-"%char →
  exec git_submodule_status None h1
    = (Exited 0 (String c (rev +:+ String " " rest)), h2) →
  " "%char ∉ PyStr.chars rev →
  (get_source_stamp exec w).1 = Ok (String c rev).
Proof.
  intros H1 Hc1 H2 Hrev.
  unfold get_source_stamp, bind, subprocess_run. rewrite H1. simpl.
  rewrite bool_decide_eq_false_2 by done. simpl. rewrite H2. simpl.
  by rewrite (partition_app _ _ _ Hrev).
Qed.

(** X7. A rebuild that completes has run the whole plan.  When
    [_compile_postgres] goes into a rebuild and returns, the system is
    Linux or Darwin, the CPU count is known, and the commands run after
    the status queries are exactly the plan (configure if due, make,
    make in contrib if due, make install, make install in contrib if
    due), each of which exited with status 0. *)
Theorem completed_rebuild_ran_plan w source_stamp w1 build_stamp build_base
    force_build fresh_build run_configure build_contrib :
  get_source_stamp exec w = (Ok source_stamp, w1) →
  get_build_stamp (stamp_path build_base) w1 = (Ok build_stamp, w1) →
  is_outdated source_stamp build_stamp || force_build = true →
  let run :=
    compile build_base force_build fresh_build run_configure build_contrib w in
  run.1 = Ok tt →
  (system = "Linux" ∨ system = "Darwin") ∧
  ∃ n, cpu_count = Some n ∧
    (runs (new_events w1 run.2)).*1 =
      toolchain_plan ROOT_PATH build_base (PyStr.of_Z (Z.max (n - 1) 1))
        (is_outdated source_stamp build_stamp)
        fresh_build run_configure build_contrib ∧
    all_exited_0 (runs (new_events w1 run.2)).
Proof.
  intros Hsrc Hbs Hreb. cbv zeta. intros Hok.
  destruct (decide (system = "Linux" ∨ system = "Darwin")) as [Hsys|Hsys].
  2: { rewrite (compile_postgres_unsupported _ _ _ _ _ _ _ _ _ _ _ _ _
                  Hsrc Hbs Hreb) in Hok by (intros ?; apply Hsys; eauto).
       done. }
  split; [done|].
  destruct (compile _ _ _ _ _ w) as [r w'] eqn:Hrun. simpl in *. subst r.
  destruct (rebuild_trace _ _ _ _ _ _ _ _ _ _ _ Hsrc Hbs Hreb Hsys Hrun)
    as (trp & trt & trw & j & Htr & Hevp & Hevt & Hevw & Hj & _ & Hdone).
  destruct (Hdone eq_refl) as (Hplan & Hall & [n Hn] & _).
  exists n. split; [done|].
  unfold new_events. rewrite (new_trace_app _ _ _ Htr), runs_app3.
  - by rewrite <-(Hj _ Hn).
  - eapply Forall_impl; [exact Hevp|]. by intros ev [-> | ->] ?.
  - eapply Forall_impl; [exact Hevw|]. by intros ev [-> | ->] ?.
Qed.

(** The trace of any run: commands, and effects below the build output
    directory. *)
Lemma compile_postgres_trace w build_base
    force_build fresh_build run_configure build_contrib r w' :
  compile build_base force_build fresh_build run_configure build_contrib w
    = (r, w') →
  ∃ tr, trace w' = trace w ++ tr ∧
    Forall (λ ev, is_run ev ∨ postgres_effect build_base ev) tr.*1.
Proof.
  destruct (get_source_stamp exec w) as [[src|e] w1] eqn:Hsrc.
  2: { unfold _compile_postgres, bind. rewrite Hsrc. intros ?; simplify_eq.
       apply get_source_stamp_outcome in Hsrc as (tr & Htr & Hev & _).
       exists tr. split; [done|]. eapply Forall_impl; [exact Hev|].
       intros ev [?|[m ->]]; [by left|right; left; eauto]. }
  pose proof (get_source_stamp_outcome _ _ _ _ Hsrc) as (trg & Htrg & Hevg & _).
  assert (Forall (λ ev, is_run ev ∨ postgres_effect build_base ev) trg.*1) as Hg.
  { eapply Forall_impl; [exact Hevg|].
    intros ev [?|[m ->]]; [by left|right; left; eauto]. }
  pose proof (get_build_stamp_eq (stamp_path build_base) w1) as Hbs.
  destruct (FS.lookup (root (host w1)) (stamp_path build_base)) as [[i d|m]|] eqn:El.
  2: { unfold _compile_postgres, bind. rewrite Hsrc.
       unfold stamp_path in Hbs. rewrite Hbs. intros ?; simplify_eq.
       by exists trg. }
  all: match type of Hbs with _ = (Ok ?b, _) => set (bs := b) in * end.
  all: destruct (is_outdated src bs || force_build) eqn:Hreb.
  2, 4: rewrite (compile_postgres_current _ _ _ _ _ _ _ _ _ _ _ _ _ Hsrc Hbs Hreb);
    intros ?; simplify_eq; by exists trg.
  all: destruct (decide (system = "Linux" ∨ system = "Darwin")) as [Hsys|Hsys].
  2, 4: rewrite (compile_postgres_unsupported _ _ _ _ _ _ _ _ _ _ _ _ _
                   Hsrc Hbs Hreb) by (intros ?; apply Hsys; eauto);
    intros ?; simplify_eq; by exists trg.
  all: intros Hrun;
    destruct (rebuild_trace _ _ _ _ _ _ _ _ _ _ _ Hsrc Hbs Hreb Hsys Hrun)
      as (trp & trt & trw & j & Htr & Hevp & Hevt & Hevw & _);
    exists (trg ++ trp ++ trt ++ trw);
    (split; [by rewrite Htr, Htrg, <-!app_assoc|]);
    rewrite !fmap_app; repeat apply Forall_app_2; try done.
  all: try (eapply Forall_impl; [exact Hevp|];
            intros ev [-> | ->]; right; unfold postgres_effect; eauto).
  all: try (eapply Forall_impl; [exact Hevt|]; intros ev ?; by left).
  all: eapply Forall_impl; [exact Hevw|];
    intros ev [-> | ->]; right; unfold postgres_effect; eauto 10.
Qed.

(** What the steps of [_compile_postgres] leave alone. *)
Lemma subprocess_run_invariant (P : Host → Prop) argv dir check w r w' :
  (∀ argv cwd h, P h → P (exec argv cwd h).2) →
  P (host w) →
  subprocess_run exec argv dir check w = (r, w') →
  P (host w').
Proof.
  intros Hexec HP H.
  apply subprocess_run_trace in H
    as (res & _ & [[_ E] | (k & _ & _ & -> & _)]); [|done].
  specialize (Hexec argv dir (host w) HP). by rewrite E in Hexec.
Qed.

Lemma get_source_stamp_invariant (P : Host → Prop) w r w1 :
  (∀ argv cwd h, P h → P (exec argv cwd h).2) →
  P (host w) →
  get_source_stamp exec w = (r, w1) →
  P (host w1).
Proof.
  intros Hexec HP.
  unfold get_source_stamp, bind, str_index0, sys_exit, raise, ret, print.
  destruct (subprocess_run exec _ _ _ w) as [[p1|?] wa] eqn:E1;
    apply (subprocess_run_invariant P _ _ _ _ _ _ Hexec HP) in E1;
    [|by intros ?; simplify_eq].
  destruct (PyStr.first_char (cp_stdout p1)); [|by intros ?; simplify_eq].
  destruct (bool_decide _); simpl; [by intros ?; simplify_eq|].
  destruct (subprocess_run exec _ _ _ wa) as [[p2|?] wb] eqn:E2;
    apply (subprocess_run_invariant P _ _ _ _ _ _ Hexec E1) in E2;
    [|by intros ?; simplify_eq].
  destruct (PyStr.partition _ _) as [[? ?] ?].
  destruct (PyStr.first_char (cp_stdout p2)); by intros ?; simplify_eq.
Qed.

Lemma shutil_rmtree_frame p w r w' :
  shutil_rmtree p w = (r, w') →
  ∀ t, ¬ p `prefix_of` t →
    FS.file_at (root (host w')) t = FS.file_at (root (host w)) t ∧
    FS.is_dir (root (host w')) t = FS.is_dir (root (host w)) t.
Proof.
  unfold shutil_rmtree.
  destruct (FS.lookup (root (host w)) p) as [[i d|m]|];
    [by intros ?; simplify_eq| |by intros ?; simplify_eq].
  destruct (FS.remove p (root (host w))) as [r'|] eqn:E;
    [|by intros ?; simplify_eq].
  intros ? t Ht; simplify_eq. simpl.
  split; [by apply remove_file_at with p|by apply remove_is_dir with p].
Qed.

Lemma make_build_dir_frame fresh_build build_base w r w2 :
  make_build_dir fresh_build (postgres_build build_base) w = (r, w2) →
  (∀ t, ¬ postgres_build build_base `prefix_of` t →
     FS.file_at (root (host w2)) t = FS.file_at (root (host w)) t) ∧
  (∀ t, ¬ postgres_build build_base `prefix_of` t →
     ¬ t `prefix_of` build_dir build_base →
     FS.is_dir (root (host w2)) t = FS.is_dir (root (host w)) t).
Proof.
  unfold make_build_dir, build_dir, postgres_build.
  set (pb := build_base ++ ["postgres"]). intros H.
  apply bind_outcome in H as [(e & Hc & ->) | (e1 & wa & Hc & H)];
    unfold path_exists in Hc; [done|]. injection Hc as <- <-.
  assert (∀ wb rb,
    (if fresh_build && FS.exists_ (root (host w)) pb
     then shutil_rmtree pb else ret tt) w = (rb, wb) →
    ∀ t, ¬ pb `prefix_of` t →
      FS.file_at (root (host wb)) t = FS.file_at (root (host w)) t ∧
      FS.is_dir (root (host wb)) t = FS.is_dir (root (host w)) t) as Hrm.
  { intros wb rb Hb. destruct (fresh_build && _).
    - by apply shutil_rmtree_frame with rb.
    - unfold ret in Hb. by simplify_eq. }
  apply bind_outcome in H as [(e & Hb & ->) | ([] & wb & Hb & H)];
    specialize (Hrm _ _ Hb).
  { split; intros t Ht; [|intros _]; by destruct (Hrm t Ht). }
  apply bind_outcome in H as [(e & Hc & ->) | (e2 & wc & Hc & H)];
    unfold path_exists in Hc; [done|]. injection Hc as <- <-.
  destruct (negb (FS.exists_ (root (host wb)) (pb ++ ["build"]))).
  - apply mkdir_parents_outcome in H as (_ & _ & _ & Hfile & Hlook). split.
    + intros t Ht. rewrite Hfile. by destruct (Hrm t Ht).
    + intros t Ht Hanc. unfold FS.is_dir at 1. rewrite (Hlook t Hanc).
      by destruct (Hrm t Ht).
  - unfold ret in H. simplify_eq.
    split; intros t Ht; [|intros _]; by destruct (Hrm t Ht).
Qed.

Lemma write_text_frame p s w r w' :
  write_text p s w = (r, w') →
  ∀ t, ¬ p `prefix_of` t →
    FS.file_at (root (host w')) t = FS.file_at (root (host w)) t ∧
    FS.is_dir (root (host w')) t = FS.is_dir (root (host w)) t.
Proof.
  intros H t Ht. unfold write_text in H.
  assert (∀ wa ra, open_w p w = (ra, wa) →
    FS.file_at (root (host wa)) t = FS.file_at (root (host w)) t ∧
    FS.is_dir (root (host wa)) t = FS.is_dir (root (host w)) t) as Hopen.
  { intros wa ra. unfold open_w.
    destruct (FS.lookup (root (host w)) p) as [[i d|m]|];
      [|by intros ?; simplify_eq|];
      (destruct (FS.put p _ (root (host w))) as [r'|] eqn:E;
       [|by intros ?; simplify_eq]);
      intros ?; simplify_eq; simpl;
      (split; [exact (put_file_at _ _ _ _ _ E Ht)
              |exact (put_is_dir _ _ _ _ _ E Ht)]). }
  apply bind_outcome in H as [(e & Ho & ->) | (i & wa & Ho & H)];
    destruct (Hopen _ _ Ho) as [Hf Hd]; [done|].
  unfold write_close in H.
  destruct (FS.put p (File i s) (root (host wa))) as [r'|] eqn:E;
    simplify_eq; [|done]. simpl.
  split.
  - by rewrite (put_file_at _ _ _ _ _ E Ht).
  - by rewrite (put_is_dir _ _ _ _ _ E Ht).
Qed.

(** A property of the file system that the external commands, the
    preparation of the build directory and the writing of the stamp
    keep is kept by [_compile_postgres]. *)
Lemma compile_postgres_invariant (Q : node → Prop) w build_base
    force_build fresh_build run_configure build_contrib r w' :
  (∀ argv cwd h, Q (root h) → Q (root (exec argv cwd h).2)) →
  (∀ wa ra wb,
     make_build_dir fresh_build (postgres_build build_base) wa = (ra, wb) →
     Q (root (host wa)) → Q (root (host wb))) →
  (∀ s wa ra wb,
     write_text (stamp_path build_base) s wa = (ra, wb) →
     Q (root (host wa)) → Q (root (host wb))) →
  Q (root (host w)) →
  compile build_base force_build fresh_build run_configure build_contrib w
    = (r, w') →
  Q (root (host w')).
Proof.
  intros Hexec Hmk Hwr HQ.
  destruct (get_source_stamp exec w) as [[src|e] w1] eqn:Hsrc;
    pose proof (get_source_stamp_invariant (λ h, Q (root h)) _ _ _ Hexec HQ Hsrc)
      as HQ1; simpl in HQ1.
  2: { unfold _compile_postgres, bind. rewrite Hsrc. by intros ?; simplify_eq. }
  pose proof (get_build_stamp_eq (stamp_path build_base) w1) as Hbs.
  destruct (FS.lookup (root (host w1)) (stamp_path build_base)) as [[i d|m]|] eqn:El.
  2: { unfold _compile_postgres, bind. rewrite Hsrc.
       unfold stamp_path in Hbs. rewrite Hbs. by intros ?; simplify_eq. }
  all: match type of Hbs with _ = (Ok ?b, _) => set (bs := b) in * end.
  all: destruct (is_outdated src bs || force_build) eqn:Hreb.
  2, 4: rewrite (compile_postgres_current _ _ _ _ _ _ _ _ _ _ _ _ _ Hsrc Hbs Hreb);
    by intros ?; simplify_eq.
  all: destruct (decide (system = "Linux" ∨ system = "Darwin")) as [Hsys|Hsys].
  2, 4: rewrite (compile_postgres_unsupported _ _ _ _ _ _ _ _ _ _ _ _ _
                   Hsrc Hbs Hreb) by (intros ?; apply Hsys; eauto);
    by intros ?; simplify_eq.
  all: intros Hrun;
    destruct (rebuild_outcome _ _ _ _ _ _ _ _ _ _ _ _ _ _ _ Hsrc Hbs Hreb Hsys Hrun)
      as (rp & w2 & Hmk2 & Hcase);
    pose proof (Hmk _ _ _ Hmk2 HQ1) as HQ2;
    destruct Hcase as [(e & -> & -> & ->) | (-> & rt & w3 & Htc & Hcase)];
      [done|];
    pose proof (toolchain_phase_invariant _ _ _ (λ h, Q (root h))
                  _ _ _ _ _ _ _ _ Hexec HQ2 Htc) as HQ3; simpl in HQ3;
    destruct Hcase as [(e & -> & -> & ->) | (-> & Hw)]; [done|];
    exact (Hwr _ _ _ _ Hw HQ3).
Qed.

Lemma stamp_not_below build_base t :
  ¬ postgres_build build_base `prefix_of` t →
  ¬ stamp_path build_base `prefix_of` t.
Proof.
  intros Ht Hs. apply Ht. etrans; [|exact Hs].
  unfold stamp_path, postgres_build. by apply prefix_app_r.
Qed.

(** X8. What [_compile_postgres] itself does.  In any run, whatever the
    options and however it ends, every entry of the trace is an
    external command, a printed message, the removal of the build
    output directory [build_base/postgres], the creation of its [build]
    directory, or the opening or the writing of the stamp file.
    Outside [build_base/postgres] a regular file that the external
    commands leave alone is there afterwards as it was before, with the
    same content, and none appears; and a path that the external
    commands neither make nor unmake a directory is a directory
    afterwards exactly when it was before, unless it leads to the
    [build] directory: [mkdir(parents=True)] creates [build_base] and
    its ancestors when they are missing. *)
Theorem compile_postgres_footprint w build_base
    force_build fresh_build run_configure build_contrib :
  let run :=
    compile build_base force_build fresh_build run_configure build_contrib w in
  Forall (λ ev, is_run ev ∨ postgres_effect build_base ev) (new_events w run.2) ∧
  (∀ t, ¬ postgres_build build_base `prefix_of` t →
     (∀ argv cwd h,
        FS.file_at (root (exec argv cwd h).2) t = FS.file_at (root h) t) →
     FS.file_at (root (host run.2)) t = FS.file_at (root (host w)) t) ∧
  (∀ t, ¬ postgres_build build_base `prefix_of` t →
     ¬ t `prefix_of` build_dir build_base →
     (∀ argv cwd h,
        FS.is_dir (root (exec argv cwd h).2) t = FS.is_dir (root h) t) →
     FS.is_dir (root (host run.2)) t = FS.is_dir (root (host w)) t).
Proof.
  cbv zeta. destruct (compile _ _ _ _ _ w) as [r w'] eqn:Hrun. simpl.
  split_and!.
  - apply compile_postgres_trace in Hrun as (tr & Htr & Hev).
    by rewrite (new_events_app _ _ _ Htr).
  - intros t Ht Hexec.
    apply (compile_postgres_invariant
             (λ n, FS.file_at n t = FS.file_at (root (host w)) t)
             _ _ _ _ _ _ _ _) with (5 := Hrun); [| | |done].
    + intros argv dir h Hh. by rewrite Hexec.
    + intros wa ra wb Hmk Ha.
      destruct (make_build_dir_frame _ _ _ _ _ Hmk) as [Hf _].
      by rewrite (Hf t Ht).
    + intros s wa ra wb Hw Ha.
      destruct (write_text_frame _ _ _ _ _ Hw t (stamp_not_below _ _ Ht)) as [Hf _].
      by rewrite Hf.
  - intros t Ht Hanc Hexec.
    apply (compile_postgres_invariant
             (λ n, FS.is_dir n t = FS.is_dir (root (host w)) t)
             _ _ _ _ _ _ _ _) with (5 := Hrun); [| | |done].
    + intros argv dir h Hh. by rewrite Hexec.
    + intros wa ra wb Hmk Ha.
      destruct (make_build_dir_frame _ _ _ _ _ Hmk) as [_ Hd].
      by rewrite (Hd t Ht Hanc).
    + intros s wa ra wb Hw Ha.
      destruct (write_text_frame _ _ _ _ _ Hw t (stamp_not_below _ _ Ht)) as [_ Hd].
      by rewrite Hd.
Qed.

(** X9. A completed rebuild makes the next invocation a no-op.  When a
    rebuild has completed and the external commands leave the stamp
    file alone, an unforced invocation that reads the same source stamp
    returns right after its two status queries, whatever its other
    options. *)
Theorem rebuild_then_current w source_stamp w1 build_stamp build_base
    force_build fresh_build run_configure build_contrib w1' :
  get_source_stamp exec w = (Ok source_stamp, w1) →
  get_build_stamp (stamp_path build_base) w1 = (Ok build_stamp, w1) →
  is_outdated source_stamp build_stamp || force_build = true →
  exec_preserves exec (stamp_path build_base) →
  let run :=
    compile build_base force_build fresh_build run_configure build_contrib w in
  run.1 = Ok tt →
  get_source_stamp exec run.2 = (Ok source_stamp, w1') →
  get_build_stamp (stamp_path build_base) w1' = (Ok (Some source_stamp), w1') ∧
  ∀ fresh_build' run_configure' build_contrib',
    compile build_base false fresh_build' run_configure' build_contrib' run.2
      = (Ok tt, w1').
Proof.
  intros Hsrc Hbs Hreb Hexec. cbv zeta. intros Hok Hsrc'.
  destruct (decide (system = "Linux" ∨ system = "Darwin")) as [Hsys|Hsys].
  2: { rewrite (compile_postgres_unsupported _ _ _ _ _ _ _ _ _ _ _ _ _
                  Hsrc Hbs Hreb) in Hok by (intros ?; apply Hsys; eauto).
       done. }
  destruct (compile _ _ _ _ _ w) as [r w'] eqn:Hrun. simpl in *. subst r.
  destruct (rebuild_trace _ _ _ _ _ _ _ _ _ _ _ Hsrc Hbs Hreb Hsys Hrun)
    as (trp & trt & trw & j & _ & _ & _ & _ & _ & _ & Hdone).
  destruct (Hdone eq_refl) as (_ & _ & _ & i & Hfile).
  apply file_at_lookup in Hfile.
  pose proof (get_source_stamp_outcome _ _ _ _ Hsrc') as (trq & _ & _ & _ & _ & Hq).
  destruct (Hq _ eq_refl) as (_ & o1 & o2 & _ & Hhost).
  assert (FS.lookup (root (host w1')) (stamp_path build_base)
          = Some (File i source_stamp)) as Hl
    by (by rewrite Hhost, !Hexec).
  assert (get_build_stamp (stamp_path build_base) w1'
          = (Ok (Some source_stamp), w1')) as Hbs'
    by (by rewrite get_build_stamp_eq, Hl).
  split; [done|]. intros fr' rc' bc'.
  apply (compile_postgres_current _ _ _ _ _ _ _ _ _ _ _ _ _ Hsrc' Hbs').
  unfold is_outdated. by rewrite bool_decide_eq_true_2.
Qed.

(** X24. A directory in the place of the stamp file.  When the stamp
    path holds a directory, [_compile_postgres] raises
    [IsADirectoryError] for it right after the status queries, whatever
    its options: nothing is built, forced or not. *)
Theorem stamp_path_is_directory w source_stamp w1 m build_base
    force_build fresh_build run_configure build_contrib :
  get_source_stamp exec w = (Ok source_stamp, w1) →
  FS.lookup (root (host w1)) (stamp_path build_base) = Some (Dir m) →
  compile build_base force_build fresh_build run_configure build_contrib w
    = (Raise (OSError IsADirectoryError (stamp_path build_base)), w1).
Proof.
  intros Hsrc Hl. unfold _compile_postgres, bind. rewrite Hsrc.
  pose proof (get_build_stamp_eq (stamp_path build_base) w1) as Hbs.
  rewrite Hl in Hbs. unfold stamp_path in Hbs. by rewrite Hbs.
Qed.

(** X25. An unknown CPU count.  When [os.cpu_count()] returns [None],
    a rebuild on Linux or Darwin never starts [make]: the commands run
    after the status queries are at most the configure step, the run
    does not complete, and when the build directory could be prepared
    and every command that ran exited with status 0 the run ends in
    [TypeError].  A configure step that could not be started, for want
    of the program or of a directory to run it in, is among the
    commands that ran and did not exit with status 0: such a run ends
    in the error of the failed start. *)
Theorem unknown_cpu_count w source_stamp w1 build_stamp build_base
    force_build fresh_build run_configure build_contrib :
  get_source_stamp exec w = (Ok source_stamp, w1) →
  get_build_stamp (stamp_path build_base) w1 = (Ok build_stamp, w1) →
  is_outdated source_stamp build_stamp || force_build = true →
  system = "Linux" ∨ system = "Darwin" →
  cpu_count = None →
  let run :=
    compile build_base force_build fresh_build run_configure build_contrib w in
  let ran := runs (new_events w1 run.2) in
  ran.*1 `prefix_of`
    configure_steps ROOT_PATH build_base
      (is_outdated source_stamp build_stamp) fresh_build run_configure ∧
  run.1 ≠ Ok tt ∧
  ((make_build_dir fresh_build (postgres_build build_base) w1).1 = Ok tt →
   all_exited_0 ran → run.1 = Raise TypeError).
Proof.
  intros Hsrc Hbs Hreb Hsys Hcpu. cbv zeta.
  destruct (compile _ _ _ _ _ w) as [r w'] eqn:Hrun. simpl.
  destruct (rebuild_outcome _ _ _ _ _ _ _ _ _ _ _ _ _ _ _ Hsrc Hbs Hreb Hsys Hrun)
    as (rp & w2 & Hmk & Hcase).
  rewrite Hmk. simpl.
  apply make_build_dir_no_run in Hmk as (trp & Htrp & Hrp).
  destruct Hcase as [(e & -> & -> & ->) | (-> & rt & w3 & Htc & Hcase)].
  { rewrite (new_events_app _ _ _ Htrp), Hrp.
    split_and!; [apply prefix_nil|done|done]. }
  unfold toolchain_phase in Htc. rewrite Hcpu in Htc.
  apply bind_outcome in Htc as [(e & Hm & ->) | ([] & wa & Hm & Hj)];
    apply run_pipeline_outcome in Hm as (tr1 & Htr1 & _ & Hout).
  - destruct Hcase as [(e' & ? & -> & ->) | (? & _)]; [|done]. simplify_eq.
    rewrite (new_events_app _ _ (trp ++ tr1))
      by (by rewrite Htr1, Htrp, <-app_assoc).
    rewrite fmap_app, runs_app, Hrp, app_nil_l.
    split_and!; [by apply (pipeline_outcome_prefix _ _ _ Hout)|done|].
    intros _ Hall.
    apply pipeline_outcome_raise in Hout as (c & res & Hlast & Hres).
    apply last_Some in Hlast as [l' Hl']. rewrite Hl' in Hall.
    apply Forall_app in Hall as [_ Hall]. apply Forall_cons in Hall as [[out Ho] _].
    simpl in Ho.
    destruct Hres as [[-> _]|[(rc & out' & -> & Hrc & _)|(k & -> & _)]];
      by simplify_eq.
  - unfold jobs, bind, raise in Hj. simplify_eq.
    destruct Hcase as [(e' & ? & -> & ->) | (? & _)]; [|done]. simplify_eq.
    rewrite (new_events_app _ _ (trp ++ tr1))
      by (by rewrite Htr1, Htrp, <-app_assoc).
    rewrite fmap_app, runs_app, Hrp, app_nil_l.
    split_and!; [by apply (pipeline_outcome_prefix _ _ _ Hout)|done|done].
Qed.

(** X28. A regular file in the place of the build directory.  In a
    rebuild on Linux or Darwin that is not fresh, when
    [build_base/postgres/build] is a regular file and the configure
    step is due, the preparation leaves the file where it is and the
    configure step is not started: the run ends in
    [NotADirectoryError] for the build directory, and the failed start
    is all that has happened after the status queries. *)
Theorem build_dir_is_a_file w source_stamp w1 build_stamp build_base
    force_build run_configure build_contrib i d :
  get_source_stamp exec w = (Ok source_stamp, w1) →
  get_build_stamp (stamp_path build_base) w1 = (Ok build_stamp, w1) →
  is_outdated source_stamp build_stamp || force_build = true →
  system = "Linux" ∨ system = "Darwin" →
  FS.file_at (root (host w1)) (build_dir build_base) = Some (i, d) →
  run_configure || is_outdated source_stamp build_stamp = true →
  let run :=
    compile build_base force_build false run_configure build_contrib w in
  run.1 = Raise (OSError NotADirectoryError (build_dir build_base)) ∧
  new_events w1 run.2 =
    [EvRun (configure_cmd ROOT_PATH build_base).1 (Some (build_dir build_base))
       (NoCwd NotADirectoryError)] ∧
  host run.2 = host w1.
Proof.
  intros Hsrc Hbs Hreb Hsys Hfile Hdue. cbv zeta.
  assert (FS.lookup (root (host w1)) (build_dir build_base) = Some (File i d))
    as Hl.
  { unfold FS.file_at in Hfile.
    destruct (FS.lookup (root (host w1)) (build_dir build_base)) as [[]|];
      by simplify_eq. }
  assert (make_build_dir false (postgres_build build_base) w1 = (Ok tt, w1))
    as Hmk.
  { unfold make_build_dir, bind, path_exists, ret. simpl.
    unfold build_dir, postgres_build in Hl. unfold postgres_build, FS.exists_.
    by rewrite Hl. }
  assert (compile build_base force_build false run_configure build_contrib w
          = (Raise (OSError NotADirectoryError (build_dir build_base)),
             emit (EvRun (configure_cmd ROOT_PATH build_base).1
                     (Some (build_dir build_base)) (NoCwd NotADirectoryError))
               (host w1) w1)) as ->.
  { rewrite (compile_postgres_rebuild _ _ _ _ _ _ _ _ _ _ _ _ _ Hsrc Hbs Hreb Hsys).
    unfold bind. rewrite Hmk.
    unfold toolchain_phase, configure_steps.
    replace (run_configure || false || is_outdated source_stamp build_stamp)
      with true by (by destruct run_configure).
    unfold bind. cbn [run_pipeline].
    unfold bind, subprocess_run, configure_cmd, cwd_error. by rewrite Hl. }
  simpl. split; [done|]. split; [|done]. apply new_events_emit.
Qed.

(** X10. The preparation of the build directory.  When it completes,
    the [build] directory exists; in a fresh build it is a new, empty
    directory; in a build that is not fresh an existing [build]
    directory is left as it is, and nothing at all is done. *)
Theorem build_dir_after_preparation fresh_build build_base w w2 :
  make_build_dir fresh_build (postgres_build build_base) w = (Ok tt, w2) →
  FS.exists_ (root (host w2)) (build_dir build_base) = true ∧
  (fresh_build = true →
     FS.lookup (root (host w2)) (build_dir build_base) = Some (Dir ∅)) ∧
  (fresh_build = false →
     FS.exists_ (root (host w)) (build_dir build_base) = true → w2 = w).
Proof.
  unfold make_build_dir, build_dir, postgres_build.
  set (pb := build_base ++ ["postgres"]).
  assert (pb ≠ []) as Hpb by (subst pb; by destruct build_base).
  assert (∀ wa w2,
    (let! e := path_exists (pb ++ ["build"]) in
     if negb e then mkdir_parents (pb ++ ["build"]) false else ret tt) wa
      = (Ok tt, w2) →
    FS.exists_ (root (host w2)) (pb ++ ["build"]) = true ∧
    (FS.lookup (root (host wa)) (pb ++ ["build"]) = None →
     FS.lookup (root (host w2)) (pb ++ ["build"]) = Some (Dir ∅)) ∧
    (FS.exists_ (root (host wa)) (pb ++ ["build"]) = true → w2 = wa)) as Hmk.
  { intros wa w2'. unfold bind, path_exists, mkdir_parents, FS.exists_, ret.
    destruct (FS.lookup (root (host wa)) (pb ++ ["build"])) as [x|] eqn:El; simpl.
    - intros ?; simplify_eq. by rewrite El.
    - rewrite El.
      destruct (FS.makedirs (pb ++ ["build"]) (root (host wa))) as [r1|] eqn:Em;
        intros ?; simplify_eq.
      simpl. rewrite (makedirs_lookup_new _ _ _ El Em). done. }
  unfold bind at 1. unfold path_exists at 1. cbv beta iota.
  unfold bind at 1.
  destruct fresh_build; simpl.
  - unfold FS.exists_, shutil_rmtree.
    destruct (FS.lookup (root (host w)) pb) as [[i d|m]|] eqn:El; simpl.
    + rewrite El. done.
    + rewrite El.
      destruct (remove_total pb _ _ Hpb El) as [r1 Er]. rewrite Er.
      intros H. apply Hmk in H as (He & Hnew & _). simpl in Hnew.
      split; [done|]. split; [|done]. intros _. apply Hnew.
      apply (remove_lookup_below _ _ _ _ Er).
    + unfold ret. intros H. apply Hmk in H as (He & Hnew & _).
      split; [done|]. split; [|done]. intros _. apply Hnew.
      by rewrite lookup_app, El.
  - unfold ret. intros H. apply Hmk in H as (He & _ & Hsame).
    split; [done|]. split; [done|]. intros _. apply Hsame.
Qed.

End CompilePostgresMore.

(** ** [build_postgres] *)

Section BuildPostgres.

Context (exec : list string → option AbsPath → Host → ExecResult * Host).
Context (ROOT_PATH : AbsPath) (system : string) (cpu_count : option Z).
Context (cwd : AbsPath).

(** X11. [build_postgres] rebuilds a target that is up to date.  With
    the options as [initialize_options] leaves them and a stamp file
    that holds the source stamp, [run] does not return at once as an
    unforced invocation would: on a system other than Linux and Darwin
    it raises [NotImplementedError]; on Linux and Darwin the commands
    it runs after the status queries are [make] and [make install], in
    this order and stopping at the first failure, without the configure
    and contrib steps; and when it completes both have run and the
    stamp file holds the source stamp again. *)
Theorem build_postgres_rebuilds_current w source_stamp w1 build_base :
  let bb := PurePath.locate cwd (PurePath.of_string build_base) in
  get_source_stamp exec w = (Ok source_stamp, w1) →
  get_build_stamp (stamp_path bb) w1 = (Ok (Some source_stamp), w1) →
  let run :=
    build_postgres.run exec ROOT_PATH system cpu_count cwd
      build_postgres.initialize_options build_base w in
  (system ≠ "Linux" → system ≠ "Darwin" →
   run = (Raise (NotImplementedError ("unsupported system: " +:+ system)), w1)) ∧
  (system = "Linux" ∨ system = "Darwin" →
   ∃ j, (∀ n, cpu_count = Some n → j = PyStr.of_Z (Z.max (n - 1) 1)) ∧
     (runs (new_events w1 run.2)).*1 `prefix_of` [make_cmd bb j; install_cmd bb] ∧
     (run.1 = Ok tt →
        (runs (new_events w1 run.2)).*1 = [make_cmd bb j; install_cmd bb] ∧
        ∃ i, FS.file_at (root (host run.2)) (stamp_path bb)
             = Some (i, source_stamp))).
Proof.
  intros bb Hsrc Hbs. cbv zeta. unfold build_postgres.run. fold bb.
  cbn [build_postgres.fresh_build build_postgres.configure
       build_postgres.build_contrib build_postgres.initialize_options].
  assert (is_outdated source_stamp (Some source_stamp) = false) as Hcur
    by (unfold is_outdated; by rewrite bool_decide_eq_true_2).
  assert (is_outdated source_stamp (Some source_stamp) || true = true) as Hreb
    by (by rewrite orb_true_r).
  split.
  - intros H1 H2.
    apply (compile_postgres_unsupported _ _ _ _ _ _ _ _ _ _ _ _ _ Hsrc Hbs Hreb H1 H2).
  - intros Hsys.
    destruct (_compile_postgres exec ROOT_PATH system cpu_count bb
                true false false false w) as [r w'] eqn:Hrun.
    destruct (rebuild_trace _ _ _ _ _ _ _ _ _ _ _ _ _ _ _ Hsrc Hbs Hreb Hsys Hrun)
      as (trp & trt & trw & j & Htr & Hevp & Hevt & Hevw & Hj & Hpre & Hdone).
    rewrite Hcur in Hpre, Hdone.
    assert (runs (new_events w1 w') = runs trt.*1) as Hruns.
    { unfold new_events. rewrite (new_trace_app _ _ _ Htr). apply runs_app3.
      - eapply Forall_impl; [exact Hevp|]. by intros ev [-> | ->] ?.
      - eapply Forall_impl; [exact Hevw|]. by intros ev [-> | ->] ?. }
    exists j. simpl. rewrite Hruns. split; [done|]. split; [exact Hpre|].
    intros Hok. destruct (Hdone Hok) as (Hplan & _ & _ & Hfile). by split.
Qed.

End BuildPostgres.

(** ** [_compile_parsers]: what it touches *)

Section ParserTrace.

Context (ROOT_PATH cwd : AbsPath).
Context (edgeql_spec edgeql_spec2 schema_spec : PyModule).
Context (parsing_Spec : PyModule → AbsPath → Host → Result unit * Host).

Lemma shutil_copy2_outcome src dst w r w' :
  shutil_copy2 src dst w = (r, w') →
  (∃ e, r = Raise e ∧ w' = w) ∨
  (r = Ok tt ∧ ∃ dst' n,
     (dst' = dst ∨ dst' = dst ++ [default "" (last src)]) ∧
     trace w' = trace w ++ [(EvCopyfile src dst', n)] ∧
     ∃ i d j, FS.file_at (root (host w)) src = Some (i, d) ∧
              FS.file_at (root (host w')) dst' = Some (j, d)).
Proof.
  unfold shutil_copy2. destruct (FS.is_dir (root (host w)) dst); intros H;
    apply shutil_copyfile_outcome in H
      as [?|(-> & [n Htr] & _ & (i & d & j & Hs & Hd & _) & _)]; eauto 15.
Qed.

Lemma parser_round_trace p m c (inplace : bool) a b wa r wb :
  (mkdir_parents p true >>
   call_parsing_Spec cwd parsing_Spec m c >>
   if inplace then shutil_copy2 a b else ret tt) wa = (r, wb) →
  ∃ tr, trace wb = trace wa ++ tr ∧ Forall parser_effect tr.*1.
Proof.
  intros H. apply bind_outcome in H as [(e & Hm & ->) | ([] & w1 & Hm & H)];
    apply mkdir_parents_outcome in Hm as (_ & (tr1 & Htr1 & Hev1) & _).
  all: assert (Forall parser_effect tr1.*1) as Hp1
    by (eapply Forall_impl; [exact Hev1|]; intros ev ->; left; eauto).
  { by exists tr1. }
  unfold bind, call_parsing_Spec in H.
  destruct (parsing_Spec m (PurePath.locate cwd c) (host w1)) as [r2 h2].
  set (e2 := (EvParsingSpec (__name__ m) (PurePath.locate cwd c), root h2)) in *.
  assert (Forall parser_effect (tr1 ++ [e2]).*1) as Hp2.
  { rewrite fmap_app. apply Forall_app. split; [done|].
    constructor; [|constructor]. right. left. subst e2. simpl. eauto. }
  destruct r2 as [[]|e].
  2: { simplify_eq. exists (tr1 ++ [e2]). simpl.
       split; [by rewrite Htr1, <-app_assoc|done]. }
  destruct inplace.
  - apply shutil_copy2_outcome in H
      as [(e & -> & ->) | (-> & dst' & n & _ & Htr3 & _)].
    + exists (tr1 ++ [e2]). simpl. split; [by rewrite Htr1, <-app_assoc|done].
    + exists ((tr1 ++ [e2]) ++ [(EvCopyfile a dst', n)]).
      split; [rewrite Htr3; simpl; by rewrite Htr1, <-!app_assoc|].
      rewrite fmap_app. apply Forall_app. split; [done|].
      constructor; [|constructor]. right. right. simpl. eauto.
  - unfold ret in H. simplify_eq. exists (tr1 ++ [e2]). simpl.
    split; [by rewrite Htr1, <-app_assoc|done].
Qed.

Lemma parser_loop_trace (l : list PyModule) build_lib (inplace : bool) w r w' :
  for_each l
    (λ spec,
       let spec_path := PurePath.parent (PurePath.of_string (__file__ spec)) in
       let subpath :=
         PurePath.of_string
           (PyStr.slice_from
              (String.length (PurePath.str (PurePath.of_abs ROOT_PATH)) + 1)
              (PurePath.str spec_path)) in
       let pickle_name := (PyStr.rpartition "." (__name__ spec)).2 +:+ ".pickle" in
       let pickle_path := PurePath.child subpath pickle_name in
       let cache := PurePath.truediv build_lib pickle_path in
       mkdir_parents (PurePath.locate cwd (PurePath.parent cache)) true >>
       call_parsing_Spec cwd parsing_Spec spec cache >>
       if inplace then
         shutil_copy2 (PurePath.locate cwd cache)
           (PurePath.locate cwd
              (PurePath.truediv (PurePath.of_abs ROOT_PATH) pickle_path))
       else ret tt) w = (r, w') →
  ∃ tr, trace w' = trace w ++ tr ∧ Forall parser_effect tr.*1.
Proof.
  revert w. induction l as [|m l IH]; intros w.
  - simpl. unfold ret. intros ?; simplify_eq. exists []. by rewrite app_nil_r.
  - cbn [for_each]. intros H.
    apply bind_outcome in H as [(e & Hm & ->) | ([] & w1 & Hm & H)];
      apply parser_round_trace in Hm as (tr1 & Htr1 & Hev1).
    + by exists tr1.
    + apply IH in H as (tr2 & Htr2 & Hev2). exists (tr1 ++ tr2).
      split; [by rewrite Htr2, Htr1, <-app_assoc|].
      rewrite fmap_app. by apply Forall_app.
Qed.

Lemma compile_parsers_trace build_lib inplace w r w' :
  _compile_parsers ROOT_PATH edgeql_spec edgeql_spec2 schema_spec cwd
    parsing_Spec build_lib inplace w = (r, w') →
  ∃ tr, trace w' = trace w ++ tr ∧ Forall parser_effect tr.*1.
Proof. apply parser_loop_trace. Qed.

(** X12. What [_compile_parsers] does.  In any run, whatever the file
    system holds and however the run ends, every step is the creation
    of a directory, a call of [parsing.Spec] or the copy of a file:
    the function runs no command, unlinks no file and removes no
    directory tree. *)
Theorem compile_parsers_footprint build_lib inplace w :
  let res :=
    _compile_parsers ROOT_PATH edgeql_spec edgeql_spec2 schema_spec cwd
      parsing_Spec build_lib inplace w in
  Forall parser_effect (new_events w res.2) ∧
  runs (new_events w res.2) = [] ∧
  Forall (λ ev, (∀ p, ev ≠ EvUnlink p) ∧ (∀ p, ev ≠ EvRmtree p))
    (new_events w res.2).
Proof.
  cbv zeta. destruct (_compile_parsers _ _ _ _ _ _ _ _ w) as [r w'] eqn:Hrun.
  apply compile_parsers_trace in Hrun as (tr & Htr & Hev). simpl.
  rewrite (new_events_app _ _ _ Htr). split; [done|]. split.
  - apply runs_no_run. eapply Forall_impl; [exact Hev|].
    by intros ev [[? ->]|[(? & ? & ->)|(? & ? & ->)]] ?.
  - eapply Forall_impl; [exact Hev|].
    by intros ev [[? ->]|[(? & ? & ->)|(? & ? & ->)]].
Qed.

End ParserTrace.

(** ** [_compile_parsers] in a source tree at the root *)

Section ParserRoot.

Context (cwd : AbsPath).
Context (edgeql_spec edgeql_spec2 schema_spec : PyModule).
Context (parsing_Spec : PyModule → AbsPath → Host → Result unit * Host).

(** X26. A source tree at the root of the file system.  When
    [ROOT_PATH] is [/], the slice that makes the path of a grammar
    relative to the root cuts one character too many: for the module
    [single], found at [/edb/edgeql/parser/grammar/single.py], the
    first call of [parsing.Spec], if the run gets that far, is given
    the pickle file [build_lib/db/edgeql/parser/grammar/single.pickle],
    which is not the file below [build_lib/edb] where the tables
    belong. *)
Theorem compile_parsers_at_root build_lib inplace w :
  grammar_module [] edgeql_spec "single" →
  let res :=
    _compile_parsers [] edgeql_spec edgeql_spec2 schema_spec cwd
      parsing_Spec build_lib inplace w in
  let pickle :=
    PurePath.locate cwd build_lib
    ++ ["db"; "edgeql"; "parser"; "grammar"; "single.pickle"] in
  pickle ≠ cache_path cwd build_lib "single.pickle" ∧
  (spec_calls (new_events w res.2) = [] ∨
   ∃ rest, spec_calls (new_events w res.2)
           = ("edb.edgeql.parser.grammar.single", pickle) :: rest).
Proof.
  intros [Hname Hfile]. cbv zeta. split.
  { unfold cache_path, grammar_dir. intros H. by apply app_inv_head in H. }
  destruct (_compile_parsers _ _ _ _ _ _ _ _ w) as [r w'] eqn:Hrun. simpl.
  unfold _compile_parsers in Hrun.
  change (for_each (?x :: ?l) ?body) with (body x >> for_each l body) in Hrun.
  set (rel := {| is_abs := false;
                 parts := ["db"; "edgeql"; "parser"; "grammar"; "single.pickle"] |}).
  assert (PurePath.child
            (PurePath.of_string
               (PyStr.slice_from
                  (String.length (PurePath.str (PurePath.of_abs [])) + 1)
                  (PurePath.str
                     (PurePath.parent (PurePath.of_string (__file__ edgeql_spec))))))
            ((PyStr.rpartition "." (__name__ edgeql_spec)).2 +:+ ".pickle")
          = rel) as Hrel
    by (rewrite Hfile, Hname; vm_compute; reflexivity).
  assert (PurePath.locate cwd (PurePath.truediv build_lib rel)
          = PurePath.locate cwd build_lib
            ++ ["db"; "edgeql"; "parser"; "grammar"; "single.pickle"]) as Hloc.
  { unfold PurePath.locate, PurePath.truediv. cbn [is_abs parts rel].
    destruct (is_abs build_lib); cbn [is_abs parts]; by rewrite <-?app_assoc. }
  assert (∀ (tr : list (Event * node)),
    Forall (λ ev, ev = EvMkdir
                    (PurePath.locate cwd
                       (PurePath.parent (PurePath.truediv build_lib rel))))
      tr.*1 → spec_calls tr.*1 = []) as Hmk.
  { intros tr Hev. induction tr as [|[ev n] tr IH]; [done|].
    rewrite fmap_cons in Hev. apply Forall_cons in Hev as [Hev Hevs].
    simpl in Hev. subst ev. simpl. by apply IH. }
  apply bind_outcome in Hrun as [(e & Hm & ->) | ([] & w1 & Hm & Hrest)];
    cbv beta zeta in Hm; rewrite Hrel in Hm.
  all: apply bind_outcome in Hm as [(e1 & Hd & ?) | ([] & wd & Hd & Hm)];
    apply mkdir_parents_outcome in Hd as (_ & (trd & Htrd & Hevd) & _);
    simplify_eq.
  1: left; by rewrite (new_events_app _ _ _ Htrd), (Hmk _ Hevd).
  all: apply bind_outcome in Hm as [(e2 & Hs & ?) | ([] & ws & Hs & Hm)];
    unfold call_parsing_Spec in Hs; rewrite Hloc, Hname in Hs;
    destruct (parsing_Spec edgeql_spec _ (host wd)) as [rs hs];
    simplify_eq.
  all: right.
  - eexists. rewrite (new_events_app _ _ (trd ++ [_]))
      by (simpl; by rewrite Htrd, <-app_assoc).
    rewrite fmap_app, spec_calls_app, (Hmk _ Hevd). done.
  - assert (∃ tr, trace w' = trace wd ++ [(EvParsingSpec
              ("edb.edgeql.parser.grammar." +:+ "single")
              (PurePath.locate cwd build_lib
               ++ ["db"; "edgeql"; "parser"; "grammar"; "single.pickle"]),
              root hs)] ++ tr) as [tr Htr].
    { destruct inplace.
      - apply shutil_copy2_outcome in Hm
          as [(e' & ? & ->) | (_ & dst & n & _ & Htr & _)].
        + by exists [].
        + eexists [_]. rewrite Htr. simpl. by rewrite <-app_assoc.
      - unfold ret in Hm. simplify_eq; by exists []. }
    eexists. rewrite (new_events_app _ _ (trd ++ [_] ++ tr))
      by (by rewrite Htr, Htrd, <-!app_assoc).
    rewrite !fmap_app, !spec_calls_app, (Hmk _ Hevd). done.
  - assert (∃ tr, trace w1 = trace wd ++ [(EvParsingSpec
              ("edb.edgeql.parser.grammar." +:+ "single")
              (PurePath.locate cwd build_lib
               ++ ["db"; "edgeql"; "parser"; "grammar"; "single.pickle"]),
              root hs)] ++ tr) as [tr Htr].
    { destruct inplace.
      - apply shutil_copy2_outcome in Hm
          as [(e' & ? & _) | (_ & dst & n & _ & Htr & _)]; [done|].
        eexists [_]. rewrite Htr. simpl. by rewrite <-app_assoc.
      - unfold ret in Hm. simplify_eq; by exists []. }
    apply parser_loop_trace in Hrest as (tr2 & Htr2 & _).
    eexists. rewrite (new_events_app _ _ (trd ++ ([_] ++ tr) ++ tr2))
      by (by rewrite Htr2, Htr, Htrd, <-!app_assoc).
    rewrite !fmap_app, !spec_calls_app, (Hmk _ Hevd). done.
Qed.

End ParserRoot.

(** ** [develop] *)

Section Develop.

Context (exec : list string → option AbsPath → Host → ExecResult * Host).
Context (ROOT_PATH : AbsPath) (system : string) (cpu_count : option Z).
Context (LooseVersion_lt : string → string → Result bool).
Context (edgeql_spec edgeql_spec2 schema_spec : PyModule).
Context (cwd : AbsPath).
Context (parsing_Spec : PyModule → AbsPath → Host → Result unit * Host).
Context (setuptools_develop_run : list string → Host → Result unit * Host).

Local Abbreviation develop_run :=
  (develop.run exec ROOT_PATH system cpu_count LooseVersion_lt
     edgeql_spec edgeql_spec2 schema_spec cwd parsing_Spec
     setuptools_develop_run).

Local Abbreviation rustc := ["rustc"; "-V"].

Lemma subprocess_run_env_outcome argv env w r w' :
  develop.subprocess_run_env exec argv env true w = (r, w') →
  ∃ res n, trace w' = trace w ++ [(EvRun argv None res, n)] ∧
    ((∃ e, r = Raise e) ∨ ∃ out, res = Exited 0 out) ∧
    fail_fast [((argv, None), res)] r.
Proof.
  unfold develop.subprocess_run_env.
  destruct (exec argv None _) as [[|rc out|k] h']; simpl.
  - intros ?; simplify_eq. eexists _, _. split; [done|]. split; [eauto|].
    intros [|i] c rc' out' Hi Hrc; simpl in Hi; by simplify_eq.
  - destruct (rc =? 0) eqn:Erc; simpl; intros ?; simplify_eq;
      eexists _, _; (split; [done|]).
    + apply Z.eqb_eq in Erc as ->. split; [eauto|].
      intros [|i] c rc' out' Hi Hrc; simpl in Hi; by simplify_eq.
    + split; [eauto|]. intros [|i] c rc' out' Hi Hrc; simpl in Hi; by simplify_eq.
  - intros ?; simplify_eq. eexists _, _. split; [done|]. split; [eauto|].
    intros [|i] c rc' out' Hi Hrc; simpl in Hi; by simplify_eq.
Qed.

(** How far a run of [develop.run] gets. *)
Lemma develop_stages self w r w' :
  develop_run self w = (r, w') →
  let bb := PurePath.locate cwd (PurePath.of_string (develop.build_base self)) in
  let cargo := develop.cargo_install (bb ++ ["cli"]) in
  let binary := (bb ++ ["cli"]) ++ ["bin"; "edgedb"] in
  let target := ROOT_PATH ++ ["edb"; "cli"; "edgedb"] in
  ∃ tr, trace w' = trace w ++ tr ∧
    ((∃ res1, tr.*1 = [EvRun rustc None res1] ∧ (∃ e, r = Raise e) ∧
        fail_fast [((rustc, None), res1)] r) ∨
     (∃ o1 res2,
        tr.*1 = [EvRun rustc None (Exited 0 o1); EvRun cargo None res2] ∧
        (∃ e, r = Raise e) ∧ fail_fast [((cargo, None), res2)] r) ∨
     (∃ o1 o2 dst tr5 tr6,
        tr.*1 = [EvRun rustc None (Exited 0 o1); EvRun cargo None (Exited 0 o2);
                 EvCopyfile binary dst; EvSuperRun] ++ tr5 ++ tr6 ∧
        (dst = target ∨ dst = target ++ ["edgedb"]) ∧
        Forall parser_effect tr5 ∧
        Forall (λ ev, is_run ev ∨ postgres_effect bb ev) tr6 ∧
        (∃ j outdated,
           (∀ n, cpu_count = Some n → j = PyStr.of_Z (Z.max (n - 1) 1)) ∧
           (runs tr6).*1 `prefix_of`
             (git_submodule_status, None) :: (git_submodule_status, None) ::
             toolchain_plan ROOT_PATH bb j outdated true true true) ∧
        fail_fast (runs tr6) r)).
Proof.
  intros H. cbv zeta. unfold develop.run in H. cbv zeta in H.
  set (bb := PurePath.locate cwd (PurePath.of_string (develop.build_base self))) in *.
  (* the toolchain check *)
  apply bind_outcome in H as [(e & Hm & ->) | ([] & w1 & Hm & H)];
    rewrite check_rust_eq in Hm;
    destruct (exec rustc None (host w)) as [res1 h1] eqn:E1; simpl in Hm.
  { injection Hm as Hr <-. eexists [_]. split; [done|]. left. exists res1.
    split; [done|]. split; [eauto|].
    intros [|i] c rc out Hi Hrc; simpl in Hi; simplify_eq.
    rewrite (proj2 (Z.eqb_neq rc 0) Hrc) in Hr. by simplify_eq. }
  assert (∃ o1, res1 = Exited 0 o1) as [o1 ->].
  { destruct res1 as [|rc out|k]; [done| |by destruct k].
    destruct (rc =? 0) eqn:Erc; [|done].
    apply Z.eqb_eq in Erc as ->. eauto. }
  injection Hm as _ <-.
  (* the build of the client *)
  apply bind_outcome in H as [(e & Hm & ->) | (env & wa & Hm & H)];
    unfold develop.os_environ in Hm; simplify_eq.
  apply bind_outcome in H as [(e & Hm & ->) | (p & w2 & Hm & H)];
    apply subprocess_run_env_outcome in Hm as (res2 & n2 & Htr2 & Hres2 & Hff2).
  { eexists [_; _]. split; [rewrite Htr2; simpl; by rewrite <-app_assoc|].
    right. left. exists o1, res2. split; [done|]. split; [eauto|].
    by apply (fail_fast_raise _ _ Hff2). }
  destruct Hres2 as [[e ?]|[o2 ->]]; [done|].
  (* the copy of the client *)
  apply bind_outcome in H as [(e & Hm & ->) | ([] & w3 & Hm & H)];
    apply shutil_copy2_outcome in Hm
      as [(e' & He' & ->) | (Hr & dst & n3 & Hdst & Htr3 & _)]; simplify_eq.
  { eexists [_; _]. split; [rewrite Htr2; simpl; by rewrite <-app_assoc|].
    right. left. exists o1, (Exited 0 o2). split; [done|]. split; [eauto|].
    intros [|i] c rc out Hi Hrc; simpl in Hi; by simplify_eq. }
  (* the [develop] of setuptools *)
  assert (∀ tr5 tr6,
    trace w' = trace w3 ++ [(EvSuperRun, root (host w'))] ++ tr5 ++ tr6 ∨
    (∃ n4, trace w' = trace w3 ++ [(EvSuperRun, n4)] ++ tr5 ++ tr6) →
    ∃ n4, trace w' =
      trace w ++ [(EvRun rustc None (Exited 0 o1), root h1);
                  (EvRun (develop.cargo_install (bb ++ ["cli"])) None
                     (Exited 0 o2), n2);
                  (EvCopyfile ((bb ++ ["cli"]) ++ ["bin"; "edgedb"]) dst, n3);
                  (EvSuperRun, n4)] ++ tr5 ++ tr6) as Hglue.
  { intros tr5 tr6 [Ht|[n4 Ht]]; eexists; rewrite Ht, Htr3, Htr2; simpl;
      by rewrite <-!app_assoc. }
  assert (∀ (tr5 tr6 : list (Event * node)) n4,
    Forall parser_effect tr5.*1 →
    Forall (λ ev, is_run ev ∨ postgres_effect bb ev) tr6.*1 →
    (∃ j outdated,
       (∀ n, cpu_count = Some n → j = PyStr.of_Z (Z.max (n - 1) 1)) ∧
       (runs tr6.*1).*1 `prefix_of`
         (git_submodule_status, None) :: (git_submodule_status, None) ::
         toolchain_plan ROOT_PATH bb j outdated true true true) →
    fail_fast (runs tr6.*1) r →
    trace w' =
      trace w ++ [(EvRun rustc None (Exited 0 o1), root h1);
                  (EvRun (develop.cargo_install (bb ++ ["cli"])) None
                     (Exited 0 o2), n2);
                  (EvCopyfile ((bb ++ ["cli"]) ++ ["bin"; "edgedb"]) dst, n3);
                  (EvSuperRun, n4)] ++ tr5 ++ tr6 →
    ∃ tr, trace w' = trace w ++ tr ∧
      ((∃ res1, tr.*1 = [EvRun rustc None res1] ∧ (∃ e, r = Raise e) ∧
          fail_fast [((rustc, None), res1)] r) ∨
       (∃ o1 res2,
          tr.*1 = [EvRun rustc None (Exited 0 o1);
                   EvRun (develop.cargo_install (bb ++ ["cli"])) None res2] ∧
          (∃ e, r = Raise e) ∧
          fail_fast [((develop.cargo_install (bb ++ ["cli"]), None), res2)] r) ∨
       (∃ o1 o2 dst tr5 tr6,
          tr.*1 = [EvRun rustc None (Exited 0 o1);
                   EvRun (develop.cargo_install (bb ++ ["cli"])) None (Exited 0 o2);
                   EvCopyfile ((bb ++ ["cli"]) ++ ["bin"; "edgedb"]) dst;
                   EvSuperRun] ++ tr5 ++ tr6 ∧
          (dst = ROOT_PATH ++ ["edb"; "cli"; "edgedb"] ∨
           dst = (ROOT_PATH ++ ["edb"; "cli"; "edgedb"]) ++ ["edgedb"]) ∧
          Forall parser_effect tr5 ∧
          Forall (λ ev, is_run ev ∨ postgres_effect bb ev) tr6 ∧
          (∃ j outdated,
             (∀ n, cpu_count = Some n → j = PyStr.of_Z (Z.max (n - 1) 1)) ∧
             (runs tr6).*1 `prefix_of`
               (git_submodule_status, None) :: (git_submodule_status, None) ::
               toolchain_plan ROOT_PATH bb j outdated true true true) ∧
          fail_fast (runs tr6) r))) as Hend.
  { intros tr5 tr6 n4 Hp5 Hp6 Hpre Hff Ht. eexists. split; [exact Ht|].
    right. right. exists o1, o2, dst, tr5.*1, tr6.*1.
    split; [by rewrite !fmap_app|]. split_and!; try done.
    destruct Hdst as [-> | ->]; [by left|right; by rewrite last_app_cons]. }
  assert (∃ j : string, ∀ n, cpu_count = Some n → j = PyStr.of_Z (Z.max (n - 1) 1))
    as [j0 Hj0].
  { destruct cpu_count as [n|]; [exists (PyStr.of_Z (Z.max (n - 1) 1))|exists ""];
      intros n' Hn; by simplify_eq. }
  assert (∃ j outdated,
    (∀ n, cpu_count = Some n → j = PyStr.of_Z (Z.max (n - 1) 1)) ∧
    (runs ([] : list (Event * node)).*1).*1 `prefix_of`
      (git_submodule_status, None) :: (git_submodule_status, None) ::
      toolchain_plan ROOT_PATH bb j outdated true true true) as Hnil
    by (exists j0, true; split; [done|apply prefix_nil]).
  apply bind_outcome in H as [(e & Hm & ->) | ([] & w4 & Hm & H)];
    unfold develop.call_super_run in Hm;
    destruct (setuptools_develop_run _ (host w3)) as [r4 h4]; simplify_eq.
  { destruct (Hglue [] []) as [n4 Ht]; [by left|].
    apply (Hend [] [] n4);
      [constructor|constructor|exact Hnil|apply fail_fast_nil|exact Ht]. }
  (* the parsers *)
  apply bind_outcome in H as [(e & Hm & ->) | ([] & w5 & Hm & H)];
    apply compile_parsers_trace in Hm as (tr5 & Htr5 & Hev5).
  { destruct (Hglue tr5 []) as [n4 Ht].
    { right. eexists. rewrite Htr5. simpl. by rewrite app_nil_r, <-app_assoc. }
    apply (Hend tr5 [] n4);
      [exact Hev5|constructor|exact Hnil|apply fail_fast_nil|exact Ht]. }
  (* the engine *)
  pose proof (compile_postgres_trace _ _ _ _ _ _ _ _ _ _ _ _ H) as (tr6 & Htr6 & Hev6).
  apply compile_postgres_runs in H as (tr6' & j & od & Htr6' & Hj & Hpre & Hff).
  assert (tr6' = tr6) as -> by (rewrite Htr6 in Htr6'; by apply app_inv_head in Htr6').
  destruct (Hglue tr5 tr6) as [n4 Ht].
  { right. eexists. rewrite Htr6, Htr5. simpl. by rewrite <-!app_assoc. }
  apply (Hend tr5 tr6 n4); [exact Hev5|exact Hev6|eauto|exact Hff|exact Ht].
Qed.

Lemma full_plan bb j outdated :
  toolchain_plan ROOT_PATH bb j outdated true true true =
  [configure_cmd ROOT_PATH bb; make_cmd bb j; make_contrib_cmd bb j;
   install_cmd bb; install_contrib_cmd bb].
Proof. done. Qed.



End Develop.

(** X15. The console scripts in development mode.  Every script of the
    distribution is kept, in its place: as it is when its text
    mentions [rustcli], with [_dev] appended to it otherwise; and the
    script [edb] is added at the end. *)
Theorem patched_scripts_spec (scripts : list string) :
  develop.patched_scripts scripts =
  ((λ s, if PyStr.contains "rustcli" s then s else s +:+ "_dev") <$> scripts)
  ++ ["edb = edb.tools.edb:edbcommands"].
Proof.
  assert (∀ acc,
    foldl (λ patched s,
             patched ++ [if negb (PyStr.contains "rustcli" s)
                         then s +:+ "_dev" else s]) acc scripts
    = acc ++ ((λ s, if PyStr.contains "rustcli" s then s else s +:+ "_dev")
              <$> scripts)) as H.
  { induction scripts as [|s scripts IH]; intros acc; simpl.
    - by rewrite app_nil_r.
    - rewrite IH, <-app_assoc. simpl. by destruct (PyStr.contains "rustcli" s). }
  unfold develop.patched_scripts. by rewrite H.
Qed.

(** ** [gen_build_cache_key] *)

Section CacheKey.

Lemma unhex_hex_of_byte b :
  binascii.unhex_byte (binascii.hex_of_byte b) = Some b.
Proof. by destruct b. Qed.

Lemma hexdigit_not_dash n : binascii.hexdigit n ≠ "-"%char.
Proof.
  unfold binascii.hexdigit.
  destruct (nth_in_or_default (N.to_nat n)
              (PyStr.chars "0123456789abcdef") "0"%char) as [Hin|Hd].
  - intros Heq. rewrite Heq in Hin. simpl in Hin.
    repeat (destruct Hin as [Hin|Hin]; [discriminate Hin|]). done.
  - by rewrite Hd.
Qed.

Lemma hexlify_no_dash bs : "-"%char ∉ PyStr.chars (binascii.hexlify bs).
Proof.
  induction bs as [|b bs IH]; [apply not_elem_of_nil|].
  cbn [binascii.hexlify]. unfold binascii.hex_of_byte. cbv zeta.
  rewrite !append_cons. cbn [PyStr.chars].
  change ("" +:+ binascii.hexlify bs) with (binascii.hexlify bs).
  apply not_elem_of_cons. split; [apply not_eq_sym, hexdigit_not_dash|].
  apply not_elem_of_cons. split; [apply not_eq_sym, hexdigit_not_dash|done].
Qed.

Lemma hexlify_inj bs1 bs2 :
  binascii.hexlify bs1 = binascii.hexlify bs2 → bs1 = bs2.
Proof.
  revert bs2. induction bs1 as [|b1 bs1 IH]; intros [|b2 bs2]; try done.
  cbn [binascii.hexlify]. unfold binascii.hex_of_byte at 1 2. cbv zeta.
  rewrite !append_cons. intros H. injection H as Hx Hy Hrest.
  assert (binascii.hex_of_byte b1 = binascii.hex_of_byte b2) as Hb
    by (unfold binascii.hex_of_byte; by rewrite Hx, Hy).
  apply (f_equal binascii.unhex_byte) in Hb.
  rewrite !unhex_hex_of_byte in Hb.
  f_equal; [by simplify_eq|by apply IH].
Qed.

(** X16. Keys tell their inputs apart: two cache keys are equal only
    when they come from the same digest of the grammar sources and the
    same revision of the engine. *)
Theorem cache_key_inj hash1 rev1 hash2 rev2 :
  gen_build_cache_key.cache_key hash1 rev1
    = gen_build_cache_key.cache_key hash2 rev2 →
  hash1 = hash2 ∧ rev1 = rev2.
Proof.
  unfold gen_build_cache_key.cache_key. intros H.
  assert (∀ r, "-" +:+ r = String "-" r) as Hd by done.
  rewrite !Hd in H. apply (f_equal (PyStr.partition "-")) in H.
  rewrite !partition_app in H by apply hexlify_no_dash.
  injection H as Hh Hr. split; [by apply hexlify_inj|done].
Qed.

Context (exec : list string → option AbsPath → Host → ExecResult * Host).
Context (edb_path : string).
Context (hash_dirs : list (string * string) → Host → Result (list Byte.byte)).

(** X17. The key follows the source stamp.  When the status query of
    the engine exits with status 0, [gen_build_cache_key] always prints
    a key, even for a submodule that is not initialised or for an empty
    answer: the digest in hexadecimal, a dash, and the text between the
    first character of the answer and its first space.  For the same
    answer of git, this text is the source stamp of [_compile_postgres]
    without its first character. *)
Theorem cache_key_follows_stamp w hash out :
  (∀ h, (exec git_submodule_status None h).1 = Exited 0 out) →
  hash_dirs [(os_path.join edb_path "edgeql/parser/grammar", ".py")] (host w)
    = Ok hash →
  let res := gen_build_cache_key.run exec edb_path hash_dirs w in
  res.1 = Ok tt ∧
  ∃ rev,
    new_events w res.2 =
      [EvRun git_submodule_status None (Exited 0 out);
       EvPrint (binascii.hexlify hash +:+ "-" +:+ rev)] ∧
    (∃ sep rest, PyStr.partition " " (PyStr.slice_from 1 out) = (rev, sep, rest)) ∧
    ∀ stamp w1, get_source_stamp exec w = (Ok stamp, w1) →
                ∃ c, stamp = String c rev.
Proof.
  intros Hgit Hhash. cbv zeta.
  unfold gen_build_cache_key.run, gen_build_cache_key.call_hash_dirs, bind.
  rewrite Hhash. unfold subprocess_run, print.
  pose proof (Hgit (host w)) as H1.
  destruct (exec git_submodule_status None (host w)) as [res1 h1] eqn:E1.
  simpl in H1. subst res1.
  assert (∀ ev1 ev2 (h : Host),
    new_events w (emit ev2 h (emit ev1 h w)) = [ev1; ev2]) as Hev.
  { intros ev1 ev2 h. unfold new_events, new_trace. simpl.
    by rewrite <-app_assoc, drop_app_length. }
  destruct out as [|c t].
  { simpl. split; [done|]. exists "". split; [apply Hev|]. split; [by eexists _, _|].
    intros stamp w1. unfold get_source_stamp, bind, subprocess_run.
    rewrite E1. done. }
  simpl. destruct (PyStr.partition " " t) as [[rev sep] rest] eqn:Ep.
  simpl. split; [done|]. exists rev. split; [apply Hev|]. split; [by eexists _, _|].
  intros stamp w1. unfold get_source_stamp, bind, subprocess_run.
  rewrite E1. simpl. destruct (bool_decide (c = "-"%char)); simpl; [done|].
  pose proof (Hgit h1) as H2.
  destruct (exec git_submodule_status None h1) as [res2 h2].
  simpl in H2. subst res2. simpl. rewrite Ep. simpl.
  unfold ret. intros ?; simplify_eq. by eexists.
Qed.

End CacheKey.

(** ** [build_ext]: the options *)

Section BuildExtOptions.

Import build_ext.

Lemma set_directive_eq ds d :
  set_directive ds d =
  if bool_decide (PyStr.lower (directive_text d) = "false")
  then inl AttributeError
  else inr (<[directive_key d :=
               if bool_decide (PyStr.lower (directive_text d) = "true")
               then VBool true else VStr (directive_text d)]> ds).
Proof.
  unfold set_directive, directive_text, directive_key.
  destruct (PyStr.partition "=" d) as [[k m] v]. simpl.
  by destruct (bool_decide (PyStr.lower v = "false")).
Qed.

Lemma set_directives_error ds l :
  set_directives ds l = inl AttributeError ↔
  ∃ d, d ∈ l ∧ PyStr.lower (directive_text d) = "false".
Proof.
  revert ds. induction l as [|d l IH]; intros ds; simpl.
  - split; [done|]. intros (d & Hd & _). by apply elem_of_nil in Hd.
  - rewrite set_directive_eq. case_bool_decide as Hf.
    + split; [|done]. intros _. exists d. split; [apply list_elem_of_here|done].
    + rewrite IH. split.
      * intros (d' & Hd' & Hf'). exists d'. split; [by apply list_elem_of_further|done].
      * intros (d' & Hd' & Hf'). apply elem_of_cons in Hd' as [->|Hd']; [done|eauto].
Qed.

Lemma set_directives_ok ds l m :
  set_directives ds l = inr m →
  NoDup (directive_key <$> l) →
  (∀ d, d ∈ l →
     m !! directive_key d =
       Some (if bool_decide (PyStr.lower (directive_text d) = "true")
             then VBool true else VStr (directive_text d))) ∧
  (∀ k, k ∉ directive_key <$> l → m !! k = ds !! k).
Proof.
  revert ds. induction l as [|d l IH]; intros ds; simpl.
  - intros ? _; simplify_eq. split; [|done]. intros d Hd. by apply elem_of_nil in Hd.
  - rewrite set_directive_eq. case_bool_decide as Hf; [done|].
    intros H Hnd. apply NoDup_cons in Hnd as [Hfresh Hnd].
    destruct (IH _ H Hnd) as [Hin Hout]. split.
    + intros d' Hd'. apply elem_of_cons in Hd' as [->|Hd']; [|by apply Hin].
      by rewrite (Hout _ Hfresh), lookup_insert_eq.
    + intros k Hk. apply not_elem_of_cons in Hk as [Hne Hk].
      by rewrite (Hout _ Hk), lookup_insert_ne.
Qed.

(** X18. A directive switched off breaks the build.  The directives
    cannot be computed, [AttributeError] being raised instead, exactly
    when the option [cython_directives] is a non-empty text and one of
    its comma-separated directives has a value, the text after its
    first [=], that reads [false] in any mix of upper and lower case:
    the value has by then been replaced by [False], which has no
    method [lower]. *)
Theorem false_directive_raises self :
  compiler_directives self = inl AttributeError ↔
  ∃ s d, cython_directives self = Some s ∧ s ≠ "" ∧
         d ∈ PyStr.split "," s ∧ PyStr.lower (directive_text d) = "false".
Proof.
  unfold compiler_directives.
  destruct (cython_directives self) as [[|c s]|].
  - split; [done|]. by intros (s & d & ? & ? & _); simplify_eq.
  - rewrite set_directives_error. split.
    + intros (d & Hd & Hf). by exists (String c s), d.
    + intros (s' & d & ? & _ & Hd & Hf). simplify_eq. eauto.
  - split; [done|]. by intros (s & d & ? & _).
Qed.

(** X19. The directives that are handed to [cythonize].  When the
    option [cython_directives] is a non-empty text whose directives
    have distinct keys, and the directives can be computed, every
    directive [key=value] binds its key to [True] when the value reads
    [true] in any mix of upper and lower case and to the text of the
    value otherwise (the empty text without a [=]); every other key is
    as in the initial directives, where [language_level] is ['3'] and
    nothing else is bound. *)
Theorem directives_parsed self s m :
  cython_directives self = Some s → s ≠ "" →
  compiler_directives self = inr m →
  NoDup (directive_key <$> PyStr.split "," s) →
  (∀ d, d ∈ PyStr.split "," s →
     m !! directive_key d =
       Some (if bool_decide (PyStr.lower (directive_text d) = "true")
             then VBool true else VStr (directive_text d))) ∧
  (∀ k, k ∉ directive_key <$> PyStr.split "," s →
     m !! k = if bool_decide (k = "language_level") then Some (VStr "3") else None).
Proof.
  intros Hs Hne. unfold compiler_directives. rewrite Hs.
  destruct s as [|c s]; [done|]. intros Hm Hnd.
  destruct (set_directives_ok _ _ _ Hm Hnd) as [Hin Hout]. split; [done|].
  intros k Hk. rewrite (Hout _ Hk). case_bool_decide as Hk'.
  - subst k. apply lookup_singleton_eq.
  - by apply lookup_singleton_ne.
Qed.

(** X20. The debug build.  [initialize_options] leaves an initialised
    command as it is and never touches the world.  Otherwise, with
    [EDGEDB_DEBUG] set to a non-empty text in the environment, the
    command builds with [debug] on, and the directives then handed to
    [cythonize] are [language_level] ['3'] and [linetrace] [True]; with
    [EDGEDB_DEBUG] unset or empty, [debug] is off and [language_level]
    is the only directive. *)
Theorem debug_build_options self w :
  let res := initialize_options self w in
  res.2 = w ∧
  (_initialized self = true → res.1 = Ok self) ∧
  (_initialized self = false →
   ∃ self', res.1 = Ok self' ∧
     (∀ v, environ (host w) !! "EDGEDB_DEBUG" = Some v → v ≠ "" →
        debug self' = true ∧
        define self' = Some "PG_DEBUG,CYTHON_TRACE,CYTHON_TRACE_NOGIL" ∧
        compiler_directives self' =
          inr (<["linetrace" := VBool true]> {[ "language_level" := VStr "3" ]})) ∧
     (environ (host w) !! "EDGEDB_DEBUG" = None ∨
      environ (host w) !! "EDGEDB_DEBUG" = Some "" →
        debug self' = false ∧
        compiler_directives self' = inr {[ "language_level" := VStr "3" ]})).
Proof.
  cbv zeta. unfold initialize_options, env_flag.
  destruct (_initialized self) eqn:Hi; [by split_and!|].
  destruct (environ (host w) !! "EDGEDB_DEBUG") as [[|c v]|] eqn:He; simpl.
  - split_and!; [done|done|]. intros _. eexists. split; [done|].
    split; [by intros v ? ?; simplify_eq|done].
  - split_and!; [done|done|]. intros _. eexists. split; [done|].
    split; [|by intros [?|?]]. intros v' ? ?. by split_and!.
  - split_and!; [done|done|]. intros _. eexists. split; [done|].
    split; [by intros v ? ?; simplify_eq|done].
Qed.

End BuildExtOptions.

(** ** [build_ext.run] *)

Section BuildExtMore.

Context (exec : list string → option AbsPath → Host → ExecResult * Host).
Context (LooseVersion_lt : string → string → Result bool).
Context (get_ext_fullpath : bool → string → AbsPath).
Context (build_rust_run : bool → Host → Result unit * Host).
Context (distutils_build_ext_run : Host → Result unit * Host).

Local Abbreviation build_ext_run :=
  (run exec LooseVersion_lt get_ext_fullpath build_rust_run
     distutils_build_ext_run).

(** The copy loop, for distinct targets that are no sources: every
    target ends up with the content its source had, and nothing else
    changes. *)
Lemma copy_loop_content (cl : list (AbsPath * AbsPath)) wa wb :
  for_each cl (λ '(src, dst), shutil_copyfile src dst) wa = (Ok tt, wb) →
  NoDup cl.*2 →
  (∀ s, s ∈ cl.*1 → s ∉ cl.*2) →
  (∀ t, t ∉ cl.*2 →
     FS.file_at (root (host wb)) t = FS.file_at (root (host wa)) t) ∧
  (∀ s d, (s, d) ∈ cl →
     ∃ i dd j, FS.file_at (root (host wa)) s = Some (i, dd) ∧
               FS.file_at (root (host wb)) d = Some (j, dd)).
Proof.
  revert wa. induction cl as [|[s0 d0] cl IH]; intros wa.
  - simpl. unfold ret. intros ? _ _; simplify_eq. split; [done|].
    intros s d H. by apply elem_of_nil in H.
  - cbn [for_each]. rewrite !fmap_cons. cbn [fst snd]. intros H Hnd Hsrc.
    apply bind_outcome in H as [(e & _ & ?) | ([] & w1 & Hm & H)]; [done|].
    apply NoDup_cons in Hnd as [Hfresh Hnd].
    pose proof (copyfile_frame _ _ _ _ Hm) as Hframe.
    apply shutil_copyfile_outcome in Hm
      as [(e & ? & _) | (_ & _ & _ & (i & dd & j & Hs & Hd & _) & _)]; [done|].
    destruct (IH _ H Hnd) as [Hout Hin].
    { intros s Hs' Hd'. apply (Hsrc s); [by apply list_elem_of_further|].
      by apply list_elem_of_further. }
    split.
    + intros t Ht. apply not_elem_of_cons in Ht as [Hne Ht].
      by rewrite (Hout _ Ht), (Hframe _ Hne).
    + intros s d Hsd. apply elem_of_cons in Hsd as [Heq|Hsd].
      * simplify_eq. exists i, dd, j. split; [done|]. by rewrite (Hout _ Hfresh).
      * destruct (Hin _ _ Hsd) as (i' & dd' & j' & Hs' & Hd'). exists i', dd', j'.
        split; [|done]. rewrite <-Hframe; [done|].
        intros ->. apply (Hsrc d0).
        -- apply list_elem_of_further, list_elem_of_fmap. by exists (d0, d).
        -- apply list_elem_of_here.
Qed.

(** X21. In an in-place build, and without Rust extensions, [run]
    moves nothing around: whatever the run, it unlinks no file, creates
    no directory and copies no file; and without Rust extensions the
    call of [super().run()] is all it does. *)
Theorem build_ext_inplace_moves_nothing self w :
  inplace self = true ∨ rust_extensions self = [] →
  let res := build_ext_run self w in
  Forall (λ ev, (∀ p, ev ≠ EvUnlink p) ∧ (∀ p, ev ≠ EvMkdir p) ∧
                (∀ s d, ev ≠ EvCopyfile s d)) (new_events w res.2) ∧
  (rust_extensions self = [] → new_events w res.2 = [EvSuperRun]).
Proof.
  intros Hmode. cbv zeta.
  destruct (build_ext_run self w) as [r w'] eqn:Hrun. simpl.
  unfold run in Hrun.
  destruct (decide (rust_extensions self = [])) as [Hnil|Hsome].
  - rewrite bool_decide_eq_true_2 in Hrun by done.
    unfold bind, ret, call_super_run in Hrun. simpl in Hrun.
    destruct (distutils_build_ext_run (host w)) as [rs hs]. simplify_eq.
    rewrite new_events_emit. split; [|done]. by repeat constructor.
  - destruct Hmode as [Hin|?]; [|done].
    rewrite bool_decide_eq_false_2 in Hrun by done. rewrite Hin in Hrun.
    cbn [negb] in Hrun. split; [|done]. revert Hrun.
    unfold bind, print, ret, setenv, call_build_rust, call_super_run.
    cbv beta iota. rewrite check_rust_eq. simpl.
    destruct (exec ["rustc"; "-V"] None (host w)) as [res1 h1]. simpl.
    set (w1 := emit (EvRun ["rustc"; "-V"] None res1) h1
                 (emit (EvPrint "running build_rust") (host w) w)).
    assert (new_events w w1 = [EvPrint "running build_rust";
                               EvRun ["rustc"; "-V"] None res1]) as Hev1.
    { unfold new_events, new_trace. subst w1. simpl.
      by rewrite <-app_assoc, drop_app_length. }
    destruct res1 as [|rc out|k]; simpl;
      [|destruct (rc =? 0); simpl;
        [destruct (PyStr.words out !! 1%nat) as [ver|]; simpl;
         [destruct (LooseVersion_lt ver RUST_VERSION) as [[]|ex]; simpl;
          [| |destruct ex as [| | | | | |kx ?|]; try destruct kx; simpl]|]|]
      |destruct k; simpl];
      try (intros ?; simplify_eq; rewrite Hev1; by repeat constructor).
    match goal with
    | |- context [build_rust_run ?dbg ?h] =>
        destruct (build_rust_run dbg h) as [rb hb]
    end.
    destruct rb as [[]|e]; simpl.
    2: { intros ?; simplify_eq. unfold new_events, new_trace. simpl.
         rewrite <-!app_assoc, drop_app_length. by repeat constructor. }
    match goal with
    | |- context [distutils_build_ext_run ?h] =>
        destruct (distutils_build_ext_run h) as [rs hs]
    end.
    intros ?; simplify_eq. unfold new_events, new_trace. simpl.
    rewrite <-!app_assoc, drop_app_length. by repeat constructor.
Qed.

(** X22. Without a usable Rust toolchain nothing is built.  With Rust
    extensions to build, when [_check_rust] raises, [run] raises the
    same exception after the log message and the start of [rustc -V]:
    neither setuptools-rust nor the [build_ext] of distutils is run. *)
Theorem build_ext_stops_without_rust self w e :
  rust_extensions self ≠ [] →
  (_check_rust exec LooseVersion_lt
     (emit (EvPrint "running build_rust") (host w) w)).1 = Raise e →
  let res := build_ext_run self w in
  res.1 = Raise e ∧
  ∃ r, new_events w res.2 =
         [EvPrint "running build_rust"; EvRun ["rustc"; "-V"] None r].
Proof.
  intros Hsome Hcheck. cbv zeta.
  destruct (build_ext_run self w) as [r w'] eqn:Hrun. simpl.
  unfold run in Hrun.
  rewrite bool_decide_eq_false_2 in Hrun by done. cbn [negb] in Hrun.
  assert (∀ rx wx,
    _check_rust exec LooseVersion_lt
      (emit (EvPrint "running build_rust") (host w) w) = (rx, wx) →
    rx = Raise e ∧
    ∃ r, new_events w wx =
           [EvPrint "running build_rust"; EvRun ["rustc"; "-V"] None r]) as Hc.
  { intros rx wx E. rewrite E in Hcheck. split; [done|].
    rewrite check_rust_eq in E. injection E as _ <-.
    eexists. unfold new_events, new_trace. simpl.
    by rewrite <-app_assoc, drop_app_length. }
  apply bind_outcome in Hrun as [(e1 & Hm & ->) | ([] & w6 & Hm & Hs)];
    (apply bind_outcome in Hm as [(e2 & Hp & ?) | ([] & wp & Hp & Hm)];
     unfold print in Hp; simplify_eq);
    (apply bind_outcome in Hm as [(e3 & Hm & ?) | ([] & wc & Hm & _)];
     destruct (Hc _ _ Hm) as [? ?]; by simplify_eq).
Qed.

(** X23. A completed [run] leaves the built artifacts in place.  When
    the build is not in place, the in-place targets of the Rust
    extensions are distinct and none of them is the build path of an
    extension, and the [build_ext] of distutils leaves the targets
    alone, then after a run that completes every in-place target holds
    the content that the file at the build path of its extension had
    right after the Rust build. *)
Theorem build_ext_copies_artifacts self w :
  inplace self = false →
  NoDup (get_ext_fullpath true <$> rust_extensions self) →
  (∀ e1 e2, e1 ∈ rust_extensions self → e2 ∈ rust_extensions self →
     get_ext_fullpath false e1 ≠ get_ext_fullpath true e2) →
  (∀ e, e ∈ rust_extensions self →
     spares distutils_build_ext_run (get_ext_fullpath true e)) →
  let res := build_ext_run self w in
  res.1 = Ok tt →
  ∀ ext, ext ∈ rust_extensions self →
    ∃ built i d j,
      (EvBuildRust (debug self) (Ok tt), built) ∈ new_trace w res.2 ∧
      FS.file_at built (get_ext_fullpath false ext) = Some (i, d) ∧
      FS.file_at (root (host res.2)) (get_ext_fullpath true ext) = Some (j, d).
Proof.
  intros Hinplace Hnd Hdisj Hsuper. cbv zeta.
  destruct (build_ext_run self w) as [r w'] eqn:Hrun. simpl. intros -> ext Hext.
  unfold run in Hrun.
  rewrite bool_decide_eq_false_2 in Hrun
    by (intros Hnil; rewrite Hnil in Hext; by apply elem_of_nil in Hext).
  rewrite Hinplace in Hrun. cbn [negb] in Hrun.
  apply bind_outcome in Hrun as [(? & _ & ?) | ([] & w6 & Hrun & Hs)]; [done|].
  apply bind_outcome in Hrun as [(? & _ & ?) | ([] & w1 & Hprint & Hrun)]; [done|].
  apply bind_outcome in Hrun as [(? & _ & ?) | ([] & w2 & Hcheck & Hrun)]; [done|].
  apply bind_outcome in Hrun as [(? & _ & ?) | (cl & w3 & Hplan & Hrun)]; [done|].
  apply bind_outcome in Hrun as [(? & _ & ?) | ([] & w4 & Henv & Hrun)]; [done|].
  apply bind_outcome in Hrun as [(? & _ & ?) | ([] & w5 & Hbuild & Hcopy)]; [done|].
  assert (∃ t1, trace w1 = trace w ++ t1) as [t1 Ht1]
    by (unfold print in Hprint; simplify_eq; by eexists).
  assert (∃ t2, trace w2 = trace w1 ++ t2) as [t2 Ht2]
    by (rewrite check_rust_eq in Hcheck; injection Hcheck as _ <-; by eexists).
  apply plan_loop_outcome in Hplan as (t3 & Ht3 & _ & _ & _ & _ & Hok).
  destruct (Hok _ eq_refl) as [Hcl _]. simpl in Hcl.
  assert (∃ t4, trace w4 = trace w3 ++ t4) as [t4 Ht4]
    by (unfold setenv in Henv; simplify_eq; by eexists).
  unfold call_build_rust in Hbuild.
  destruct (build_rust_run (debug self) (host w4)) as [rb hb].
  injection Hbuild as -> <-.
  pose proof (copy_loop_outcome _ _ _ _ Hcopy) as (t6 & Ht6 & _).
  apply copy_loop_content in Hcopy as [_ Hin].
  2: { subst cl. by rewrite <-list_fmap_compose. }
  2: { subst cl. intros s Hs1 Hs2. rewrite <-list_fmap_compose in Hs1, Hs2.
       apply list_elem_of_fmap in Hs1 as (e1 & -> & He1).
       apply list_elem_of_fmap in Hs2 as (e2 & Heq & He2).
       by apply (Hdisj e1 e2). }
  destruct (Hin (get_ext_fullpath false ext) (get_ext_fullpath true ext))
    as (i & d & j & Hsrc & Hdst).
  { subst cl. apply list_elem_of_fmap. by exists ext. }
  unfold call_super_run in Hs.
  pose proof (Hsuper ext Hext (host w6)) as Hsp.
  destruct (distutils_build_ext_run (host w6)) as [rs hs]. simpl in Hsp.
  simplify_eq. exists (root hb), i, d, j. split_and!; [|done|by simpl; rewrite Hsp].
  rewrite (new_trace_app w _
             ((t1 ++ t2 ++ t3 ++ t4) ++
              (EvBuildRust (debug self) (Ok tt), root hb) ::
              t6 ++ [(EvSuperRun, root hs)])).
  - apply elem_of_app. right. apply list_elem_of_here.
  - simpl. rewrite Ht6. simpl. rewrite Ht4, Ht3, Ht2, Ht1.
    by rewrite <-!app_assoc.
Qed.

End BuildExtMore.

(** * The further properties at concrete inputs *)

Lemma check_rust_missing_rustc_witness :
  let w := start demo_host_clean in
  let res := _check_rust demo_no_rustc demo_version_lt w in
  (demo_no_rustc ["rustc"; "-V"] None (host w)).1 = NotFound ∧
  res.1 = Raise (RuntimeError
    "please install rustc >= 1.42.0 to compile edgedb from source (see https://rustup.rs/)") ∧
  new_events w res.2 = [EvRun ["rustc"; "-V"] None NotFound].
Proof.
  intros w res. split; [reflexivity|].
  apply (check_rust_missing_rustc demo_no_rustc demo_version_lt w).
  reflexivity.
Defined.

Lemma check_rust_verdict_witness :
  let w := start demo_host_clean in
  let res := _check_rust demo_rustc_nightly demo_loose_version_lt w in
  (demo_rustc_nightly ["rustc"; "-V"] None (host w)).1 = Exited 0 "rustc nightly" ∧
  PyStr.words "rustc nightly" !! 1%nat = Some "nightly" ∧
  demo_loose_version_lt "nightly" "1.42.0" = Raise TypeError ∧
  res.1 = Raise TypeError ∧
  res.1 ≠ Ok tt.
Proof.
  intros w res.
  assert ((demo_rustc_nightly ["rustc"; "-V"] None (host w)).1
          = Exited 0 "rustc nightly") as H1 by reflexivity.
  assert (PyStr.words "rustc nightly" !! 1%nat = Some "nightly") as H2
    by (vm_compute; reflexivity).
  assert (demo_loose_version_lt "nightly" "1.42.0" = Raise TypeError) as H3
    by (vm_compute; reflexivity).
  destruct (check_rust_verdict demo_rustc_nightly demo_loose_version_lt w)
    as (Hiff & Hraise & _).
  assert (res.1 = Raise TypeError) as Hres.
  { apply (Hraise "rustc nightly" "nightly" TypeError H1 H2 H3). discriminate. }
  split; [exact H1|]. split; [exact H2|]. split; [exact H3|].
  split; [exact Hres|]. rewrite Hres. discriminate.
Defined.

Lemma check_rust_version_word_witness :
  let w := start demo_host_clean in
  ((demo_rustc ["rustc"; "-V"] None (host w)).1
     = Exited 0 ("rustc" +:+ " " +:+ "1.42.0" +:+ " (b8cedc004 2020-03-09)") ∧
   (_check_rust demo_rustc demo_version_lt w).1 = Ok tt) ∧
  ((demo_rustc_nightly ["rustc"; "-V"] None (host w)).1
     = Exited 0 ("rustc" +:+ " " +:+ "nightly" +:+ "") ∧
   (_check_rust demo_rustc_nightly demo_loose_version_lt w).1 = Raise TypeError).
Proof.
  intros w. split; (split; [reflexivity|]).
  - exact (check_rust_version_word demo_rustc demo_version_lt w
             "rustc" "1.42.0" " (b8cedc004 2020-03-09)"
             ltac:(discriminate) ltac:(discriminate)
             ltac:(repeat constructor) ltac:(repeat constructor)
             ltac:(reflexivity) ltac:(reflexivity)).
  - exact (check_rust_version_word demo_rustc_nightly demo_loose_version_lt w
             "rustc" "nightly" ""
             ltac:(discriminate) ltac:(discriminate)
             ltac:(repeat constructor) ltac:(repeat constructor)
             ltac:(exact I) ltac:(reflexivity)).
Defined.

Lemma submodule_not_initialized_witness :
  let exec := demo_exec "-abc123 postgres" no_failure in
  let w := start demo_host_clean in
  let run :=
    _compile_postgres exec demo_root "Linux" (Some 4) demo_build_base
      true true true true w in
  exec git_submodule_status None (host w)
    = (Exited 0 "-abc123 postgres", host w) ∧
  run.1 = Raise (SystemExit 1) ∧
  new_events w run.2 =
    [EvRun git_submodule_status None (Exited 0 "-abc123 postgres");
     EvPrint "postgres submodule not initialized, run `git submodule init; git submodule update`"] ∧
  host run.2 = host w.
Proof.
  intros exec w run. split; [reflexivity|].
  apply (submodule_not_initialized exec demo_root "Linux" (Some 4) w
           "abc123 postgres" (host w) demo_build_base true true true true).
  reflexivity.
Defined.

Lemma submodule_status_empty_witness :
  let exec := demo_exec "" no_failure in
  let w := start demo_host_clean in
  let run :=
    _compile_postgres exec demo_root "Linux" (Some 4) demo_build_base
      false true true true w in
  exec git_submodule_status None (host w) = (Exited 0 "", host w) ∧
  run.1 = Raise IndexError ∧
  new_events w run.2 = [EvRun git_submodule_status None (Exited 0 "")] ∧
  host run.2 = host w.
Proof.
  intros exec w run. split; [reflexivity|].
  apply (submodule_status_empty exec demo_root "Linux" (Some 4) w
           (host w) demo_build_base false true true true).
  reflexivity.
Defined.

Lemma source_stamp_format_witness :
  let exec := demo_exec demo_git_out no_failure in
  let w := start demo_host_clean in
  exec git_submodule_status None (host w) = (Exited 0 demo_git_out, host w) ∧
  (" "%char ∉ PyStr.chars "abc123") ∧
  (get_source_stamp exec w).1 = Ok "+abc123".
Proof.
  intros exec w.
  assert (" "%char ∉ PyStr.chars "abc123") as Hrev
    by (apply (bool_decide_unpack _); vm_compute; exact I).
  split; [reflexivity|]. split; [exact Hrev|].
  exact (source_stamp_format exec w "+"%char "abc123 postgres (REL_12_STABLE)"
           (host w) "+"%char "abc123" "postgres (REL_12_STABLE)" (host w)
           ltac:(reflexivity) ltac:(discriminate) ltac:(reflexivity) Hrev).
Defined.

Lemma completed_rebuild_ran_plan_witness :
  let exec := demo_exec demo_git_out no_failure in
  let w := start demo_host_clean in
  let w1 := (get_source_stamp exec w).2 in
  let run :=
    _compile_postgres exec demo_root "Linux" (Some 4) demo_build_base
      false true true true w in
  get_source_stamp exec w = (Ok "+abc123", w1) ∧
  get_build_stamp (stamp_path demo_build_base) w1 = (Ok None, w1) ∧
  run.1 = Ok tt ∧
  ∃ n, Some 4 = Some n ∧
    (runs (new_events w1 run.2)).*1 =
      toolchain_plan demo_root demo_build_base (PyStr.of_Z (Z.max (n - 1) 1))
        (is_outdated "+abc123" None) true true true ∧
    all_exited_0 (runs (new_events w1 run.2)).
Proof.
  intros exec w w1 run.
  assert (get_source_stamp exec w = (Ok "+abc123", w1)) as H1
    by (vm_compute; reflexivity).
  assert (get_build_stamp (stamp_path demo_build_base) w1 = (Ok None, w1)) as H2
    by (vm_compute; reflexivity).
  assert (run.1 = Ok tt) as H3 by (vm_compute; reflexivity).
  split; [exact H1|]. split; [exact H2|]. split; [exact H3|].
  exact (proj2 (completed_rebuild_ran_plan exec demo_root "Linux" (Some 4)
                  w "+abc123" w1 None demo_build_base false true true true
                  H1 H2 ltac:(reflexivity) H3)).
Defined.

Lemma rebuild_then_current_witness :
  let exec := demo_exec demo_git_out no_failure in
  let w := start demo_host_clean in
  let w1 := (get_source_stamp exec w).2 in
  let run :=
    _compile_postgres exec demo_root "Linux" (Some 4) demo_build_base
      false true true true w in
  let w1' := (get_source_stamp exec run.2).2 in
  get_source_stamp exec w = (Ok "+abc123", w1) ∧
  get_build_stamp (stamp_path demo_build_base) w1 = (Ok None, w1) ∧
  run.1 = Ok tt ∧
  get_source_stamp exec run.2 = (Ok "+abc123", w1') ∧
  get_build_stamp (stamp_path demo_build_base) w1' = (Ok (Some "+abc123"), w1') ∧
  _compile_postgres exec demo_root "Linux" (Some 4) demo_build_base
    false true true true run.2 = (Ok tt, w1').
Proof.
  intros exec w w1 run w1'.
  assert (get_source_stamp exec w = (Ok "+abc123", w1)) as H1
    by (vm_compute; reflexivity).
  assert (get_build_stamp (stamp_path demo_build_base) w1 = (Ok None, w1)) as H2
    by (vm_compute; reflexivity).
  assert (run.1 = Ok tt) as H3 by (vm_compute; reflexivity).
  assert (get_source_stamp exec run.2 = (Ok "+abc123", w1')) as H4
    by (vm_compute; reflexivity).
  split; [exact H1|]. split; [exact H2|]. split; [exact H3|]. split; [exact H4|].
  destruct (rebuild_then_current exec demo_root "Linux" (Some 4)
              w "+abc123" w1 None demo_build_base false true true true w1'
              H1 H2 ltac:(reflexivity)
              (demo_exec_preserves demo_git_out no_failure
                 (stamp_path demo_build_base)) H3 H4) as [Hbs Hnoop].
  split; [exact Hbs|exact (Hnoop true true true)].
Defined.

Lemma build_dir_after_preparation_witness :
  let w := start (demo_host_built "+abc123") in
  let w2 := (make_build_dir true (postgres_build demo_build_base) w).2 in
  make_build_dir true (postgres_build demo_build_base) w = (Ok tt, w2) ∧
  FS.exists_ (root (host w2)) (build_dir demo_build_base) = true ∧
  FS.lookup (root (host w2)) (build_dir demo_build_base) = Some (Dir ∅).
Proof.
  intros w w2.
  assert (make_build_dir true (postgres_build demo_build_base) w = (Ok tt, w2))
    as H1 by (vm_compute; reflexivity).
  split; [exact H1|].
  destruct (build_dir_after_preparation true demo_build_base w w2 H1)
    as (He & Hnew & _).
  split; [exact He|exact (Hnew eq_refl)].
Defined.

Lemma build_postgres_rebuilds_current_witness :
  let exec := demo_exec demo_git_out no_failure in
  let w := start (demo_host_built "+abc123") in
  let w1 := (get_source_stamp exec w).2 in
  let bb := PurePath.locate [] (PurePath.of_string "/work/edgedb/build") in
  let run :=
    build_postgres.run exec demo_root "Linux" (Some 4) []
      build_postgres.initialize_options "/work/edgedb/build" w in
  get_source_stamp exec w = (Ok "+abc123", w1) ∧
  get_build_stamp (stamp_path bb) w1 = (Ok (Some "+abc123"), w1) ∧
  run.1 = Ok tt ∧
  ∃ j, (∀ n, Some 4 = Some n → j = PyStr.of_Z (Z.max (n - 1) 1)) ∧
    (runs (new_events w1 run.2)).*1 = [make_cmd bb j; install_cmd bb] ∧
    ∃ i, FS.file_at (root (host run.2)) (stamp_path bb) = Some (i, "+abc123").
Proof.
  intros exec w w1 bb run.
  assert (get_source_stamp exec w = (Ok "+abc123", w1)) as H1
    by (vm_compute; reflexivity).
  assert (get_build_stamp (stamp_path bb) w1 = (Ok (Some "+abc123"), w1)) as H2
    by (vm_compute; reflexivity).
  assert (run.1 = Ok tt) as H3 by (vm_compute; reflexivity).
  split; [exact H1|]. split; [exact H2|]. split; [exact H3|].
  destruct (build_postgres_rebuilds_current exec demo_root "Linux" (Some 4) []
              w "+abc123" w1 "/work/edgedb/build" H1 H2) as [_ Hlinux].
  destruct (Hlinux ltac:(left; reflexivity)) as (j & Hj & _ & Hdone).
  exists j. split; [exact Hj|]. exact (Hdone H3).
Defined.


(** The scripts of the distribution in development mode. *)
Example patched_entry_points :
  develop.patched_scripts console_scripts =
  ["edgedb-old = edb.cli:cli_dev";
   "edgedb-server = edb.server.main:main_dev";
   "edgedb = edb.cli:rustcli";
   "edb = edb.tools.edb:edbcommands"].
Proof. reflexivity. Qed.

Lemma cache_key_inj_witness :
  gen_build_cache_key.cache_key [Byte.xde; Byte.xad] "abc123" = "dead-abc123" ∧
  gen_build_cache_key.cache_key [Byte.xde; Byte.xad] "abc123"
    = gen_build_cache_key.cache_key [Byte.xde; Byte.xad] "abc123" ∧
  [Byte.xde; Byte.xad] = [Byte.xde; Byte.xad] ∧ "abc123" = "abc123".
Proof.
  split; [reflexivity|]. split; [reflexivity|].
  exact (cache_key_inj [Byte.xde; Byte.xad] "abc123" [Byte.xde; Byte.xad] "abc123"
           eq_refl).
Defined.

Lemma cache_key_follows_stamp_witness :
  let exec := demo_exec demo_git_out no_failure in
  let w := start demo_host_clean in
  let res := gen_build_cache_key.run exec "/work/edgedb/edb" demo_hash_dirs w in
  (∀ h, (exec git_submodule_status None h).1 = Exited 0 demo_git_out) ∧
  demo_hash_dirs
    [(os_path.join "/work/edgedb/edb" "edgeql/parser/grammar", ".py")] (host w)
    = Ok [Byte.xde; Byte.xad; Byte.x00; Byte.x2a] ∧
  res.1 = Ok tt ∧
  ∃ rev,
    new_events w res.2 =
      [EvRun git_submodule_status None (Exited 0 demo_git_out);
       EvPrint (binascii.hexlify [Byte.xde; Byte.xad; Byte.x00; Byte.x2a]
                +:+ "-" +:+ rev)] ∧
    (∃ sep rest,
       PyStr.partition " " (PyStr.slice_from 1 demo_git_out) = (rev, sep, rest)) ∧
    ∀ stamp w1, get_source_stamp exec w = (Ok stamp, w1) →
                ∃ c, stamp = String c rev.
Proof.
  intros exec w res.
  assert (∀ h, (exec git_submodule_status None h).1 = Exited 0 demo_git_out)
    as H1 by (intros h; reflexivity).
  split; [exact H1|]. split; [reflexivity|].
  exact (cache_key_follows_stamp exec "/work/edgedb/edb" demo_hash_dirs w
           [Byte.xde; Byte.xad; Byte.x00; Byte.x2a] demo_git_out H1 eq_refl).
Defined.

(** The key of the example. *)
Example cache_key_printed :
  events
    (gen_build_cache_key.run (demo_exec demo_git_out no_failure)
       "/work/edgedb/edb" demo_hash_dirs (start demo_host_clean)).2 =
  [EvRun git_submodule_status None (Exited 0 demo_git_out);
   EvPrint "dead002a-abc123"].
Proof. reflexivity. Qed.

Lemma directives_parsed_witness :
  let m : gmap string build_ext.PyVal :=
    <["boundscheck" := build_ext.VStr "off"]>
      (<["linetrace" := build_ext.VBool true]>
         {[ "language_level" := build_ext.VStr "3" ]}) in
  build_ext.compiler_directives demo_build_ext_options = inr m ∧
  NoDup (directive_key <$> PyStr.split "," "linetrace=True,boundscheck=off") ∧
  m !! "linetrace" = Some (build_ext.VBool true) ∧
  m !! "boundscheck" = Some (build_ext.VStr "off") ∧
  m !! "language_level" = Some (build_ext.VStr "3").
Proof.
  intros m.
  assert (build_ext.compiler_directives demo_build_ext_options = inr m) as Hm
    by (vm_compute; reflexivity).
  assert (NoDup (directive_key <$> PyStr.split "," "linetrace=True,boundscheck=off"))
    as Hnd by (apply (bool_decide_unpack _); vm_compute; exact I).
  destruct (directives_parsed demo_build_ext_options
              "linetrace=True,boundscheck=off" m eq_refl ltac:(discriminate)
              Hm Hnd) as [Hin Hout].
  split; [exact Hm|]. split; [exact Hnd|]. split_and!.
  - exact (Hin "linetrace=True" ltac:(apply (bool_decide_unpack _); vm_compute; exact I)).
  - exact (Hin "boundscheck=off" ltac:(apply (bool_decide_unpack _); vm_compute; exact I)).
  - exact (Hout "language_level" ltac:(apply (bool_decide_unpack _); vm_compute; exact I)).
Defined.

Lemma build_ext_inplace_moves_nothing_witness :
  let w := start demo_host_ext in
  let res :=
    run demo_rustc demo_version_lt demo_get_ext_fullpath demo_build_rust
      demo_super_run demo_build_ext_inplace w in
  inplace demo_build_ext_inplace = true ∧
  res.1 = Ok tt ∧
  Forall (λ ev, (∀ p, ev ≠ EvUnlink p) ∧ (∀ p, ev ≠ EvMkdir p) ∧
                (∀ s d, ev ≠ EvCopyfile s d)) (new_events w res.2).
Proof.
  intros w res. split; [reflexivity|]. split; [vm_compute; reflexivity|].
  exact (proj1 (build_ext_inplace_moves_nothing demo_rustc demo_version_lt
                  demo_get_ext_fullpath demo_build_rust demo_super_run
                  demo_build_ext_inplace w (or_introl eq_refl))).
Defined.

Lemma build_ext_stops_without_rust_witness :
  let w := start demo_host_ext in
  let e := RuntimeError
    "please install rustc >= 1.42.0 to compile edgedb from source (see https://rustup.rs/)" in
  let res :=
    run demo_no_rustc demo_version_lt demo_get_ext_fullpath demo_build_rust
      demo_super_run demo_build_ext w in
  rust_extensions demo_build_ext ≠ [] ∧
  (_check_rust demo_no_rustc demo_version_lt
     (emit (EvPrint "running build_rust") (host w) w)).1 = Raise e ∧
  res.1 = Raise e ∧
  ∃ r, new_events w res.2 =
         [EvPrint "running build_rust"; EvRun ["rustc"; "-V"] None r].
Proof.
  intros w e res.
  assert (rust_extensions demo_build_ext ≠ []) as H1 by discriminate.
  assert ((_check_rust demo_no_rustc demo_version_lt
             (emit (EvPrint "running build_rust") (host w) w)).1 = Raise e)
    as H2 by (vm_compute; reflexivity).
  split; [exact H1|]. split; [exact H2|].
  exact (build_ext_stops_without_rust demo_no_rustc demo_version_lt
           demo_get_ext_fullpath demo_build_rust demo_super_run
           demo_build_ext w e H1 H2).
Defined.

Lemma build_ext_copies_artifacts_witness :
  let w := start demo_host_ext in
  let res :=
    run demo_rustc demo_version_lt demo_get_ext_fullpath demo_build_rust
      demo_super_run demo_build_ext w in
  inplace demo_build_ext = false ∧
  NoDup (demo_get_ext_fullpath true <$> rust_extensions demo_build_ext) ∧
  res.1 = Ok tt ∧
  ∃ built i d j,
    (EvBuildRust (debug demo_build_ext) (Ok tt), built) ∈ new_trace w res.2 ∧
    FS.file_at built (demo_get_ext_fullpath false "_edgeql_rust") = Some (i, d) ∧
    FS.file_at (root (host res.2)) (demo_get_ext_fullpath true "_edgeql_rust")
      = Some (j, d).
Proof.
  intros w res.
  assert (NoDup (demo_get_ext_fullpath true <$> rust_extensions demo_build_ext))
    as H2 by (apply (bool_decide_unpack _); vm_compute; exact I).
  assert (res.1 = Ok tt) as H3 by (vm_compute; reflexivity).
  split; [reflexivity|]. split; [exact H2|]. split; [exact H3|].
  apply (build_ext_copies_artifacts demo_rustc demo_version_lt
           demo_get_ext_fullpath demo_build_rust demo_super_run
           demo_build_ext w eq_refl H2).
  - intros e1 e2 He1 He2.
    apply list_elem_of_singleton in He1 as ->.
    apply list_elem_of_singleton in He2 as ->.
    vm_compute. discriminate.
  - intros e _ h. reflexivity.
  - exact H3.
  - apply list_elem_of_here.
Defined.

(** The artifact of the example ends up in the source tree. *)
Example build_ext_artifact_in_place :
  FS.file_at
    (root (host (run demo_rustc demo_version_lt demo_get_ext_fullpath
                   demo_build_rust demo_super_run demo_build_ext
                   (start demo_host_ext)).2))
    (demo_get_ext_fullpath true "_edgeql_rust")
  = Some (11%nat, "new artifact").
Proof. vm_compute. reflexivity. Qed.

Lemma stamp_path_is_directory_witness :
  let exec := demo_exec demo_git_out no_failure in
  let w := start demo_host_stamp_dir in
  let w1 := (get_source_stamp exec w).2 in
  get_source_stamp exec w = (Ok "+abc123", w1) ∧
  FS.lookup (root (host w1)) (stamp_path demo_build_base) = Some (Dir ∅) ∧
  _compile_postgres exec demo_root "Linux" (Some 4) demo_build_base
    true true true true w
    = (Raise (OSError IsADirectoryError (stamp_path demo_build_base)), w1).
Proof.
  intros exec w w1.
  assert (get_source_stamp exec w = (Ok "+abc123", w1)) as H1
    by (vm_compute; reflexivity).
  assert (FS.lookup (root (host w1)) (stamp_path demo_build_base) = Some (Dir ∅))
    as H2 by (vm_compute; reflexivity).
  split; [exact H1|]. split; [exact H2|].
  exact (stamp_path_is_directory exec demo_root "Linux" (Some 4) w "+abc123" w1 ∅
           demo_build_base true true true true H1 H2).
Defined.

Lemma unknown_cpu_count_witness :
  let exec := demo_exec demo_git_out no_failure in
  let w := start demo_host_clean in
  let w1 := (get_source_stamp exec w).2 in
  let run :=
    _compile_postgres exec demo_root "Linux" None demo_build_base
      false true true true w in
  get_source_stamp exec w = (Ok "+abc123", w1) ∧
  get_build_stamp (stamp_path demo_build_base) w1 = (Ok None, w1) ∧
  (runs (new_events w1 run.2)).*1 `prefix_of`
    configure_steps demo_root demo_build_base (is_outdated "+abc123" None)
      true true ∧
  run.1 ≠ Ok tt ∧
  run.1 = Raise TypeError.
Proof.
  intros exec w w1 run.
  assert (get_source_stamp exec w = (Ok "+abc123", w1)) as H1
    by (vm_compute; reflexivity).
  assert (get_build_stamp (stamp_path demo_build_base) w1 = (Ok None, w1)) as H2
    by (vm_compute; reflexivity).
  split; [exact H1|]. split; [exact H2|].
  destruct (unknown_cpu_count exec demo_root "Linux" None
              w "+abc123" w1 None demo_build_base false true true true
              H1 H2 ltac:(reflexivity) ltac:(left; reflexivity) eq_refl)
    as (Hpre & Hne & Herr).
  split; [exact Hpre|]. split; [exact Hne|].
  assert ((make_build_dir true (postgres_build demo_build_base) w1).1 = Ok tt)
    as Hprep by (vm_compute; reflexivity).
  assert (all_exited_0 (runs (new_events w1 run.2))) as Hall.
  { assert (runs (new_events w1 run.2)
            = [(configure_cmd demo_root demo_build_base, Exited 0 "")]) as ->
      by (vm_compute; reflexivity).
    constructor; [by exists ""|constructor]. }
  exact (Herr Hprep Hall).
Defined.

Lemma build_dir_is_a_file_witness :
  let exec := demo_exec demo_git_out no_failure in
  let w := start demo_host_build_file in
  let w1 := (get_source_stamp exec w).2 in
  let run :=
    _compile_postgres exec demo_root "Linux" (Some 4) demo_build_base
      false false true true w in
  get_source_stamp exec w = (Ok "+abc123", w1) ∧
  get_build_stamp (stamp_path demo_build_base) w1 = (Ok None, w1) ∧
  FS.file_at (root (host w1)) (build_dir demo_build_base)
    = Some (7%nat, "not a directory") ∧
  run.1 = Raise (OSError NotADirectoryError (build_dir demo_build_base)) ∧
  new_events w1 run.2 =
    [EvRun (configure_cmd demo_root demo_build_base).1
       (Some (build_dir demo_build_base)) (NoCwd NotADirectoryError)] ∧
  host run.2 = host w1.
Proof.
  intros exec w w1 run.
  assert (get_source_stamp exec w = (Ok "+abc123", w1)) as H1
    by (vm_compute; reflexivity).
  assert (get_build_stamp (stamp_path demo_build_base) w1 = (Ok None, w1)) as H2
    by (vm_compute; reflexivity).
  assert (FS.file_at (root (host w1)) (build_dir demo_build_base)
          = Some (7%nat, "not a directory")) as H3 by (vm_compute; reflexivity).
  split; [exact H1|]. split; [exact H2|]. split; [exact H3|].
  exact (build_dir_is_a_file exec demo_root "Linux" (Some 4)
           w "+abc123" w1 None demo_build_base false true true
           7%nat "not a directory" H1 H2
           ltac:(reflexivity) ltac:(left; reflexivity) H3 ltac:(reflexivity)).
Defined.

Lemma compile_postgres_footprint_witness :
  let exec := demo_exec demo_git_out no_failure in
  let w := start demo_host_ext in
  let run :=
    _compile_postgres exec demo_root "Linux" (Some 4) demo_build_base
      false true true true w in
  let t := demo_root ++ ["edb"; "_edgeql_rust.so"] in
  run.1 = Ok tt ∧
  FS.file_at (root (host w)) t = Some (5%nat, "old artifact") ∧
  FS.file_at (root (host run.2)) t = Some (5%nat, "old artifact") ∧
  FS.is_dir (root (host w)) (postgres_build demo_build_base) = false ∧
  FS.is_dir (root (host run.2)) (postgres_build demo_build_base) = true.
Proof.
  intros exec w run t.
  assert (FS.file_at (root (host w)) t = Some (5%nat, "old artifact")) as Hbefore
    by (vm_compute; reflexivity).
  split; [vm_compute; reflexivity|]. split; [exact Hbefore|].
  split; [|split; vm_compute; reflexivity].
  destruct (compile_postgres_footprint exec demo_root "Linux" (Some 4)
              w demo_build_base false true true true) as (_ & Hfile & _).
  rewrite <-Hbefore. apply Hfile.
  - intros [k Hk]. vm_compute in Hk. congruence.
  - intros argv dir h. unfold exec, demo_exec.
    destruct (bool_decide _); [done|]. by destruct (no_failure argv).
Defined.

Lemma compile_parsers_at_root_witness :
  let w := start demo_host_clean in
  let res :=
    _compile_parsers [] (demo_root_module "single") (demo_root_module "block")
      (demo_root_module "sdldocument") demo_root demo_parsing_Spec
      demo_build_lib false w in
  let pickle :=
    PurePath.locate demo_root demo_build_lib
    ++ ["db"; "edgeql"; "parser"; "grammar"; "single.pickle"] in
  grammar_module [] (demo_root_module "single") "single" ∧
  pickle ≠ cache_path demo_root demo_build_lib "single.pickle" ∧
  (spec_calls (new_events w res.2) = [] ∨
   ∃ rest, spec_calls (new_events w res.2)
           = ("edb.edgeql.parser.grammar.single", pickle) :: rest).
Proof.
  intros w res pickle.
  assert (grammar_module [] (demo_root_module "single") "single") as H1
    by (split; vm_compute; reflexivity).
  split; [exact H1|].
  exact (compile_parsers_at_root demo_root (demo_root_module "single")
           (demo_root_module "block") (demo_root_module "sdldocument")
           demo_parsing_Spec demo_build_lib false w H1).
Defined.

(** With the source tree at the root, the three tables of the example
    end up below [build/lib/db]. *)
Example compile_parsers_at_root_files :
  spec_calls
    (events
       (_compile_parsers [] (demo_root_module "single") (demo_root_module "block")
          (demo_root_module "sdldocument") demo_root demo_parsing_Spec
          demo_build_lib false (start demo_host_clean)).2) =
  [("edb.edgeql.parser.grammar.single",
    demo_root ++ ["build"; "lib"; "db"; "edgeql"; "parser"; "grammar"; "single.pickle"]);
   ("edb.edgeql.parser.grammar.block",
    demo_root ++ ["build"; "lib"; "db"; "edgeql"; "parser"; "grammar"; "block.pickle"]);
   ("edb.edgeql.parser.grammar.sdldocument",
    demo_root ++ ["build"; "lib"; "db"; "edgeql"; "parser"; "grammar"; "sdldocument.pickle"])].
Proof. vm_compute. reflexivity. Qed.
